(** * XRPL Playground: the test-suite engine of [app.js]

    A shallow embedding of the test registry, the transaction-object
    builders, the test runner and the result aggregator of [src/app.js],
    together with the properties the specification states about them;
    then the editor around them (selection, workspace, validation, drag and
    drop, storage, accounts), with further properties of the whole.

    Conventions of the embedding.
    - A JavaScript string is a sequence of UTF-16 code units.  We use Rocq's
      [string] and read every [ascii] as one code unit in the range 0..255;
      strings containing larger code units are outside the model.
    - A JavaScript number is an IEEE-754 binary64 value; we use the kernel's
      primitive [float], whose operations are exactly those of binary64.
    - Mutable globals ([transactions], [accounts], ...) are fields of an
      explicit [State]; functions that mutate them are state transformers in
      a small state-and-exception monad.
    - The DOM, local storage, the toast area and the XRPL client are
      external; calls into them are recorded in an event log, and the
      answers of the XRPL client come from an oracle.  The page elements
      the runner and the summary look up are taken to exist, drawing and saving do not
      throw, and an error that is thrown carries a string [message].
    - [await] suspends the runner only; no other handler is taken to run in
      between, so a run is one uninterrupted state transformer.
    - Of the page, the model keeps which transaction body the workspace
      holds and the content of the validation area; labels, section
      visibility, placeholders and the palette are not kept, and the calls
      that only touch them are left out of the editor functions. *)

From Stdlib Require Import ZArith Ascii String DecimalString Uint63 PrimFloat SpecFloat FloatOps.
From stdpp Require Import base option strings list gmap.

Set Warnings "-register-all".
Local Open Scope string_scope.

(* ================================================================= *)
(** ** Host-language primitives *)

Module JS.

(** Code-unit classes. *)
Definition code (c : ascii) : N := N_of_ascii c.

(** ECMAScript [WhiteSpace] and [LineTerminator] code units below 256:
    TAB, LF, VT, FF, CR, SP and NBSP. *)
Definition is_whitespace (c : ascii) : bool :=
  let n := code c in
  (((9 <=? n) && (n <=? 13)) || (n =? 32) || (n =? 160))%N.

Definition is_digit (c : ascii) : bool :=
  let n := code c in ((48 <=? n) && (n <=? 57))%N.

Definition digit_value (c : ascii) : Z := Z.of_N (code c) - 48.

(** The longest prefix of [s] whose code units satisfy [p], and the rest. *)
Fixpoint span (p : ascii -> bool) (s : string) : string * string :=
  match s with
  | EmptyString => (EmptyString, EmptyString)
  | String c r =>
      if p c then let '(a, b) := span p r in (String c a, b)
      else (EmptyString, s)
  end.

Definition trimStart (s : string) : string := snd (span is_whitespace s).

Fixpoint trimEnd (s : string) : string :=
  match s with
  | EmptyString => EmptyString
  | String c r =>
      match trimEnd r with
      | EmptyString => if is_whitespace c then EmptyString else String c EmptyString
      | r' => String c r'
      end
  end.

(** [String.prototype.trim]. *)
Definition trim (s : string) : string := trimEnd (trimStart s).

(** [String.prototype.startsWith]. *)
Definition startsWith (s pre : string) : bool := String.prefix pre s.

(** The mathematical integer denoted by a run of decimal digits, read left
    to right with accumulator [acc]. *)
Fixpoint decimal_value (acc : Z) (s : string) : Z :=
  match s with
  | EmptyString => acc
  | String c r => decimal_value (10 * acc + digit_value c) r
  end.

(** The sign prefix accepted by [parseInt]: one optional [+] or [-]. *)
Definition strip_sign (s : string) : bool * string :=
  match s with
  | String c r =>
      if Ascii.eqb c "-" then (true, r)
      else if Ascii.eqb c "+" then (false, r)
      else (false, s)
  | EmptyString => (false, s)
  end.

(** The mathematical part of [parseInt(s, 10)] (ECMA-262, 19.2.5): skip
    leading white space, read an optional sign, then the longest run of
    decimal digits.  [None] stands for the case where the run is empty,
    in which [parseInt] returns NaN; otherwise the result is the sign and
    the integer denoted by the run.  Radix 10 is given explicitly, so no
    [0x] prefix is recognised. *)
Definition parseInt_digits (s : string) : option (bool * Z) :=
  let '(neg, body) := strip_sign (trimStart s) in
  match fst (span is_digit body) with
  | EmptyString => None
  | ds => Some (neg, decimal_value 0 ds)
  end.

(** The Number value of a signed integer: round-to-nearest-even conversion
    to binary64, with a negative zero for [-0]. *)
Definition Number_of_int (neg : bool) (n : Z) : float :=
  SF2Prim (binary_normalize prec emax (if neg then (- n)%Z else n) 0 neg).

(** [parseInt(s, 10)], with [None] for NaN.  [isNaN(parseInt(s, 10))] holds
    exactly when this is [None]: a non-empty digit run never yields NaN. *)
Definition parseInt (s : string) : option float :=
  match parseInt_digits s with
  | None => None
  | Some (neg, n) => Some (Number_of_int neg n)
  end.

(** The Number value of an array length or an element count. *)
Definition Number_of_nat (n : nat) : float :=
  PrimFloat.of_uint63 (Uint63.of_Z (Z.of_nat n)).

(** [Math.round] on a finite number, as the integer it returns: the integer
    closest to [x], ties going towards positive infinity.  The value of [x]
    is read off exactly from its binary64 decomposition [m * 2^e].  NaN and
    the infinities (returned unchanged by [Math.round]) are mapped to 0
    here; no caller produces them. *)
Definition Math_round (x : float) : Z :=
  match Prim2SF x with
  | S754_finite s m e =>
      let v := if s then Z.neg m else Z.pos m in
      if (0 <=? e)%Z then (v * 2 ^ e)%Z
      else ((2 * v + 2 ^ (- e)) / 2 ^ (- e + 1))%Z
  | _ => 0%Z
  end.

(** Values that JSON can denote, and that a transaction object can hold. *)
Inductive Value : Type :=
  | Null
  | Bool (b : bool)
  | Num (x : float)
  | Str (s : string)
  | Arr (items : list Value)
  | Obj (members : list (string * Value)).

(** [ToBoolean]: the test performed by [!v] and [if (v)].  An absent
    property ([undefined]) is handled by the caller. *)
Definition truthy (v : Value) : bool :=
  match v with
  | Null => false
  | Bool b => b
  | Num x => negb (PrimFloat.is_zero x || PrimFloat.is_nan x)
  | Str s => negb (s =? "")
  | Arr _ | Obj _ => true
  end.

Definition truthy_opt (v : option Value) : bool :=
  match v with Some v => truthy v | None => false end.

End JS.

(* ================================================================= *)
(** ** The result-code pattern of the runner *)

(** The character class [[cflmrs]]. *)
Definition is_code_class (c : ascii) : bool :=
  match c with
  | "c" | "f" | "l" | "m" | "r" | "s" => true
  | _ => false
  end%char.

(** The character class [[A-Z_]]. *)
Definition is_code_char (c : ascii) : bool :=
  let n := JS.code c in (((65 <=? n) && (n <=? 90)) || (n =? 95))%N.

(** A match of [te[cflmrs][A-Z_]+] anchored at the start of [s]; the
    quantifier is greedy and nothing follows it, so the match takes the
    whole run of [[A-Z_]] code units. *)
Definition match_code_here (s : string) : option string :=
  match s with
  | String "t" (String "e" (String k rest)) =>
      if is_code_class k then
        match fst (JS.span is_code_char rest) with
        | EmptyString => None
        | run => Some (String "t" (String "e" (String k run)))
        end
      else None
  | _ => None
  end.

(** [msg.match(/(te[cflmrs][A-Z_]+)/)], returning capture group 1 of the
    leftmost match. *)
Fixpoint resultCodeMatch (msg : string) : option string :=
  match match_code_here msg with
  | Some c => Some c
  | None =>
      match msg with
      | EmptyString => None
      | String _ r => resultCodeMatch r
      end
  end.


(* ================================================================= *)
(** ** Data model *)

(** [status: 'pending' | 'running' | 'passed' | 'failed']. *)
Inductive Status : Type := pending | running | passed | failed.

#[global] Instance Status_eq_dec : EqDecision Status.
Proof. solve_decision. Defined.

(** The value of a field block: absent ([null]/[undefined]), a scalar
    string, or the record built by the IOU and MPT inputs, whose members are
    strings. *)
Inductive RawValue : Type :=
  | VAbsent
  | VStr (s : string)
  | VObj (members : list (string * string)).

(** [{ fieldName, value }]. *)
Record Block : Type := mkBlock {
  blk_fieldName : string;
  blk_value : RawValue
}.

#[global] Instance RawValue_eq_dec : EqDecision RawValue.
Proof. solve_decision. Defined.

#[global] Instance Block_eq_dec : EqDecision Block.
Proof. solve_decision. Defined.

(** An instant, as returned by [new Date().toISOString()]. *)
Definition Timestamp : Type := nat.

(** The object made by [createTransaction]. *)
Record Transaction : Type := mkTransaction {
  tx_id : string;
  tx_name : string;
  tx_type : option string;
  tx_blocks : list Block;
  tx_status : Status;
  tx_expectedResult : string;
  tx_actualResult : option string;
  tx_submittedAt : option Timestamp;
  tx_hash : option string
}.

(** [{ address, seed }]; the seed is optional. *)
Record Account : Type := mkAccount {
  acc_address : string;
  acc_seed : option string
}.

(** An entry of [definitions.FIELDS]: only [type] is read by the engine. *)
Record FieldInfo : Type := mkFieldInfo {
  fi_type : string
}.

(** Truthiness of an optional string ([!transaction.type], [acc.seed]). *)
Definition truthy_string (o : option string) : bool :=
  match o with
  | Some s => negb (s =? "")
  | None => false
  end.

(** Truthiness of a block value ([!block.value]). *)
Definition truthy_value (v : RawValue) : bool :=
  match v with
  | VAbsent => false
  | VStr s => negb (s =? "")
  | VObj _ => true
  end.

(** A transaction object under construction: a JavaScript object used as a
    map from field names to values. *)
Abbreviation TxObject := (gmap string JS.Value).

(* ================================================================= *)
(** ** Field types and the two transaction-object builders *)

Section Builder.

(** The field catalog [definitions.FIELDS], loaded from [definitions.json],
    and the host's [JSON.parse] ([None] when it throws). *)
Variable FIELDS : list (string * FieldInfo).
Variable JSON_parse : string -> option JS.Value.

(** [getFieldInfo]: the first catalog entry with that name. *)
Definition getFieldInfo (fieldName : string) : option FieldInfo :=
  snd <$> List.find (fun entry => fst entry =? fieldName) FIELDS.

(** [fieldInfo && fieldInfo.type === 'Amount']. *)
Definition is_Amount (fieldInfo : option FieldInfo) : bool :=
  match fieldInfo with
  | Some info => fi_type info =? "Amount"
  | None => false
  end.

(** [type.startsWith('UInt') || type === 'Number']. *)
Definition is_numeric_type (type : string) : bool :=
  JS.startsWith type "UInt" || (type =? "Number").

(** [convertFieldValue(value, fieldInfo)] on a string [value]. *)
Definition convertFieldValue (value : string) (fieldInfo : option FieldInfo) : JS.Value :=
  match fieldInfo with
  | None => JS.Str value
  | Some info =>
      let type := fi_type info in
      if type =? "Amount" then JS.Str value
      else if is_numeric_type type then
        match JS.parseInt value with
        | None => JS.Str value
        | Some num => JS.Num num
        end
      else JS.Str value
  end.

(** The copy made of an IOU/MPT record: every member coerced with
    [String(...)], which is the identity on the strings it holds. *)
Definition cleanedObject (members : list (string * string)) : JS.Value :=
  JS.Obj (List.map (fun kv => (fst kv, JS.Str (snd kv))) members).

(** The body of the [forEach] in [buildTransactionObjectFromTest]. *)
Definition addBlockFromTest (txObject : TxObject) (block : Block) : TxObject :=
  if negb (truthy_value (blk_value block)) then txObject
  else
    match blk_value block with
    | VAbsent => txObject
    | VObj members => <[blk_fieldName block := cleanedObject members]> txObject
    | VStr valueStr =>
        let fieldInfo := getFieldInfo (blk_fieldName block) in
        if is_Amount fieldInfo then
          <[blk_fieldName block := convertFieldValue valueStr fieldInfo]> txObject
        else
          match JSON_parse valueStr with
          | Some parsed => <[blk_fieldName block := parsed]> txObject
          | None => <[blk_fieldName block := convertFieldValue valueStr fieldInfo]> txObject
          end
    end.

(** [buildTransactionObjectFromTest(transaction)]: the object literal
    [{ TransactionType: transaction.type }] always has the key, holding
    [null] when the type is unset. *)
Definition buildTransactionObjectFromTest (transaction : Transaction) : TxObject :=
  let txObject : TxObject :=
    {[ "TransactionType" := match tx_type transaction with
                            | Some t => JS.Str t
                            | None => JS.Null
                            end ]} in
  foldl addBlockFromTest txObject (tx_blocks transaction).

(** The body of the [forEach] in [buildTransactionObject]. *)
Definition addBlock (transaction : TxObject) (block : Block) : TxObject :=
  if truthy_value (blk_value block) then
    match blk_value block with
    | VAbsent => transaction
    | VObj members => <[blk_fieldName block := cleanedObject members]> transaction
    | VStr valueStr =>
        if negb (JS.trim valueStr =? "") then
          <[blk_fieldName block :=
              convertFieldValue valueStr (getFieldInfo (blk_fieldName block))]> transaction
        else transaction
    end
  else transaction.

(** [buildTransactionObject()], given what it reads from the globals: the
    type and the blocks of the current transaction, or the legacy
    [transactionType] and [workspaceBlocks] when there is none. *)
Definition buildTransactionObject_of (txType : option string) (blocks : list Block) : TxObject :=
  let transaction : TxObject :=
    if truthy_string txType then
      match txType with
      | Some t => {[ "TransactionType" := JS.Str t ]}
      | None => ∅
      end
    else ∅ in
  foldl addBlock transaction blocks.

End Builder.

(* ================================================================= *)
(** ** Global state, external effects and the effect monad *)

(** The [type] argument of [showToast] and [showValidationMessage]. *)
Inductive Level : Type := info | success | warning | error.

(** What [renderTestResultsSummary] shows. *)
Record Summary : Type := mkSummary {
  sum_total : nat;
  sum_passed : nat;
  sum_failed : nat;
  sum_passRate : Z
}.

(** Calls that leave the engine.  Toast texts are recorded without their
    leading pictograph. *)
Inductive Event : Type :=
  | EvToast (message : string) (level : Level)
  | EvRenderTestQueue (shown : list Transaction)
  | EvSaveTests (saved : list Transaction)
  | EvRenderSummary (shown : option Summary)
  | EvCreateWorkspaceBlock (fieldName blockType : string)
  | EvConnect (endpoint : option string)
  | EvWalletFromSeed (seed : string)
  | EvLedgerRequest
  | EvSubmitAndWait (txObject : TxObject)
  | EvDisconnect.

(** Whether an event is a call to the XRPL client library. *)
Definition is_network_event (e : Event) : bool :=
  match e with
  | EvConnect _ | EvWalletFromSeed _ | EvLedgerRequest
  | EvSubmitAndWait _ | EvDisconnect => true
  | _ => false
  end.

(** The module-level variables of [app.js], the part of the DOM the engine
    reads back, and the log of external calls. *)
Record State : Type := mkState {
  transactions : list Transaction;
  currentTransactionId : option string;
  accounts : list Account;
  currentNetwork : string;
  workspaceBlocks : list Block;
  transactionType : option string;
  (** the transaction whose [transaction-body-<id>] element is in the page *)
  workspaceBody : option string;
  (** the children of [#validation-messages] *)
  validationMessages : list (string * Level);
  (** how many times the clock was read, and how many clients were made *)
  clockReads : nat;
  sessions : nat;
  events : list Event
}.

Definition with_transactions (f : list Transaction -> list Transaction) (st : State) : State :=
  mkState (f (transactions st)) (currentTransactionId st) (accounts st)
    (currentNetwork st) (workspaceBlocks st) (transactionType st)
    (workspaceBody st) (validationMessages st) (clockReads st) (sessions st)
    (events st).

Definition with_workspaceBlocks (f : list Block -> list Block) (st : State) : State :=
  mkState (transactions st) (currentTransactionId st) (accounts st)
    (currentNetwork st) (f (workspaceBlocks st)) (transactionType st)
    (workspaceBody st) (validationMessages st) (clockReads st) (sessions st)
    (events st).

Definition with_validationMessages
    (f : list (string * Level) -> list (string * Level)) (st : State) : State :=
  mkState (transactions st) (currentTransactionId st) (accounts st)
    (currentNetwork st) (workspaceBlocks st) (transactionType st)
    (workspaceBody st) (f (validationMessages st)) (clockReads st) (sessions st)
    (events st).

Definition with_clockReads (f : nat -> nat) (st : State) : State :=
  mkState (transactions st) (currentTransactionId st) (accounts st)
    (currentNetwork st) (workspaceBlocks st) (transactionType st)
    (workspaceBody st) (validationMessages st) (f (clockReads st)) (sessions st)
    (events st).

Definition with_sessions (f : nat -> nat) (st : State) : State :=
  mkState (transactions st) (currentTransactionId st) (accounts st)
    (currentNetwork st) (workspaceBlocks st) (transactionType st)
    (workspaceBody st) (validationMessages st) (clockReads st) (f (sessions st))
    (events st).

Definition with_events (f : list Event -> list Event) (st : State) : State :=
  mkState (transactions st) (currentTransactionId st) (accounts st)
    (currentNetwork st) (workspaceBlocks st) (transactionType st)
    (workspaceBody st) (validationMessages st) (clockReads st) (sessions st)
    (f (events st)).

(** A call either returns or throws an [Error] with a [message]. *)
Inductive Outcome (A : Type) : Type :=
  | Returns (a : A)
  | Throws (message : string).
Arguments Returns {A} a.
Arguments Throws {A} message.

(** Computations over the globals that may throw. *)
Definition M (A : Type) : Type := State -> Outcome A * State.

Definition ret {A} (a : A) : M A := fun st => (Returns a, st).

Definition bind {A B} (m : M A) (k : A -> M B) : M B :=
  fun st =>
    match m st with
    | (Returns a, st') => k a st'
    | (Throws msg, st') => (Throws msg, st')
    end.

Definition gets {A} (f : State -> A) : M A := fun st => (Returns (f st), st).

Definition modify (f : State -> State) : M unit := fun st => (Returns tt, f st).

Definition throw {A} (o : Outcome A) : M A := fun st => (o, st).

(** [try { body } catch (error) { handler(error.message) }]. *)
Definition try_catch {A} (body : M A) (handler : string -> M A) : M A :=
  fun st =>
    match body st with
    | (Returns a, st') => (Returns a, st')
    | (Throws msg, st') => handler msg st'
    end.

Declare Scope js_scope.
Delimit Scope js_scope with js.
Notation "x <- m ;; k" := (bind m (fun x => k))
  (at level 100, m at next level, right associativity) : js_scope.
Notation "m ;; k" := (bind m (fun _ => k))
  (at level 100, right associativity) : js_scope.
Local Open Scope js_scope.

(** The state a computation ends in. *)
Definition exec {A} (m : M A) (st : State) : State := snd (m st).

Definition emit (e : Event) : M unit :=
  modify (with_events (fun l => (l ++ [e])%list)).

(** [showToast(message, type, ...)]. *)
Definition showToast (message : string) (level : Level) : M unit :=
  emit (EvToast message level).

(** [renderTestQueue()]: draws every transaction as it is now. *)
Definition renderTestQueue : M unit :=
  txs <- gets transactions ;; emit (EvRenderTestQueue txs).

(** [saveTestsToStorage()]: serialises [transactions] into local storage. *)
Definition saveTestsToStorage : M unit :=
  txs <- gets transactions ;; emit (EvSaveTests txs).

(** [showValidationMessage(message, type)]: appends a message element. *)
Definition showValidationMessage (message : string) (level : Level) : M unit :=
  modify (with_validationMessages (fun l => (l ++ [(message, level)])%list)).

(* ================================================================= *)
(** ** The test registry *)

(** [transactions.find(tx => tx.id === id)]. *)
Definition find_transaction (id : string) (txs : list Transaction) : option Transaction :=
  List.find (fun tx => tx_id tx =? id) txs.

(** A write through the reference that [find_transaction] returns: the
    first transaction with that id is changed in place. *)
Fixpoint update_transaction (id : string) (f : Transaction -> Transaction)
    (txs : list Transaction) : list Transaction :=
  match txs with
  | [] => []
  | tx :: rest =>
      if tx_id tx =? id then f tx :: rest
      else tx :: update_transaction id f rest
  end.

Definition set_status (s : Status) (tx : Transaction) : Transaction :=
  mkTransaction (tx_id tx) (tx_name tx) (tx_type tx) (tx_blocks tx) s
    (tx_expectedResult tx) (tx_actualResult tx) (tx_submittedAt tx) (tx_hash tx).

Definition set_actualResult (r : option string) (tx : Transaction) : Transaction :=
  mkTransaction (tx_id tx) (tx_name tx) (tx_type tx) (tx_blocks tx) (tx_status tx)
    (tx_expectedResult tx) r (tx_submittedAt tx) (tx_hash tx).

Definition set_submittedAt (t : option Timestamp) (tx : Transaction) : Transaction :=
  mkTransaction (tx_id tx) (tx_name tx) (tx_type tx) (tx_blocks tx) (tx_status tx)
    (tx_expectedResult tx) (tx_actualResult tx) t (tx_hash tx).

Definition set_hash (h : option string) (tx : Transaction) : Transaction :=
  mkTransaction (tx_id tx) (tx_name tx) (tx_type tx) (tx_blocks tx) (tx_status tx)
    (tx_expectedResult tx) (tx_actualResult tx) (tx_submittedAt tx) h.

Definition set_blocks (bs : list Block) (tx : Transaction) : Transaction :=
  mkTransaction (tx_id tx) (tx_name tx) (tx_type tx) bs (tx_status tx)
    (tx_expectedResult tx) (tx_actualResult tx) (tx_submittedAt tx) (tx_hash tx).

Definition modify_transaction (id : string) (f : Transaction -> Transaction) : M unit :=
  modify (with_transactions (update_transaction id f)).

(** The double quote, for messages that quote a name. *)
Definition dquote : string := String (ascii_of_nat 34) EmptyString.

(** [const passRate = total > 0 ? Math.round((passed / total) * 100) : 0],
    evaluated in binary64 as written: the quotient first, then the product. *)
Definition passRate (passed total : nat) : Z :=
  if (0 <? total)%nat then
    JS.Math_round
      (PrimFloat.mul (PrimFloat.div (JS.Number_of_nat passed) (JS.Number_of_nat total))
                     100%float)
  else 0%Z.

(** [transactions.filter(tx => tx.status === s).length]. *)
Definition count_status (s : Status) (txs : list Transaction) : nat :=
  length (List.filter (fun tx => bool_decide (tx_status tx = s)) txs).

(** The figures computed by [renderTestResultsSummary] and by the two
    report generators. *)
Definition summarize (txs : list Transaction) : Summary :=
  let p := count_status passed txs in
  let f := count_status failed txs in
  let total := length txs in
  mkSummary total p f (passRate p total).

(** The reset applied by [runAllTests] to each transaction. *)
Definition reset_transaction (tx : Transaction) : Transaction :=
  mkTransaction (tx_id tx) (tx_name tx) (tx_type tx) (tx_blocks tx) pending
    (tx_expectedResult tx) None None None.

(** [NETWORK_ENDPOINTS[currentNetwork]]. *)
Definition NETWORK_ENDPOINTS (network : string) : option string :=
  if network =? "mainnet" then Some "wss://xrplcluster.com"
  else if network =? "testnet" then Some "wss://s.altnet.rippletest.net:51233"
  else if network =? "devnet" then Some "wss://s.devnet.rippletest.net:51233"
  else None.

(** The answers of the XRPL client library during one client's life:
    making the client and [client.connect()]; [xrpl.Wallet.fromSeed(seed)],
    giving the wallet's address; the validated [ledger_index]; the
    [TransactionResult] and [hash] of [client.submitAndWait]; and
    [client.disconnect()]. *)
Record NetSession : Type := mkNetSession {
  net_connect : option string -> Outcome unit;
  net_fromSeed : string -> Outcome string;
  net_ledger_index : Outcome float;
  net_submitAndWait : TxObject -> Outcome (string * string);
  net_disconnect : Outcome unit
}.

(** The keys kept by the cleaning pass before submission:
    [value !== undefined && value !== null && value !== '']. *)
Definition keep_value (v : JS.Value) : bool :=
  match v with
  | JS.Null => false
  | JS.Str s => negb (s =? "")
  | _ => true
  end.

Definition clean (txObject : TxObject) : TxObject :=
  filter (fun kv => keep_value (snd kv) = true) txObject.

Section Engine.

Variable FIELDS : list (string * FieldInfo).
Variable JSON_parse : string -> option JS.Value.
(** The XRPL network, one session per client made, and the clock, one
    instant per reading. *)
Variable net : nat -> NetSession.
Variable Date_now : nat -> Timestamp.

(** [new Date().toISOString()]. *)
Definition new_Date : M Timestamp :=
  n <- gets clockReads ;;
  modify (with_clockReads S) ;;
  ret (Date_now n).

(** [getCurrentTransaction()]. *)
Definition getCurrentTransaction (st : State) : option Transaction :=
  if truthy_string (currentTransactionId st) then
    match currentTransactionId st with
    | Some id => find_transaction id (transactions st)
    | None => None
    end
  else None.

(** [updateTransactionStatus(id, status, result = null)]. *)
Definition updateTransactionStatus (id : string) (status : Status)
    (result : option string) : M unit :=
  found <- gets (fun st => find_transaction id (transactions st)) ;;
  match found with
  | None => ret tt
  | Some _ =>
      modify_transaction id (set_status status) ;;
      match result with
      | Some r => modify_transaction id (set_actualResult (Some r))
      | None => ret tt
      end ;;
      if bool_decide (status = running) then
        now <- new_Date ;;
        modify_transaction id (set_submittedAt (Some now))
      else ret tt
  end.

(** [buildTransactionObject()], reading the globals. *)
Definition buildTransactionObject (st : State) : TxObject :=
  match getCurrentTransaction st with
  | Some currentTx =>
      buildTransactionObject_of FIELDS (tx_type currentTx) (tx_blocks currentTx)
  | None =>
      buildTransactionObject_of FIELDS (transactionType st) (workspaceBlocks st)
  end.

(** [addFieldBlock(fieldName, blockType)]. *)
Definition addFieldBlock (fieldName blockType : string) : M unit :=
  current <- gets getCurrentTransaction ;;
  match current with
  | None => ret tt
  | Some transaction =>
      match List.find (fun b => blk_fieldName b =? fieldName) (tx_blocks transaction) with
      | Some _ =>
          showValidationMessage
            ("Field " +:+ dquote +:+ fieldName +:+ dquote +:+ " already added") warning
      | None =>
          body <- gets workspaceBody ;;
          if bool_decide (body = Some (tx_id transaction)) then
            emit (EvCreateWorkspaceBlock fieldName blockType) ;;
            modify_transaction (tx_id transaction)
              (fun tx => set_blocks (tx_blocks tx ++ [mkBlock fieldName (VStr "")])%list tx) ;;
            modify (with_workspaceBlocks (fun l => (l ++ [mkBlock fieldName (VStr "")])%list))
          else ret tt
      end
  end.

(* ----------------------------------------------------------------- *)
(** *** The test runner *)

(** A call to the client library during session [k]: logged, then answered
    by the network. *)
Definition client_call {A} (e : Event) (answer : Outcome A) : M A :=
  emit e ;; throw answer.

(** [new xrpl.Client(endpoint)]: the next session of the network. *)
Definition new_Client : M nat :=
  k <- gets sessions ;;
  modify (with_sessions S) ;;
  ret k.

(** The grading shared by the success path and the error path:
    [actualResult === transaction.expectedResult]. *)
Definition grade (actualResult expectedResult : string) : Status :=
  if actualResult =? expectedResult then passed else failed.

(** The body of the [try] block of [runSingleTest]. *)
Definition submitTest (transaction : Transaction) (txObject : TxObject)
    (signingAccount : Account) (endpoint : option string) : M unit :=
  let transactionId := tx_id transaction in
  updateTransactionStatus transactionId running None ;;
  renderTestQueue ;;
  saveTestsToStorage ;;
  showToast ("Running: " +:+ tx_name transaction) info ;;
  k <- new_Client ;;
  client_call (EvConnect endpoint) (net_connect (net k) endpoint) ;;
  let seed := default "" (acc_seed signingAccount) in
  address <- client_call (EvWalletFromSeed seed) (net_fromSeed (net k) seed) ;;
  let txObject1 : TxObject :=
    if JS.truthy_opt (txObject !! "Account") then txObject
    else <["Account" := JS.Str address]> txObject in
  txObject2 <-
    (if JS.truthy_opt (txObject1 !! "LastLedgerSequence") then ret txObject1
     else
       ledger_index <- client_call EvLedgerRequest (net_ledger_index (net k)) ;;
       ret (<["LastLedgerSequence" := JS.Num (PrimFloat.add ledger_index 5%float)]>
              txObject1)) ;;
  let cleanedTxObject := clean txObject2 in
  result <- client_call (EvSubmitAndWait cleanedTxObject)
              (net_submitAndWait (net k) cleanedTxObject) ;;
  client_call EvDisconnect (net_disconnect (net k)) ;;
  let actualResult := fst result in
  let hash := snd result in
  modify_transaction transactionId (set_actualResult (Some actualResult)) ;;
  modify_transaction transactionId (set_hash (Some hash)) ;;
  now <- new_Date ;;
  modify_transaction transactionId (set_submittedAt (Some now)) ;;
  (if actualResult =? tx_expectedResult transaction then
     updateTransactionStatus transactionId passed (Some actualResult) ;;
     showToast (tx_name transaction +:+ ": " +:+ actualResult) success
   else
     updateTransactionStatus transactionId failed (Some actualResult) ;;
     showToast (tx_name transaction +:+ ": Expected " +:+ tx_expectedResult transaction
                +:+ ", got " +:+ actualResult) error) ;;
  renderTestQueue ;;
  saveTestsToStorage.

(** The [catch (error)] block of [runSingleTest], given [error.message]. *)
Definition handleTestError (transaction : Transaction) (message : string) : M unit :=
  let transactionId := tx_id transaction in
  let actualResult :=
    match resultCodeMatch message with
    | Some code => code
    | None => message
    end in
  modify_transaction transactionId (set_actualResult (Some actualResult)) ;;
  (if actualResult =? tx_expectedResult transaction then
     updateTransactionStatus transactionId passed (Some actualResult) ;;
     showToast (tx_name transaction +:+ ": " +:+ actualResult +:+ " (as expected)") success
   else
     updateTransactionStatus transactionId failed (Some actualResult) ;;
     showToast (tx_name transaction +:+ ": Expected " +:+ tx_expectedResult transaction
                +:+ ", got " +:+ actualResult) error) ;;
  renderTestQueue ;;
  saveTestsToStorage.

(** [runSingleTest(transactionId)].  [transaction] is the object found at
    entry; its [name], [type], [blocks] and [expectedResult] are not written
    during the run, so they are read from it. *)
Definition runSingleTest (transactionId : string) : M unit :=
  found <- gets (fun st => find_transaction transactionId (transactions st)) ;;
  match found with
  | None => showToast "Test not found" error
  | Some transaction =>
      if negb (truthy_string (tx_type transaction)) then
        showToast (tx_name transaction +:+ ": No transaction type set") error ;;
        updateTransactionStatus transactionId failed (Some "No transaction type") ;;
        renderTestQueue ;;
        saveTestsToStorage
      else
        let txObject := buildTransactionObjectFromTest FIELDS JSON_parse transaction in
        accs <- gets accounts ;;
        match List.find (fun acc => truthy_string (acc_seed acc)) accs with
        | None =>
            showToast
              "No account with signing key available. Generate an account first." error ;;
            updateTransactionStatus transactionId failed (Some "No signing account") ;;
            renderTestQueue ;;
            saveTestsToStorage
        | Some signingAccount =>
            endpoint <- gets (fun st => NETWORK_ENDPOINTS (currentNetwork st)) ;;
            try_catch
              (submitTest transaction txObject signingAccount endpoint)
              (handleTestError transaction)
        end
  end.

(** [renderTestResultsSummary()]: nothing is shown until some test has a
    result. *)
Definition renderTestResultsSummary : M unit :=
  txs <- gets transactions ;;
  if existsb (fun tx => bool_decide (tx_status tx = passed)
                        || bool_decide (tx_status tx = failed)) txs
  then emit (EvRenderSummary (Some (summarize txs)))
  else emit (EvRenderSummary None).

(** [for (const transaction of transactions) await runSingleTest(transaction.id)]:
    the array iterator reads [transactions[i]] afresh at every step and
    stops at the first index past the end; [fuel] bounds the number of
    steps. *)
Fixpoint runEach (fuel i : nat) : M unit :=
  match fuel with
  | O => ret tt
  | S fuel' =>
      txs <- gets transactions ;;
      match txs !! i with
      | None => ret tt
      | Some transaction =>
          runSingleTest (tx_id transaction) ;;
          runEach fuel' (S i)
      end
  end.

(** Decimal rendering of a count in a message. *)
Definition show_nat (n : nat) : string :=
  NilEmpty.string_of_uint (Nat.to_uint n).

(** [runAllTests()].  The array is never resized during the batch, so its
    length at the start is fuel enough for the loop. *)
Definition runAllTests : M unit :=
  showToast "Running all tests..." info ;;
  modify (with_transactions (List.map reset_transaction)) ;;
  renderTestQueue ;;
  n <- gets (fun st => length (transactions st)) ;;
  runEach n 0 ;;
  txs <- gets transactions ;;
  let p := count_status passed txs in
  let f := count_status failed txs in
  let total := length txs in
  renderTestResultsSummary ;;
  if (f =? 0)%nat then
    showToast ("All tests passed! (" +:+ show_nat p +:+ "/" +:+ show_nat total +:+ ")")
      success
  else
    showToast ("Tests complete: " +:+ show_nat p +:+ " passed, " +:+ show_nat f
               +:+ " failed (" +:+ show_nat total +:+ " total)") warning.

End Engine.

(* ================================================================= *)
(** ** Vocabulary of the statements *)

(** The object [updateTransactionStatus] leaves behind in place of [t]. *)
Definition status_update (status : Status) (result : option string)
    (now : Timestamp) (t : Transaction) : Transaction :=
  mkTransaction (tx_id t) (tx_name t) (tx_type t) (tx_blocks t) status
    (tx_expectedResult t)
    (match result with Some r => Some r | None => tx_actualResult t end)
    (if bool_decide (status = running) then Some now else tx_submittedAt t)
    (tx_hash t).

(** The object made by [createTransaction]: no type, no block, [pending],
    expecting [tesSUCCESS]. *)
Definition fresh_test (id name : string) : Transaction :=
  mkTransaction id name None [] pending "tesSUCCESS" None None None.

(** The globals after start-up with the given tests and accounts: the first
    test is current and drawn in the workspace. *)
Definition initial_state (txs : list Transaction) (accs : list Account) : State :=
  mkState txs (tx_id <$> head txs) accs "testnet" [] None (tx_id <$> head txs)
    [] 0 0 [].

Definition fresh_state (txs : list Transaction) : State := initial_state txs [].

(** A network on which every call succeeds and every submission is
    validated with [tesSUCCESS]. *)
Definition quiet_session : NetSession :=
  mkNetSession (fun _ => Returns tt) (fun _ => Returns "rSigner")
    (Returns 100%float) (fun _ => Returns ("tesSUCCESS", "ABCDEF")) (Returns tt).

(** The fields of a test that no run writes. *)
Definition tx_static (t : Transaction) :
    string * string * option string * list Block * string :=
  (tx_id t, tx_name t, tx_type t, tx_blocks t, tx_expectedResult t).

(** [txs'] is [txs] after writes through the reference found under [id]:
    only the first test carrying [id] may differ, and only in its status and
    result fields. *)
Definition tx_step (id : string) (txs txs' : list Transaction) : Prop :=
  exists g, (forall t, tx_static (g t) = tx_static t)
            /\ txs' = update_transaction id g txs.

(** The test found under [id] has a final status. *)
Definition settled (id : string) (txs : list Transaction) : Prop :=
  exists t, find_transaction id txs = Some t
            /\ (tx_status t = passed \/ tx_status t = failed).

(** What holds when a computation started in [st] stops: [QR] if it
    returns, [QT] if it throws. *)
Definition post {A} (m : M A) (st : State)
    (QR : A -> State -> Prop) (QT : string -> State -> Prop) : Prop :=
  match m st with
  | (Returns a, st') => QR a st'
  | (Throws msg, st') => QT msg st'
  end.

(** A property of the registry that such writes under [id] preserve. *)
Definition closed (id : string) (P : list Transaction -> Prop) : Prop :=
  forall g txs, (forall t, tx_static (g t) = tx_static t) ->
                P txs -> P (update_transaction id g txs).

(** The test registry satisfies [Q] when [m], started with [P], returns, and
    [T] when it throws. *)
Definition triple {A} (P : list Transaction -> Prop) (m : M A)
    (Q T : list Transaction -> Prop) : Prop :=
  forall st, P (transactions st) ->
    post m st (fun _ st' => Q (transactions st')) (fun _ st' => T (transactions st')).

(** Some test carries [id]. *)
Definition found (id : string) (txs : list Transaction) : Prop :=
  find_transaction id txs <> None.

(** The test found under [id] holds this result and this status. *)
Definition graded (id actual : string) (s : Status) (txs : list Transaction) : Prop :=
  exists t, find_transaction id txs = Some t
            /\ tx_actualResult t = Some actual /\ tx_status t = s.

(** A typed test that expects a given result, and a signing account. *)
Definition payment_test (id name expected : string) : Transaction :=
  mkTransaction id name (Some "Payment")
    [mkBlock "Destination" (VStr "rLHzPsX6oXkzU9rFkRrJYTetvcqrKKKKKK");
     mkBlock "Amount" (VStr "1000000")]
    pending expected None None None.

Definition signer : Account := mkAccount "rSigner" (Some "sEdSEED").

(** A network on which the submission is rejected with the given error
    message, every other call succeeding. *)
Definition rejecting_session (message : string) : NetSession :=
  mkNetSession (fun _ => Returns tt) (fun _ => Returns "rSigner")
    (Returns 100%float) (fun _ => Throws message) (Returns tt).

(** A network that cannot be reached: [connect] fails with the message. *)
Definition unreachable_session (message : string) : NetSession :=
  mkNetSession (fun _ => Throws message) (fun _ => Returns "rSigner")
    (Returns 100%float) (fun _ => Returns ("tesSUCCESS", "ABCDEF")) (Returns tt).

(** [st'] is reached from [st] by running the given ids one after the other,
    each run starting in the state the previous one returned in. *)
Inductive RunsInOrder (run : string -> M unit) : list string -> State -> State -> Prop :=
  | RunsInOrder_nil st : RunsInOrder run [] st st
  | RunsInOrder_cons id ids st st' st'' :
      run id st = (Returns tt, st') ->
      RunsInOrder run ids st' st'' ->
      RunsInOrder run (id :: ids) st st''.

(** A status that ends a run. *)
Definition final_status (t : Transaction) : Prop :=
  tx_status t = passed \/ tx_status t = failed.

(** Three tests as [addTransaction] makes them, the third one typed; all
    pending. *)
Definition three_pending : list Transaction :=
  [payment_test "tx-1" "Test 1" "tesSUCCESS";
   fresh_test "tx-2" "Test 2";
   payment_test "tx-3" "Test 3" "tecNO_DST"].

(** Every code unit of [s] is in the class [p]. *)
Fixpoint all_chars (p : ascii -> bool) (s : string) : bool :=
  match s with
  | EmptyString => true
  | String c r => p c && all_chars p r
  end.




(** The specification's pass rate, in exact arithmetic: 100 * passed /
    total rounded to the nearest integer, halves upwards, and 0 for an
    empty collection. *)
Definition passRate_exact (passed total : nat) : Z :=
  if (0 <? total)%nat
  then ((200 * Z.of_nat passed + Z.of_nat total) / (2 * Z.of_nat total))%Z
  else 0%Z.

(** A catalog with one field of each kind the builders distinguish. *)
Definition sample_FIELDS : list (string * FieldInfo) :=
  [("Account", mkFieldInfo "AccountID");
   ("Destination", mkFieldInfo "AccountID");
   ("Amount", mkFieldInfo "Amount");
   ("Fee", mkFieldInfo "Amount");
   ("SetFlag", mkFieldInfo "UInt32");
   ("Sequence", mkFieldInfo "UInt32")].

(** A parser that reads every text as the number one million: the worst
    case for a field that must stay a string. *)
Definition numeric_parse (s : string) : option JS.Value :=
  Some (JS.Num 1000000%float).

(** A typed test with a single field holding the given text. *)
Definition one_field_test (fieldName value : string) : Transaction :=
  mkTransaction "tx-1" "Test 1" (Some "Payment") [mkBlock fieldName (VStr value)]
    pending "tesSUCCESS" None None None.

(** A registry of [p] passed tests followed by [f] failed ones. *)
Definition graded_tests (p f : nat) : list Transaction :=
  (replicate p (mkTransaction "p" "Passed" (Some "Payment") [] passed
                  "tesSUCCESS" (Some "tesSUCCESS") None None)
   ++ replicate f (mkTransaction "f" "Failed" (Some "Payment") [] failed
                     "tesSUCCESS" (Some "tecNO_DST") None None))%list.

(** Whether the code's pass rate and the exact one agree on every registry
    of fewer than [n] tests. *)
Definition passRate_agrees_below (n : nat) : bool :=
  forallb (fun total =>
             forallb (fun p => (passRate p total =? passRate_exact p total)%Z)
                     (seq 0 (S total)))
          (seq 0 n).

(** Field names are distinct within every test. *)
Definition unique_fields (st : State) : Prop :=
  Forall (fun t => NoDup (List.map blk_fieldName (tx_blocks t))) (transactions st).

(** The warning shown by [addFieldBlock] for a field that is already there. *)
Definition already_added (fieldName : string) : string * Level :=
  ("Field " +:+ dquote +:+ fieldName +:+ dquote +:+ " already added", warning).

(** A test being edited, with an [Account] field already filled in. *)
Definition editing_state : State :=
  initial_state
    [mkTransaction "tx-1" "Test 1" (Some "Payment")
       [mkBlock "Account" (VStr "rN7n7otQDd6FczFgLdlqtyMVrn3HMfgnHf")]
       pending "tesSUCCESS" None None None]
    [].

(** Everything but the registry, the clock, the client counter and the log
    is the same in [st'] as in [st]. *)
Definition same_ui (st st' : State) : Prop :=
  currentTransactionId st' = currentTransactionId st
  /\ accounts st' = accounts st
  /\ currentNetwork st' = currentNetwork st
  /\ workspaceBlocks st' = workspaceBlocks st
  /\ transactionType st' = transactionType st
  /\ workspaceBody st' = workspaceBody st
  /\ validationMessages st' = validationMessages st.

(** The events that [st'] has logged since [st]. *)
Definition logged_since (st st' : State) (l : list Event) : Prop :=
  events st' = (events st ++ l)%list.

(** The number of events of [l] in the class [c]. *)
Definition count_events (c : Event -> bool) (l : list Event) : nat :=
  length (List.filter c l).

Definition is_submit (e : Event) : bool :=
  match e with EvSubmitAndWait _ => true | _ => false end.

Definition is_connect (e : Event) : bool :=
  match e with EvConnect _ => true | _ => false end.

Definition is_ledger_request (e : Event) : bool :=
  match e with EvLedgerRequest => true | _ => false end.

(** What a run may do to the globals: the registry changes by writes
    through the reference found under [id], the rest of the interface state
    stays, the log only grows, and at most one client is made. *)
Definition run_step (id : string) (st st' : State) : Prop :=
  tx_step id (transactions st) (transactions st')
  /\ same_ui st st'
  /\ (exists l, logged_since st st' l)
  /\ sessions st <= sessions st' <= S (sessions st).

(** The object carried by a submission holds a [LastLedgerSequence], and no
    [null] and no empty string anywhere. *)
Definition well_formed_submission (e : Event) : Prop :=
  match e with
  | EvSubmitAndWait txObject =>
      is_Some (txObject !! "LastLedgerSequence")
      /\ forall k v, txObject !! k = Some v -> v <> JS.Null /\ v <> JS.Str ""
  | _ => True
  end.

(* ================================================================= *)
(** ** Editing the registry and the current test *)

Definition with_currentTransactionId (f : option string -> option string)
    (st : State) : State :=
  mkState (transactions st) (f (currentTransactionId st)) (accounts st)
    (currentNetwork st) (workspaceBlocks st) (transactionType st)
    (workspaceBody st) (validationMessages st) (clockReads st) (sessions st)
    (events st).

Definition with_accounts (f : list Account -> list Account) (st : State) : State :=
  mkState (transactions st) (currentTransactionId st) (f (accounts st))
    (currentNetwork st) (workspaceBlocks st) (transactionType st)
    (workspaceBody st) (validationMessages st) (clockReads st) (sessions st)
    (events st).

Definition with_transactionType (f : option string -> option string)
    (st : State) : State :=
  mkState (transactions st) (currentTransactionId st) (accounts st)
    (currentNetwork st) (workspaceBlocks st) (f (transactionType st))
    (workspaceBody st) (validationMessages st) (clockReads st) (sessions st)
    (events st).

Definition with_workspaceBody (f : option string -> option string)
    (st : State) : State :=
  mkState (transactions st) (currentTransactionId st) (accounts st)
    (currentNetwork st) (workspaceBlocks st) (transactionType st)
    (f (workspaceBody st)) (validationMessages st) (clockReads st) (sessions st)
    (events st).

Definition set_type (ty : option string) (tx : Transaction) : Transaction :=
  mkTransaction (tx_id tx) (tx_name tx) ty (tx_blocks tx) (tx_status tx)
    (tx_expectedResult tx) (tx_actualResult tx) (tx_submittedAt tx) (tx_hash tx).

(** [list.forEach(f)]. *)
Fixpoint forEach {A} (l : list A) (f : A -> M unit) : M unit :=
  match l with
  | [] => ret tt
  | x :: rest => f x ;; forEach rest f
  end.

(** [transactions.findIndex(tx => tx.id === id)], with [None] for -1. *)
Fixpoint findIndex_transaction (id : string) (txs : list Transaction) : option nat :=
  match txs with
  | [] => None
  | tx :: rest =>
      if tx_id tx =? id then Some 0 else S <$> findIndex_transaction id rest
  end.

(** [removeTransaction(id)]. *)
Definition removeTransaction (id : string) : M unit :=
  txs <- gets transactions ;;
  match findIndex_transaction id txs with
  | None => ret tt
  | Some index =>
      modify (with_transactions (delete index)) ;;
      current <- gets currentTransactionId ;;
      (if bool_decide (current = Some id) then
         rest <- gets transactions ;;
         modify (with_currentTransactionId (fun _ => tx_id <$> head rest))
       else ret tt) ;;
      saveTestsToStorage
  end.

(** [updateTransactionHash(id, hash)]. *)
Definition updateTransactionHash (id : string) (hash : option string) : M unit :=
  modify_transaction id (set_hash hash).

(** [getBlockTypeForField(fieldInfo)]. *)
Definition getBlockTypeForField (fieldInfo : FieldInfo) : string :=
  let type := fi_type fieldInfo in
  if type =? "AccountID" then "account-field"
  else if type =? "Amount" then "amount-field"
  else if JS.startsWith type "UInt" || (type =? "Number") then "number-field"
  else if JS.startsWith type "Hash" then "hash-field"
  else if type =? "Blob" then "blob-field"
  else "common-field".

(** [clearValidationMessages()]. *)
Definition clearValidationMessages : M unit :=
  modify (with_validationMessages (fun _ => [])).

(** The [warnings] array of [validateTransaction]; texts are given without
    their leading pictograph. *)
Definition validation_warnings (transaction : TxObject) : list string :=
  ((if negb (JS.truthy_opt (transaction !! "Account"))
    then ["Account field is recommended"] else [])
   ++ (if negb (JS.truthy_opt (transaction !! "Fee"))
       then ["Fee field is recommended"] else []))%list.

(** [validateTransaction(transaction)]. *)
Definition validateTransaction (transaction : TxObject) : M unit :=
  clearValidationMessages ;;
  if negb (JS.truthy_opt (transaction !! "TransactionType")) then
    showValidationMessage "Transaction Type is required" error
  else
    match validation_warnings transaction with
    | [] => showValidationMessage "Transaction structure looks good!" success
    | warnings => forEach warnings (fun w => showValidationMessage w warning)
    end.

(** The first block of that name gets the value
    ([blocks[blockIndex].value = value] when [findIndex] finds one). *)
Fixpoint set_block_value (fieldName : string) (value : RawValue)
    (blocks : list Block) : list Block :=
  match blocks with
  | [] => []
  | b :: rest =>
      if blk_fieldName b =? fieldName then mkBlock (blk_fieldName b) value :: rest
      else b :: set_block_value fieldName value rest
  end.

(** [blocks.filter(b => b.fieldName !== fieldName)]. *)
Definition remove_blocks (fieldName : string) (blocks : list Block) : list Block :=
  List.filter (fun b => negb (blk_fieldName b =? fieldName)) blocks.

Section Editing.

Variable FIELDS : list (string * FieldInfo).

(** [updateJSONOutput()]: the preview text it writes is not kept; the
    validation it triggers is. *)
Definition updateJSONOutput : M unit :=
  transaction <- gets (buildTransactionObject FIELDS) ;;
  validateTransaction transaction.

(** [renderActiveTransaction(transaction)]: a body element for this
    transaction, holding a block for its type and one for each field. *)
Definition renderActiveTransaction (transaction : Transaction) : M unit :=
  modify (with_workspaceBody (fun _ => None)) ;;
  (if truthy_string (tx_type transaction) then
     emit (EvCreateWorkspaceBlock "TransactionType" "transaction-type")
   else ret tt) ;;
  forEach (tx_blocks transaction)
    (fun block =>
       let blockType :=
         match getFieldInfo FIELDS (blk_fieldName block) with
         | Some fieldInfo => getBlockTypeForField fieldInfo
         | None => "common-field"
         end in
       emit (EvCreateWorkspaceBlock (blk_fieldName block) blockType)) ;;
  modify (with_workspaceBody (fun _ => Some (tx_id transaction))).

(** [renderWorkspace()]: the workspace is emptied, then shows the current
    transaction, or a placeholder when there is none. *)
Definition renderWorkspace : M unit :=
  modify (with_workspaceBody (fun _ => None)) ;;
  txs <- gets transactions ;;
  match txs with
  | [] => renderTestQueue
  | _ =>
      currentTx <- gets getCurrentTransaction ;;
      match currentTx with
      | Some tx => renderActiveTransaction tx
      | None => ret tt
      end ;;
      renderTestQueue
  end.

(** [switchToTransaction(transactionId)]. *)
Definition switchToTransaction (transactionId : string) : M unit :=
  modify (with_currentTransactionId (fun _ => Some transactionId)) ;;
  renderWorkspace ;;
  updateJSONOutput ;;
  saveTestsToStorage.

(** [setTransactionType(typeName)]. *)
Definition setTransactionType (typeName : option string) : M unit :=
  current <- gets getCurrentTransaction ;;
  match current with
  | None => ret tt
  | Some transaction =>
      modify_transaction (tx_id transaction) (set_type typeName) ;;
      modify (with_transactionType (fun _ => typeName)) ;;
      body <- gets workspaceBody ;;
      if bool_decide (body = Some (tx_id transaction)) then
        emit (EvCreateWorkspaceBlock "TransactionType" "transaction-type") ;;
        renderTestQueue
      else ret tt
  end.

(** [updateFieldValue(fieldName, value)]. *)
Definition updateFieldValue (fieldName : string) (value : RawValue) : M unit :=
  current <- gets getCurrentTransaction ;;
  match current with
  | Some transaction =>
      modify_transaction (tx_id transaction)
        (fun tx => set_blocks (set_block_value fieldName value (tx_blocks tx)) tx)
  | None => ret tt
  end ;;
  modify (with_workspaceBlocks (set_block_value fieldName value)) ;;
  updateJSONOutput.

(** [removeFieldBlock(fieldName)]. *)
Definition removeFieldBlock (fieldName : string) : M unit :=
  current <- gets getCurrentTransaction ;;
  match current with
  | Some transaction =>
      modify_transaction (tx_id transaction)
        (fun tx => set_blocks (remove_blocks fieldName (tx_blocks tx)) tx)
  | None => ret tt
  end ;;
  modify (with_workspaceBlocks (remove_blocks fieldName)) ;;
  updateJSONOutput ;;
  saveTestsToStorage.

End Editing.

(* ================================================================= *)
(** ** Globals outside the engine: drag data and the naming counter *)

(** The object stored by [handleDragStart]. *)
Record DraggedData : Type := mkDraggedData {
  dd_fieldName : string;
  dd_blockType : string;
  dd_transactionType : option string
}.

(** [State] together with [draggedData] and [nextTransactionNumber]. *)
Record Globals : Type := mkGlobals {
  core : State;
  draggedData : option DraggedData;
  nextTransactionNumber : nat
}.

(** Running an engine computation on the globals; none of the computations
    used this way throws. *)
Definition on_core (m : M unit) (g : Globals) : Globals :=
  mkGlobals (exec m (core g)) (draggedData g) (nextTransactionNumber g).

(** The default name [`Test ${nextTransactionNumber}`]. *)
Definition default_name (n : nat) : string := "Test " +:+ show_nat n.

(** [createTransaction(name)], given the id that [generateTransactionId]
    draws. *)
Definition createTransaction (newId : string) (name : option string)
    (g : Globals) : Transaction * Globals :=
  let transactionName :=
    if truthy_string name then default "" name
    else default_name (nextTransactionNumber g) in
  (mkTransaction newId transactionName None [] pending "tesSUCCESS" None None None,
   mkGlobals (core g) (draggedData g) (S (nextTransactionNumber g))).

(** [addTransaction(name)]. *)
Definition addTransaction (newId : string) (name : option string)
    (g : Globals) : Transaction * Globals :=
  let '(transaction, g1) := createTransaction newId name g in
  (transaction,
   on_core (modify (with_transactions (fun txs => txs ++ [transaction])%list) ;;
            modify (with_currentTransactionId (fun _ => Some newId))) g1).

Section Workspace.

Variable FIELDS : list (string * FieldInfo).

(** [handleAddTest()]. *)
Definition handleAddTest (newId : string) (g : Globals) : Globals :=
  let '(newTransaction, g1) := addTransaction newId None g in
  on_core (renderWorkspace FIELDS ;;
           updateJSONOutput FIELDS ;;
           saveTestsToStorage ;;
           showToast ("Added " +:+ dquote +:+ tx_name newTransaction +:+ dquote) success)
          g1.

(** [clearWorkspace()]. *)
Definition clearWorkspace (newId : string) (g : Globals) : Globals :=
  let g0 :=
    mkGlobals
      (with_transactionType (fun _ => None)
         (with_workspaceBlocks (fun _ => [])
            (with_currentTransactionId (fun _ => None)
               (with_transactions (fun _ => []) (core g)))))
      (draggedData g) 1 in
  let '(_, g1) := addTransaction newId (Some "Test 1") g0 in
  on_core (renderWorkspace FIELDS ;;
           updateJSONOutput FIELDS ;;
           clearValidationMessages) g1.

(** [handleDrop(e)]. *)
Definition handleDrop (g : Globals) : Globals :=
  match draggedData g with
  | None => g
  | Some dragged =>
      let g1 :=
        on_core
          (if dd_blockType dragged =? "transaction-type"
           then setTransactionType (dd_transactionType dragged)
           else addFieldBlock (dd_fieldName dragged) (dd_blockType dragged)) g in
      on_core (updateJSONOutput FIELDS ;; saveTestsToStorage)
        (mkGlobals (core g1) None (nextTransactionNumber g1))
  end.

End Workspace.

(** What [saveTestsToStorage] writes under the tests key, and what
    [JSON.parse] gives back for it: each member may be missing. *)
Record TestsData : Type := mkTestsData {
  td_transactions : option (list Transaction);
  td_currentTransactionId : option string;
  td_nextTransactionNumber : option nat
}.

Definition stored_tests (g : Globals) : TestsData :=
  mkTestsData (Some (transactions (core g))) (currentTransactionId (core g))
    (Some (nextTransactionNumber g)).

(** [loadTestsFromStorage()], given the stored item: [None] when the key is
    absent or its text does not parse.  Returns whether tests were loaded. *)
Definition loadTestsFromStorage (stored : option TestsData) (g : Globals)
    : bool * Globals :=
  match stored with
  | None => (false, g)
  | Some testsData =>
      let txs := default [] (td_transactions testsData) in
      let current :=
        if truthy_string (td_currentTransactionId testsData)
        then td_currentTransactionId testsData else None in
      let next :=
        match td_nextTransactionNumber testsData with
        | Some (S n) => S n
        | _ => 1
        end in
      let current' :=
        match txs, current with
        | tx :: _, None => Some (tx_id tx)
        | _, _ => current
        end in
      (true,
       mkGlobals
         (with_currentTransactionId (fun _ => current')
            (with_transactions (fun _ => txs) (core g)))
         (draggedData g) next)
  end.

(* ================================================================= *)
(** ** Accounts *)

(** The class [[1-9A-HJ-NP-Za-km-z]]. *)
Definition is_base58 (c : ascii) : bool :=
  let n := JS.code c in
  (((49 <=? n) && (n <=? 57)) || ((65 <=? n) && (n <=? 72))
   || ((74 <=? n) && (n <=? 78)) || ((80 <=? n) && (n <=? 90))
   || ((97 <=? n) && (n <=? 107)) || ((109 <=? n) && (n <=? 122)))%N.

(** [isValidXRPLAddress(address)]: the pattern
    [^r[1-9A-HJ-NP-Za-km-z]{24,34}$]. *)
Definition isValidXRPLAddress (address : string) : bool :=
  match address with
  | String c rest =>
      Ascii.eqb c "r" && all_chars is_base58 rest
      && (24 <=? String.length rest)%nat && (String.length rest <=? 34)%nat
  | EmptyString => false
  end.

(** [fetchAccountInfo(address, detailsElement)] as far as it runs before
    its caller goes on.  [renderAccounts] calls it without [await], so it
    runs up to its first [await]: a client is made for the current
    network and asked to connect.  What it does once the connection is
    there (one request, the disconnection, the text of the details
    element) happens later, as a handler of its own. *)
Definition fetchAccountInfo_begin (address : string) : M unit :=
  endpoint <- gets (fun st => NETWORK_ENDPOINTS (currentNetwork st)) ;;
  new_Client ;;
  emit (EvConnect endpoint).

(** [renderAccounts()]: the list is drawn again, and the information of
    every account is fetched anew. *)
Definition renderAccounts : M unit :=
  accs <- gets accounts ;;
  forEach accs (fun account => fetchAccountInfo_begin (acc_address account)).

(** [addAccount()], given what [prompt] returned ([None] when cancelled).
    [saveAccountsToStorage] writes the account list under a storage key of
    its own; the log keeps the saves of the tests only. *)
Definition addAccount (input : option string) : M unit :=
  match input with
  | None => ret tt
  | Some address =>
      if (address =? "") || (JS.trim address =? "") then ret tt
      else
        let accountAddress := JS.trim address in
        if negb (isValidXRPLAddress accountAddress) then
          showToast "Invalid XRPL address format" error
        else
          accs <- gets accounts ;;
          match List.find (fun acc => acc_address acc =? accountAddress) accs with
          | Some _ => showToast "Account already added" warning
          | None =>
              modify (with_accounts
                        (fun l => (l ++ [mkAccount accountAddress None])%list)) ;;
              renderAccounts ;;
              showToast ("Account added: " +:+ accountAddress) success
          end
  end.

(** The alphabet of [generateTestAddress]. *)
Definition address_chars : string :=
  "rpshnaf39wBUDNEGHJKLM4PQRST7VWXYZ2bcdeCg65jkm8oFqi1tuvAxyz".

(** [chars.charAt(i)]: the empty string past the end. *)
Definition charAt (s : string) (i : nat) : string :=
  match String.get i s with
  | Some c => String c EmptyString
  | None => EmptyString
  end.

(** The loop of [generateTestAddress]: [n] more characters, the next pick
    being number [i]. *)
Fixpoint append_picks (picks : nat -> nat) (n i : nat) (address : string) : string :=
  match n with
  | O => address
  | S n' => append_picks picks n' (S i) (address +:+ charAt address_chars (picks i))
  end.

(** [generateTestAddress()], where [picks i] is the value of
    [Math.floor(Math.random() * chars.length)] at the [i]-th turn. *)
Definition generateTestAddress (picks : nat -> nat) : string :=
  append_picks picks 33 0 "r".

(** What a run may submit for a test whose built object is [built], when
    it signs with [seed] in the session [session]: the built object without
    its null and empty members, except for [Account] and
    [LastLedgerSequence].  Where [built] has a truthy value for one of
    them, that value is submitted; otherwise [Account] is the address of
    the wallet the session made from the seed, and [LastLedgerSequence] is
    the validated ledger index the session reported, plus 5. *)
Definition submission_of (built : TxObject) (session : NetSession) (seed : string)
    (e : Event) : Prop :=
  match e with
  | EvSubmitAndWait txObject =>
      (forall k, k <> "Account" -> k <> "LastLedgerSequence" ->
                 txObject !! k = clean built !! k)
      /\ (if JS.truthy_opt (built !! "Account")
          then txObject !! "Account" = built !! "Account"
          else exists address,
                 net_fromSeed session seed = Returns address
                 /\ txObject !! "Account"
                    = if address =? "" then None else Some (JS.Str address))
      /\ (if JS.truthy_opt (built !! "LastLedgerSequence")
          then txObject !! "LastLedgerSequence" = built !! "LastLedgerSequence"
          else exists index,
                 net_ledger_index session = Returns index
                 /\ txObject !! "LastLedgerSequence"
                    = Some (JS.Num (PrimFloat.add index 5%float)))
  | _ => True
  end.

(** In a log, a submission comes only after a request to connect:
    [connected] says whether such a request came before the log. *)
Fixpoint submits_when_connected (connected : bool) (l : list Event) : bool :=
  match l with
  | [] => true
  | e :: rest =>
      (negb (is_submit e) || connected)
      && submits_when_connected (connected || is_connect e) rest
  end.

(** [text.includes(part)]. *)
Fixpoint includes (text part : string) : bool :=
  String.prefix part text
  || match text with
     | EmptyString => false
     | String _ rest => includes rest part
     end.

(** The click handler that [createTestQueueItem] gives the delete button
    of a test, once the user has confirmed. *)
Definition deleteTest (FIELDS : list (string * FieldInfo)) (id : string) : M unit :=
  removeTransaction id ;;
  renderWorkspace FIELDS ;;
  updateJSONOutput FIELDS.

(** As long as there are tests, one of them is being edited. *)
Definition current_valid (st : State) : Prop :=
  transactions st <> [] -> is_Some (getCurrentTransaction st).

(** The fields for which a workspace block was created, in order. *)
Definition drawn_fields (l : list Event) : list string :=
  omap (fun e => match e with
                 | EvCreateWorkspaceBlock fieldName _ => Some fieldName
                 | _ => None
                 end) l.

(** The blocks that [renderActiveTransaction] creates for a test. *)
Definition drawn_blocks (FIELDS : list (string * FieldInfo)) (t : Transaction)
    : list Event :=
  ((if truthy_string (tx_type t)
    then [EvCreateWorkspaceBlock "TransactionType" "transaction-type"] else [])
   ++ List.map
        (fun block =>
           EvCreateWorkspaceBlock (blk_fieldName block)
             match getFieldInfo FIELDS (blk_fieldName block) with
             | Some fieldInfo => getBlockTypeForField fieldInfo
             | None => "common-field"
             end)
        (tx_blocks t))%list.

(** What [validateTransaction] leaves in the validation area. *)
Definition verdict (transaction : TxObject) : list (string * Level) :=
  if negb (JS.truthy_opt (transaction !! "TransactionType")) then
    [("Transaction Type is required", error)]
  else
    match validation_warnings transaction with
    | [] => [("Transaction structure looks good!", success)]
    | warnings => List.map (fun w => (w, warning)) warnings
    end.

(** [runCurrentTest()]. *)
Definition runCurrentTest (FIELDS : list (string * FieldInfo))
    (JSON_parse : string -> option JS.Value) (net : nat -> NetSession)
    (Date_now : nat -> Timestamp) : M unit :=
  currentTx <- gets getCurrentTransaction ;;
  match currentTx with
  | None => showToast "No test selected" warning
  | Some tx => runSingleTest FIELDS JSON_parse net Date_now (tx_id tx)
  end.

(* ================================================================= *)
(** ** Writes through a found reference *)

Section UpdateTransaction.

Implicit Types (id : string) (f g : Transaction -> Transaction)
  (txs : list Transaction).

Lemma update_transaction_not_found id f txs :
  find_transaction id txs = None -> update_transaction id f txs = txs.
Proof.
  induction txs as [|tx rest IH]; simpl; [done|].
  destruct (tx_id tx =? id); [done|].
  intros H. by rewrite IH.
Qed.

Lemma update_transaction_found id f txs t :
  find_transaction id txs = Some t ->
  update_transaction id f txs = update_transaction id (fun _ => f t) txs.
Proof.
  induction txs as [|tx rest IH]; simpl; [done|].
  destruct (tx_id tx =? id); [congruence|].
  intros H. by rewrite IH.
Qed.

Lemma update_transaction_compose id f g txs :
  (forall t, tx_id t = id -> tx_id (f t) = id) ->
  update_transaction id g (update_transaction id f txs)
  = update_transaction id (fun t => g (f t)) txs.
Proof.
  intros Hf. induction txs as [|tx rest IH]; simpl; [done|].
  destruct (tx_id tx =? id) eqn:E; simpl.
  - apply String.eqb_eq in E. by rewrite (Hf _ E), String.eqb_refl.
  - by rewrite E, IH.
Qed.

Lemma update_transaction_id id txs :
  update_transaction id (fun t => t) txs = txs.
Proof.
  induction txs as [|tx rest IH]; simpl; [done|].
  destruct (tx_id tx =? id); [done|]. by rewrite IH.
Qed.

Lemma update_transaction_length id f txs :
  length (update_transaction id f txs) = length txs.
Proof.
  induction txs as [|tx rest IH]; simpl; [done|].
  destruct (tx_id tx =? id); simpl; [done|]. by rewrite IH.
Qed.

Lemma update_transaction_ids id f txs :
  (forall t, tx_id t = id -> tx_id (f t) = id) ->
  List.map tx_id (update_transaction id f txs) = List.map tx_id txs.
Proof.
  intros Hf. induction txs as [|tx rest IH]; simpl; [done|].
  destruct (tx_id tx =? id) eqn:E; simpl; [|by rewrite IH].
  apply String.eqb_eq in E. by rewrite (Hf _ E), E.
Qed.

Lemma find_update_transaction id f txs t :
  (forall t, tx_id t = id -> tx_id (f t) = id) ->
  find_transaction id txs = Some t ->
  find_transaction id (update_transaction id f txs) = Some (f t).
Proof.
  intros Hf. induction txs as [|tx rest IH]; simpl; [done|].
  destruct (tx_id tx =? id) eqn:E; simpl.
  - intros [= ->]. apply String.eqb_eq in E. by rewrite (Hf _ E), String.eqb_refl.
  - by rewrite E.
Qed.

Lemma find_update_transaction_ne id id' f txs :
  (forall t, tx_id t = id -> tx_id (f t) = id) ->
  id' <> id ->
  find_transaction id' (update_transaction id f txs) = find_transaction id' txs.
Proof.
  intros Hf Hne. induction txs as [|tx rest IH]; simpl; [done|].
  destruct (tx_id tx =? id) eqn:E; simpl.
  - apply String.eqb_eq in E. rewrite (Hf _ E), E.
    by destruct (String.eqb_spec id id') as [->|].
  - by rewrite IH.
Qed.

Lemma find_transaction_id id txs t :
  find_transaction id txs = Some t -> tx_id t = id.
Proof.
  induction txs as [|tx rest IH]; simpl; [done|].
  destruct (tx_id tx =? id) eqn:E; [|done].
  intros [= <-]. by apply String.eqb_eq.
Qed.

End UpdateTransaction.

(* ================================================================= *)
(** ** [updateTransactionStatus]: effect and frame *)

Section StatusUpdate.

Variable Date_now : nat -> Timestamp.

Lemma updateTransactionStatus_not_found id status result st :
  find_transaction id (transactions st) = None ->
  updateTransactionStatus Date_now id status result st = (Returns tt, st).
Proof.
  intros H. unfold updateTransactionStatus, bind, gets. simpl. by rewrite H.
Qed.

Lemma updateTransactionStatus_found id status result st t :
  find_transaction id (transactions st) = Some t ->
  updateTransactionStatus Date_now id status result st
  = (Returns tt,
     with_clockReads (if bool_decide (status = running) then S else (fun n => n))
       (with_transactions
          (update_transaction id
             (fun _ => status_update status result (Date_now (clockReads st)) t))
          st)).
Proof.
  intros H. destruct st as [txs cur accs nw wb tt' body vm cr ss ev]; simpl in *.
  unfold updateTransactionStatus, bind, gets, modify_transaction, modify, new_Date,
    ret, bind, gets, modify, with_transactions, with_clockReads; simpl.
  rewrite H.
  destruct result as [r|], (bool_decide (status = running)) eqn:E; simpl;
    rewrite ?E; simpl;
    rewrite ?update_transaction_compose by (intros ? <-; done);
    (f_equal; f_equal;
     rewrite (update_transaction_found _ _ _ _ H);
     unfold status_update; rewrite ?E; done).
Qed.

End StatusUpdate.

(** C10.  [updateTransactionStatus(id, status, result)] with an [id] that no
    test carries changes nothing at all.  With an [id] that is found and
    the [result] omitted (or [null]), the first test with that [id] gets the
    new [status], keeps its [actualResult] and every other field, and has
    [submittedAt] stamped exactly when the new status is [running]; every
    other test, and every other global, is as before. *)
Theorem updateTransactionStatus_frame
    (Date_now : nat -> Timestamp) (id : string) (status : Status)
    (result : option string) (st : State) :
  (find_transaction id (transactions st) = None ->
   updateTransactionStatus Date_now id status result st = (Returns tt, st))
  /\
  (forall t, find_transaction id (transactions st) = Some t ->
     let t' :=
       mkTransaction (tx_id t) (tx_name t) (tx_type t) (tx_blocks t) status
         (tx_expectedResult t) (tx_actualResult t)
         (if bool_decide (status = running)
          then Some (Date_now (clockReads st)) else tx_submittedAt t)
         (tx_hash t) in
     let st' := exec (updateTransactionStatus Date_now id status None) st in
     find_transaction id (transactions st') = Some t'
     /\ transactions st' = update_transaction id (fun _ => t') (transactions st)
     /\ length (transactions st') = length (transactions st)
     /\ (forall id', id' <> id ->
           find_transaction id' (transactions st')
           = find_transaction id' (transactions st))
     /\ st' = with_clockReads
                (if bool_decide (status = running) then S else (fun n => n))
                (with_transactions (fun _ => transactions st') st)).
Proof.
  split.
  - apply updateTransactionStatus_not_found.
  - intros t Hfound t' st'.
    assert (Hst : st' = with_clockReads
                (if bool_decide (status = running) then S else (fun n => n))
                (with_transactions (update_transaction id (fun _ => t')) st)).
    { unfold st', exec.
      by rewrite (updateTransactionStatus_found _ _ _ _ _ _ Hfound). }
    assert (Htx : transactions st' = update_transaction id (fun _ => t') (transactions st)).
    { rewrite Hst. by destruct st. }
    assert (Hid : tx_id t' = id) by (by apply find_transaction_id in Hfound).
    repeat split.
    + rewrite Htx.
      rewrite (find_update_transaction _ (fun _ => t') _ _ (fun _ _ => Hid) Hfound).
      done.
    + done.
    + rewrite Htx. apply update_transaction_length.
    + intros id' Hne. rewrite Htx.
      by apply find_update_transaction_ne.
    + rewrite Hst at 1. rewrite Htx. by destruct st.
Qed.

(** A status update without a result on a test that already has one, and
    one under an id that no test carries. *)
Lemma updateTransactionStatus_frame_witness :
  let t := mkTransaction "tx-1" "Test 1" (Some "Payment") [] failed "tesSUCCESS"
             (Some "tecNO_DST") (Some 7) (Some "ABCDEF") in
  let st := initial_state [t; fresh_test "tx-2" "Test 2"] [] in
  transactions (exec (updateTransactionStatus (fun n => n) "tx-1" pending None) st)
  = [mkTransaction "tx-1" "Test 1" (Some "Payment") [] pending "tesSUCCESS"
       (Some "tecNO_DST") (Some 7) (Some "ABCDEF");
     fresh_test "tx-2" "Test 2"]
  /\ updateTransactionStatus (fun n => n) "tx-9" running (Some "tesSUCCESS") st
     = (Returns tt, st).
Proof.
  intros t st. split.
  - destruct (updateTransactionStatus_frame (fun n => n) "tx-1" pending None st)
      as [_ H].
    destruct (H t eq_refl) as (_ & -> & _). reflexivity.
  - destruct (updateTransactionStatus_frame (fun n => n) "tx-9" running
                (Some "tesSUCCESS") st) as [H _].
    apply H. reflexivity.
Defined.


(* ================================================================= *)
(** ** [runSingleTest]: the fail-fast path *)

(** C2.  When the test found under [transactionId] has no transaction type
    ([null], or the empty string, which [!transaction.type] treats alike),
    [runSingleTest] returns normally after marking that test [failed] with
    [actualResult = "No transaction type"]; it shows one toast, redraws the
    queue and saves, and makes no call to the XRPL client: no client is
    created and the log gains no network event. *)
Theorem runSingleTest_no_type
    (FIELDS : list (string * FieldInfo)) (JSON_parse : string -> option JS.Value)
    (net : nat -> NetSession) (Date_now : nat -> Timestamp)
    (transactionId : string) (st : State) (t : Transaction) :
  find_transaction transactionId (transactions st) = Some t ->
  truthy_string (tx_type t) = false ->
  let t' :=
    mkTransaction (tx_id t) (tx_name t) (tx_type t) (tx_blocks t) failed
      (tx_expectedResult t) (Some "No transaction type") (tx_submittedAt t)
      (tx_hash t) in
  let txs' := update_transaction transactionId (fun _ => t') (transactions st) in
  let r := runSingleTest FIELDS JSON_parse net Date_now transactionId st in
  fst r = Returns tt
  /\ transactions (snd r) = txs'
  /\ find_transaction transactionId (transactions (snd r)) = Some t'
  /\ events (snd r)
     = (events st ++
        [EvToast (tx_name t +:+ ": No transaction type set") error;
         EvRenderTestQueue txs'; EvSaveTests txs'])%list
  /\ List.filter is_network_event (events (snd r))
     = List.filter is_network_event (events st)
  /\ sessions (snd r) = sessions st.
Proof.
  intros Hfound Htype t' txs' r.
  assert (Hid : tx_id t' = transactionId) by (by apply find_transaction_id in Hfound).
  assert (Hr : r = (Returns tt,
                    with_events (fun l => l ++
                      [EvToast (tx_name t +:+ ": No transaction type set") error;
                       EvRenderTestQueue txs'; EvSaveTests txs'])%list
                      (with_transactions (fun _ => txs') st))).
  { unfold r, runSingleTest, bind at 1, gets at 1. simpl. rewrite Hfound, Htype. simpl.
    unfold bind at 1, showToast, emit, modify. simpl.
    unfold bind at 1.
    rewrite (updateTransactionStatus_found _ _ _ _ _ t) by (by destruct st).
    destruct st; simpl. unfold renderTestQueue, saveTestsToStorage, bind, gets, emit, modify.
    simpl. unfold with_events, with_transactions, with_clockReads; simpl.
    rewrite <- !app_assoc. done. }
  rewrite Hr. destruct st; simpl in *. repeat split; try done.
  - unfold txs'. by rewrite (find_update_transaction _ (fun _ => t') _ _ (fun _ _ => Hid) Hfound).
  - rewrite List.filter_app. simpl. by rewrite app_nil_r.
Qed.

(** A registry in which the current test has no type yet. *)
Lemma runSingleTest_no_type_witness :
  tx_status
    <$> find_transaction "tx-1"
          (transactions
             (exec (runSingleTest [] (fun _ => None) (fun _ => quiet_session)
                      (fun n => n) "tx-1")
                   (fresh_state [fresh_test "tx-1" "Test 1"])))
  = Some failed.
Proof.
  pose proof (runSingleTest_no_type [] (fun _ => None) (fun _ => quiet_session)
                (fun n => n) "tx-1" (fresh_state [fresh_test "tx-1" "Test 1"])
                (fresh_test "tx-1" "Test 1") eq_refl eq_refl) as H.
  destruct H as (_ & _ & H & _). unfold exec. by rewrite H.
Defined.

(* ================================================================= *)
(** ** A small program logic for [M] *)

Section ProgramLogic.

Context {A B : Type}.
Implicit Types (st : State) (QT : string -> State -> Prop).

Lemma post_ret (a : A) st (QR : A -> State -> Prop) QT :
  QR a st -> post (ret a) st QR QT.
Proof. done. Qed.

Lemma post_gets (f : State -> A) st (QR : A -> State -> Prop) QT :
  QR (f st) st -> post (gets f) st QR QT.
Proof. done. Qed.

Lemma post_modify (f : State -> State) st (QR : unit -> State -> Prop) QT :
  QR tt (f st) -> post (modify f) st QR QT.
Proof. done. Qed.

Lemma post_throw (o : Outcome A) st (QR : A -> State -> Prop) QT :
  match o with Returns a => QR a st | Throws msg => QT msg st end ->
  post (throw o) st QR QT.
Proof. unfold post, throw. by destruct o. Qed.

Lemma post_bind (m : M A) (k : A -> M B) st (QR : B -> State -> Prop) QT :
  post m st (fun a st' => post (k a) st' QR QT) QT ->
  post (bind m k) st QR QT.
Proof. unfold post, bind. by destruct (m st) as [[a|msg] st']. Qed.

Lemma post_try_catch (body : M A) (handler : string -> M A) st
    (QR : A -> State -> Prop) QT :
  post body st QR (fun msg st' => post (handler msg) st' QR QT) ->
  post (try_catch body handler) st QR QT.
Proof. unfold post, try_catch. by destruct (body st) as [[a|msg] st']. Qed.

Lemma post_mono (m : M A) st (QR QR' : A -> State -> Prop) QT QT' :
  post m st QR QT ->
  (forall a st', QR a st' -> QR' a st') ->
  (forall msg st', QT msg st' -> QT' msg st') ->
  post m st QR' QT'.
Proof. unfold post. destruct (m st) as [[a|msg] st']; eauto. Qed.

End ProgramLogic.

Lemma post_emit (e : Event) st (QR : unit -> State -> Prop) QT :
  QR tt (with_events (fun l => (l ++ [e])%list) st) -> post (emit e) st QR QT.
Proof. done. Qed.

Lemma post_client_call {A} (e : Event) (answer : Outcome A) st
    (QR : A -> State -> Prop) QT :
  (let st' := with_events (fun l => (l ++ [e])%list) st in
   match answer with Returns a => QR a st' | Throws msg => QT msg st' end) ->
  post (client_call e answer) st QR QT.
Proof. unfold post, client_call, bind, emit, modify, throw. simpl. by destruct answer. Qed.

(* ================================================================= *)
(** ** Steps of a run only write through the found reference *)

Lemma tx_step_refl id txs : tx_step id txs txs.
Proof. exists (fun t => t). split; [done|]. by rewrite update_transaction_id. Qed.

Lemma tx_static_id id (g : Transaction -> Transaction) :
  (forall t, tx_static (g t) = tx_static t) ->
  forall t, tx_id t = id -> tx_id (g t) = id.
Proof. intros Hg t <-. specialize (Hg t). unfold tx_static in Hg. congruence. Qed.

Lemma tx_step_trans id txs1 txs2 txs3 :
  tx_step id txs1 txs2 -> tx_step id txs2 txs3 -> tx_step id txs1 txs3.
Proof.
  intros (g1 & Hg1 & ->) (g2 & Hg2 & ->).
  exists (fun t => g2 (g1 t)). split.
  - intros t. by rewrite Hg2, Hg1.
  - apply update_transaction_compose. by apply tx_static_id.
Qed.

Lemma tx_step_update id (g : Transaction -> Transaction) txs :
  (forall t, tx_static (g t) = tx_static t) ->
  tx_step id txs (update_transaction id g txs).
Proof. intros Hg. by exists g. Qed.

Lemma tx_step_find id txs txs' t :
  tx_step id txs txs' ->
  find_transaction id txs = Some t ->
  exists t', find_transaction id txs' = Some t' /\ tx_static t' = tx_static t.
Proof.
  intros (g & Hg & ->) Hfound. exists (g t). split; [|done].
  apply find_update_transaction; [|done]. by apply tx_static_id.
Qed.

Lemma tx_step_length id txs txs' :
  tx_step id txs txs' -> length txs' = length txs.
Proof. intros (g & _ & ->). apply update_transaction_length. Qed.

Lemma tx_step_ids id txs txs' :
  tx_step id txs txs' -> List.map tx_id txs' = List.map tx_id txs.
Proof.
  intros (g & Hg & ->). apply update_transaction_ids. by apply tx_static_id.
Qed.

(* ================================================================= *)
(** ** Triples over the registry *)

Section Triples.

Implicit Types (P Q R T : list Transaction -> Prop).

Lemma triple_bind {A B} (m : M A) (k : A -> M B) P R Q T :
  triple P m R T -> (forall a, triple R (k a) Q T) -> triple P (bind m k) Q T.
Proof.
  intros Hm Hk st HP. apply post_bind.
  eapply post_mono; [apply Hm, HP| |done].
  intros a st' HR. by apply Hk.
Qed.

Lemma triple_try_catch {A} (body : M A) (handler : string -> M A) P Q R T :
  triple P body Q R -> (forall msg, triple R (handler msg) Q T) ->
  triple P (try_catch body handler) Q T.
Proof.
  intros Hb Hh st HP. apply post_try_catch.
  eapply post_mono; [apply Hb, HP|done|].
  intros msg st' HR. by apply Hh.
Qed.

Lemma triple_conseq {A} (m : M A) P P' Q Q' T T' :
  triple P m Q T ->
  (forall txs, P' txs -> P txs) ->
  (forall txs, Q txs -> Q' txs) ->
  (forall txs, T txs -> T' txs) ->
  triple P' m Q' T'.
Proof.
  intros Hm HP HQ HT st HP'. eapply post_mono; [apply Hm, HP, HP'| |]; eauto.
Qed.

Lemma triple_ret {A} (a : A) P T : triple P (ret a) P T.
Proof. by intros st HP. Qed.

Lemma triple_gets {A} (f : State -> A) P T : triple P (gets f) P T.
Proof. by intros st HP. Qed.

Lemma triple_emit (e : Event) P T : triple P (emit e) P T.
Proof. by intros st HP. Qed.

Lemma triple_showToast message level P T : triple P (showToast message level) P T.
Proof. apply triple_emit. Qed.

Lemma triple_renderTestQueue P T : triple P renderTestQueue P T.
Proof. by intros st HP. Qed.

Lemma triple_saveTestsToStorage P T : triple P saveTestsToStorage P T.
Proof. by intros st HP. Qed.

Lemma triple_new_Client P T : triple P new_Client P T.
Proof. by intros st HP. Qed.

Lemma triple_new_Date Date_now P T : triple P (new_Date Date_now) P T.
Proof. by intros st HP. Qed.

Lemma triple_client_call {A} (e : Event) (answer : Outcome A) P :
  triple P (client_call e answer) P P.
Proof. intros st HP. apply post_client_call. by destruct answer. Qed.

Lemma triple_modify_transaction id g Q T :
  triple (fun txs => Q (update_transaction id g txs)) (modify_transaction id g) Q T.
Proof. by intros st HP. Qed.

Lemma updateTransactionStatus_transactions Date_now id status result st :
  fst (updateTransactionStatus Date_now id status result st) = Returns tt
  /\ transactions (snd (updateTransactionStatus Date_now id status result st))
     = update_transaction id
         (status_update status result (Date_now (clockReads st))) (transactions st).
Proof.
  destruct (find_transaction id (transactions st)) as [t|] eqn:Hfound.
  - rewrite (updateTransactionStatus_found _ _ _ _ _ _ Hfound). split; [done|].
    destruct st; simpl in *. symmetry. by apply update_transaction_found.
  - rewrite (updateTransactionStatus_not_found _ _ _ _ _ Hfound). split; [done|].
    simpl. symmetry. by apply update_transaction_not_found.
Qed.

Lemma triple_updateTransactionStatus Date_now id status result Q T :
  triple (fun txs => forall now,
            Q (update_transaction id (status_update status result now) txs))
         (updateTransactionStatus Date_now id status result) Q T.
Proof.
  intros st HP. unfold post.
  destruct (updateTransactionStatus_transactions Date_now id status result st) as [H1 H2].
  destruct (updateTransactionStatus Date_now id status result st) as [o st']; simpl in *.
  subst o. rewrite H2. apply HP.
Qed.

Lemma triple_modify_transaction_closed id g P T :
  closed id P -> (forall t, tx_static (g t) = tx_static t) ->
  triple P (modify_transaction id g) P T.
Proof.
  intros Hc Hg. eapply triple_conseq; [apply triple_modify_transaction| |done|done].
  intros txs HP. by apply Hc.
Qed.

Lemma triple_updateTransactionStatus_closed Date_now id status result P T :
  closed id P -> triple P (updateTransactionStatus Date_now id status result) P T.
Proof.
  intros Hc. eapply triple_conseq; [apply triple_updateTransactionStatus| |done|done].
  intros txs HP now. by apply Hc.
Qed.

Lemma closed_tx_step id txs0 : closed id (tx_step id txs0).
Proof.
  intros g txs Hg Hstep. eapply tx_step_trans; [exact Hstep|]. by apply tx_step_update.
Qed.

Lemma closed_found id : closed id (found id).
Proof.
  intros g txs Hg Hf. unfold found in *.
  destruct (find_transaction id txs) as [t|] eqn:E; [|done].
  rewrite (find_update_transaction _ _ _ _ (tx_static_id _ _ Hg) E). done.
Qed.

(** A final status written under [id] settles the test found there. *)
Lemma settled_status_update id status result now txs :
  status = passed \/ status = failed ->
  found id txs ->
  settled id (update_transaction id (status_update status result now) txs).
Proof.
  intros Hs Hf. unfold found in Hf.
  destruct (find_transaction id txs) as [t|] eqn:E; [|done].
  exists (status_update status result now t). split; [|done].
  apply find_update_transaction; [|done]. intros t' <-. done.
Qed.

End Triples.

(* ================================================================= *)
(** ** What a run does to the registry *)

Section RunnerSpecs.

Variable FIELDS : list (string * FieldInfo).
Variable JSON_parse : string -> option JS.Value.
Variable net : nat -> NetSession.
Variable Date_now : nat -> Timestamp.

Implicit Types (P Q T : list Transaction -> Prop) (t : Transaction).

Ltac keep_step :=
  lazymatch goal with
  | |- triple _ (bind _ _) _ _ => eapply triple_bind; [|intros ?]
  | |- triple _ (if ?c then _ else _) _ _ => destruct c
  | |- triple _ (ret _) _ _ => apply triple_ret
  | |- triple _ (gets _) _ _ => apply triple_gets
  | |- triple _ (showToast _ _) _ _ => apply triple_showToast
  | |- triple _ renderTestQueue _ _ => apply triple_renderTestQueue
  | |- triple _ saveTestsToStorage _ _ => apply triple_saveTestsToStorage
  | |- triple _ new_Client _ _ => apply triple_new_Client
  | |- triple _ (new_Date _) _ _ => apply triple_new_Date
  | |- triple _ (client_call _ _) _ _ => apply triple_client_call
  | |- triple _ (modify_transaction _ _) _ _ =>
      apply triple_modify_transaction_closed; [assumption|done]
  | |- triple _ (updateTransactionStatus _ _ _ _) _ _ =>
      apply triple_updateTransactionStatus_closed; assumption
  end.

(** The [try] block keeps every closed property, whether it returns or
    throws. *)
Lemma submitTest_keeps t txObject acc endpoint P :
  closed (tx_id t) P ->
  triple P (submitTest net Date_now t txObject acc endpoint) P P.
Proof.
  intros Hc. unfold submitTest. cbv zeta. repeat keep_step.
Qed.

(** Writing a final status settles the test. *)
Lemma final_status_settles id status result T :
  status = passed \/ status = failed ->
  triple (found id) (updateTransactionStatus Date_now id status result)
    (settled id) T.
Proof.
  intros Hs.
  apply (triple_conseq _ _ _ _ _ _ _
           (triple_updateTransactionStatus Date_now id status result (settled id) T));
    [|done|done].
  intros txs Hf now. by apply settled_status_update.
Qed.

(** The tail shared by both paths: grade, then notify. *)
Lemma grade_tail_settles id status result message level T :
  status = passed \/ status = failed ->
  triple (found id)
    (updateTransactionStatus Date_now id status result ;; showToast message level)
    (settled id) T.
Proof.
  intros Hs. eapply triple_bind; [|intros ?; apply triple_showToast].
  by apply final_status_settles.
Qed.

(** When the [try] block returns, the test is settled. *)
Lemma submitTest_settles t txObject acc endpoint :
  triple (found (tx_id t)) (submitTest net Date_now t txObject acc endpoint)
    (settled (tx_id t)) (found (tx_id t)).
Proof.
  pose proof (closed_found (tx_id t)) as Hc.
  unfold submitTest. cbv zeta.
  do 14 (eapply triple_bind; [solve [repeat keep_step]|intros ?]).
  eapply triple_bind with (R := settled (tx_id t)).
  - destruct (_ =? _); apply grade_tail_settles; auto.
  - intros ?. repeat keep_step.
Qed.

(** The [catch] block never throws; it keeps every closed property and
    settles the test. *)
Lemma handleTestError_keeps t message P T :
  closed (tx_id t) P ->
  triple P (handleTestError Date_now t message) P T.
Proof.
  intros Hc. unfold handleTestError. cbv zeta. repeat keep_step.
Qed.

Lemma handleTestError_settles t message T :
  triple (found (tx_id t)) (handleTestError Date_now t message)
    (settled (tx_id t)) T.
Proof.
  pose proof (closed_found (tx_id t)) as Hc.
  unfold handleTestError. cbv zeta.
  eapply triple_bind; [solve [repeat keep_step]|intros ?].
  eapply triple_bind with (R := settled (tx_id t)).
  - destruct (_ =? _); apply grade_tail_settles; auto.
  - intros ?. repeat keep_step.
Qed.

Lemma triple_at {A} (m : M A) P Q T st :
  triple P m Q T -> P (transactions st) ->
  post m st (fun _ st' => Q (transactions st')) (fun _ st' => T (transactions st')).
Proof. intros H. apply H. Qed.

(** [runSingleTest] never throws and keeps every closed property. *)
Lemma runSingleTest_keeps id P :
  closed id P ->
  triple P (runSingleTest FIELDS JSON_parse net Date_now id) P (fun _ => False).
Proof.
  intros Hc st HP. unfold runSingleTest. apply post_bind, post_gets.
  destruct (find_transaction id (transactions st)) as [t|] eqn:E.
  - pose proof (find_transaction_id _ _ _ E) as Hid. rewrite <- Hid in Hc.
    clear E. revert HP. apply (triple_at _ P P (fun _ => False)).
    destruct (negb _).
    + rewrite Hid in *. repeat keep_step.
    + eapply triple_bind; [apply triple_gets|intros accs].
      destruct (List.find _ accs) as [acc|].
      * eapply triple_bind; [apply triple_gets|intros endpoint].
        eapply triple_try_catch; [by apply submitTest_keeps|].
        intros msg. by apply handleTestError_keeps.
      * rewrite Hid in *. repeat keep_step.
  - revert HP. apply (triple_at _ P P (fun _ => False)), triple_showToast.
Qed.

(** If some test carries the id, [runSingleTest] leaves it settled. *)
Lemma runSingleTest_settles id :
  triple (found id) (runSingleTest FIELDS JSON_parse net Date_now id)
    (settled id) (fun _ => False).
Proof.
  intros st HP. unfold runSingleTest. apply post_bind, post_gets.
  destruct (find_transaction id (transactions st)) as [t|] eqn:E;
    [|by unfold found in HP].
  pose proof (find_transaction_id _ _ _ E) as Hid.
  pose proof (closed_found id) as Hc.
  clear E. revert HP. apply (triple_at _ (found id) (settled id) (fun _ => False)).
  destruct (negb _).
  - eapply triple_bind; [apply triple_showToast|intros ?].
    eapply triple_bind with (R := settled id); [|intros ?; repeat keep_step].
    apply final_status_settles; auto.
  - eapply triple_bind; [apply triple_gets|intros accs].
    destruct (List.find _ accs) as [acc|].
    + eapply triple_bind; [apply triple_gets|intros endpoint].
      rewrite <- Hid.
      eapply triple_try_catch; [apply submitTest_settles|].
      intros msg. apply handleTestError_settles.
    + eapply triple_bind; [apply triple_showToast|intros ?].
      eapply triple_bind with (R := settled id); [|intros ?; repeat keep_step].
      apply final_status_settles; auto.
Qed.

End RunnerSpecs.

(* ================================================================= *)
(** ** [runSingleTest]: a submission that throws *)

Lemma grade_passed actual expected :
  grade actual expected = passed <-> actual = expected.
Proof.
  unfold grade. destruct (String.eqb_spec actual expected); split; done.
Qed.

Lemma grade_failed actual expected :
  grade actual expected = failed <-> actual <> expected.
Proof.
  unfold grade. destruct (String.eqb_spec actual expected); split; done.
Qed.

Lemma graded_status_update id actual status now txs :
  found id txs ->
  graded id actual status
    (update_transaction id (status_update status (Some actual) now) txs).
Proof.
  intros Hf. unfold found in Hf.
  destruct (find_transaction id txs) as [t|] eqn:E; [|done].
  exists (status_update status (Some actual) now t). split; [|done].
  apply find_update_transaction; [|done]. by intros t' <-.
Qed.

(** The [catch] block records the extracted code, or else the raw message,
    and grades it against [expectedResult]. *)
Lemma handleTestError_grades Date_now t message T :
  let actual :=
    match resultCodeMatch message with Some code => code | None => message end in
  triple (found (tx_id t)) (handleTestError Date_now t message)
    (graded (tx_id t) actual (grade actual (tx_expectedResult t))) T.
Proof.
  intros actual. pose proof (closed_found (tx_id t)) as Hc.
  unfold handleTestError. cbv zeta. fold actual.
  eapply triple_bind;
    [apply triple_modify_transaction_closed; [assumption|done]|intros ?].
  eapply triple_bind
    with (R := graded (tx_id t) actual (grade actual (tx_expectedResult t))).
  - unfold grade. destruct (actual =? tx_expectedResult t);
      (eapply triple_bind; [|intros ?; apply triple_showToast]);
      (eapply triple_conseq; [apply triple_updateTransactionStatus| |done|done]);
      intros txs Hf now; by apply graded_status_update.
  - intros ?. eapply triple_bind; [apply triple_renderTestQueue|intros ?].
    apply triple_saveTestsToStorage.
Qed.

(** C1 (as amended).  Suppose [runSingleTest] reaches the [try] block (the
    test is found, has a type, and a signing account exists) and the block
    throws an error with text [message].  Then [runSingleTest] returns
    normally.  If the pattern extracts a result code from [message] (the
    leftmost match, taken as long as it goes), that code is the test's
    [actualResult] and the test is [passed] exactly when the code equals
    [expectedResult], [failed] otherwise.  If the pattern matches nowhere,
    [message] itself is the [actualResult], and the test is [failed]
    whenever [expectedResult] holds a result code, as the one the program
    sets always does.  Both cases go through the one equality check of
    the [catch] block, [actualResult === expectedResult]. *)
Theorem runSingleTest_error_grading
    (FIELDS : list (string * FieldInfo)) (JSON_parse : string -> option JS.Value)
    (net : nat -> NetSession) (Date_now : nat -> Timestamp)
    (transactionId : string) (st st1 : State) (t : Transaction)
    (signingAccount : Account) (message : string) :
  find_transaction transactionId (transactions st) = Some t ->
  truthy_string (tx_type t) = true ->
  List.find (fun acc => truthy_string (acc_seed acc)) (accounts st)
    = Some signingAccount ->
  submitTest net Date_now t (buildTransactionObjectFromTest FIELDS JSON_parse t)
    signingAccount (NETWORK_ENDPOINTS (currentNetwork st)) st
    = (Throws message, st1) ->
  let actual :=
    match resultCodeMatch message with Some code => code | None => message end in
  let r := runSingleTest FIELDS JSON_parse net Date_now transactionId st in
  fst r = Returns tt
  /\ (exists t', find_transaction transactionId (transactions (snd r)) = Some t'
                 /\ tx_actualResult t' = Some actual
                 /\ tx_status t' = grade actual (tx_expectedResult t))
  /\ (grade actual (tx_expectedResult t) = passed <-> actual = tx_expectedResult t)
  /\ (grade actual (tx_expectedResult t) = failed <-> actual <> tx_expectedResult t)
  /\ (forall code, resultCodeMatch message = Some code ->
        actual = code
        /\ (grade actual (tx_expectedResult t) = passed <-> code = tx_expectedResult t))
  /\ (resultCodeMatch message = None ->
        actual = message
        /\ (grade actual (tx_expectedResult t) = passed <-> message = tx_expectedResult t)
        /\ (resultCodeMatch (tx_expectedResult t) <> None ->
            grade actual (tx_expectedResult t) = failed)).
Proof.
  intros Hfound Htype Hacc Hthrow actual r.
  pose proof (find_transaction_id _ _ _ Hfound) as Hid.
  assert (Hpost : post (runSingleTest FIELDS JSON_parse net Date_now transactionId) st
            (fun _ st' => graded transactionId actual
                            (grade actual (tx_expectedResult t)) (transactions st'))
            (fun _ _ => False)).
  { unfold runSingleTest. apply post_bind, post_gets. rewrite Hfound, Htype. simpl.
    apply post_bind, post_gets. rewrite Hacc.
    apply post_bind, post_gets. apply post_try_catch.
    unfold post at 1. rewrite Hthrow.
    rewrite <- Hid.
    apply (triple_at _ (found (tx_id t)) _ (fun _ => False) st1
             (handleTestError_grades Date_now t message _)).
    pose proof (submitTest_keeps net Date_now t
                  (buildTransactionObjectFromTest FIELDS JSON_parse t) signingAccount
                  (NETWORK_ENDPOINTS (currentNetwork st)) (found (tx_id t))
                  (closed_found _) st) as Hk.
    unfold post in Hk. rewrite Hthrow in Hk. apply Hk.
    unfold found. rewrite Hid. by rewrite Hfound. }
  unfold post in Hpost. fold r in Hpost. destruct r as [[[]|msg] st']; [|done].
  simpl. split; [done|]. split; [exact Hpost|].
  split; [apply grade_passed|]. split; [apply grade_failed|]. split.
  - intros code Hm. unfold actual. rewrite Hm. split; [done|].
    apply grade_passed.
  - intros Hm. unfold actual. rewrite Hm. split; [done|]. split; [apply grade_passed|].
    intros He. apply grade_failed. intros ->. done.
Qed.

(** The example of the specification: [tecNO_DST] is expected, and the
    submission is rejected with an error that names [tecNO_DST]. *)
Lemma runSingleTest_error_grading_witness :
  tx_status
    <$> find_transaction "tx-1"
          (transactions
             (exec (runSingleTest [] (fun _ => None)
                      (fun _ => rejecting_session
                         "Transaction failed, tecNO_DST: Destination does not exist.")
                      (fun n => n) "tx-1")
                   (initial_state [payment_test "tx-1" "Test 1" "tecNO_DST"] [signer])))
  = Some passed.
Proof.
  destruct (runSingleTest_error_grading [] (fun _ => None)
              (fun _ => rejecting_session
                 "Transaction failed, tecNO_DST: Destination does not exist.")
              (fun n => n) "tx-1"
              (initial_state [payment_test "tx-1" "Test 1" "tecNO_DST"] [signer])
              (snd (submitTest
                      (fun _ => rejecting_session
                         "Transaction failed, tecNO_DST: Destination does not exist.")
                      (fun n => n) (payment_test "tx-1" "Test 1" "tecNO_DST")
                      (buildTransactionObjectFromTest [] (fun _ => None)
                         (payment_test "tx-1" "Test 1" "tecNO_DST"))
                      signer (Some "wss://s.altnet.rippletest.net:51233")
                      (initial_state [payment_test "tx-1" "Test 1" "tecNO_DST"] [signer])))
              (payment_test "tx-1" "Test 1" "tecNO_DST") signer
              "Transaction failed, tecNO_DST: Destination does not exist."
              eq_refl eq_refl eq_refl eq_refl)
    as (_ & (t' & Hf & _ & Hs) & _).
  unfold exec. rewrite Hf. simpl. rewrite Hs. reflexivity.
Defined.

(** C1 (as stated) fails on its example: with [tecNO_DST] expected, an
    error whose text contains [tecNO_DST], but as the beginning of the
    longer code [tecNO_DST_INSUF_XRP], has that longer code extracted as
    [actualResult], and the test is graded [failed], not [passed]. *)
Lemma runSingleTest_longer_code_fails :
  let message :=
    "Transaction failed, tecNO_DST_INSUF_XRP: Destination does not exist. Too little XRP sent to create it." in
  let st' :=
    exec (runSingleTest [] (fun _ => None)
            (fun _ => rejecting_session message) (fun n => n) "tx-1")
         (initial_state [payment_test "tx-1" "Test 1" "tecNO_DST"] [signer]) in
  includes message "tecNO_DST" = true
  /\ resultCodeMatch message = Some "tecNO_DST_INSUF_XRP"
  /\ tx_actualResult <$> find_transaction "tx-1" (transactions st')
     = Some (Some "tecNO_DST_INSUF_XRP")
  /\ tx_status <$> find_transaction "tx-1" (transactions st') = Some failed.
Proof. vm_compute. done. Qed.

(* ================================================================= *)
(** ** [runAllTests]: one run per test, in order *)

Section Batch.

Variable FIELDS : list (string * FieldInfo).
Variable JSON_parse : string -> option JS.Value.
Variable net : nat -> NetSession.
Variable Date_now : nat -> Timestamp.

Local Abbreviation run := (runSingleTest FIELDS JSON_parse net Date_now).

(** A run always returns; it only writes through the reference it found,
    and settles the test if there is one. *)
Lemma runSingleTest_total id st :
  exists st', run id st = (Returns tt, st')
    /\ tx_step id (transactions st) (transactions st')
    /\ (found id (transactions st) -> settled id (transactions st')).
Proof.
  pose proof (runSingleTest_keeps FIELDS JSON_parse net Date_now id
                (tx_step id (transactions st)) (closed_tx_step _ _) st
                (tx_step_refl _ _)) as Hk.
  pose proof (runSingleTest_settles FIELDS JSON_parse net Date_now id st) as Hs.
  unfold post in Hk, Hs.
  destruct (run id st) as [[[]|msg] st']; [|done].
  exists st'. split; [done|]. split; [done|]. exact Hs.
Qed.

Lemma closed_found_any id id' : closed id' (found id).
Proof.
  intros g txs Hg Hf. destruct (String.eqb_spec id id') as [->|Hne].
  - by apply closed_found.
  - unfold found in *.
    by rewrite (find_update_transaction_ne _ _ _ _ (tx_static_id _ _ Hg) Hne).
Qed.

Lemma closed_settled_other id id' : id <> id' -> closed id' (settled id).
Proof.
  intros Hne g txs Hg (t & Hf & Hs). exists t. split; [|done].
  by rewrite (find_update_transaction_ne _ _ _ _ (tx_static_id _ _ Hg) Hne).
Qed.

(** The loop: from index [i] on, one run per remaining test, in order. *)
Lemma runEach_runs fuel : forall i st,
  length (transactions st) <= i + fuel ->
  exists st', runEach FIELDS JSON_parse net Date_now fuel i st = (Returns tt, st')
    /\ RunsInOrder run (drop i (List.map tx_id (transactions st))) st st'.
Proof.
  induction fuel as [|fuel IH]; intros i st Hlen.
  - exists st. split; [done|].
    rewrite drop_ge by (rewrite length_map; lia). constructor.
  - simpl. unfold bind at 1, gets at 1. simpl.
    destruct (transactions st !! i) as [t|] eqn:Hi.
    + destruct (runSingleTest_total (tx_id t) st) as (st1 & Hrun & Hstep & _).
      unfold bind at 1. rewrite Hrun.
      destruct (IH (S i) st1) as (st' & Hrest & Hchain).
      { rewrite (tx_step_length _ _ _ Hstep). lia. }
      exists st'. split; [done|].
      rewrite (tx_step_ids _ _ _ Hstep) in Hchain.
      rewrite (drop_S _ (tx_id t)) by (by rewrite list_lookup_fmap, Hi).
      econstructor; eassumption.
    + exists st. split; [done|].
      apply lookup_ge_None in Hi.
      rewrite drop_ge by (rewrite length_map; lia). constructor.
Qed.

(** Along such a chain the ids never change, and every test that was run,
    or was settled before, ends settled. *)
Lemma RunsInOrder_settles ids st st' :
  RunsInOrder run ids st st' ->
  List.map tx_id (transactions st') = List.map tx_id (transactions st)
  /\ forall id, found id (transactions st) ->
       id ∈ ids \/ settled id (transactions st) ->
       settled id (transactions st').
Proof.
  induction 1 as [st|id ids st st1 st2 Hrun Hchain [IHids IH]].
  - split; [done|]. intros id _ [Hin|Hs]; [by apply not_elem_of_nil in Hin|done].
  - destruct (runSingleTest_total id st) as (st1' & Hrun' & Hstep & Hsettle).
    rewrite Hrun in Hrun'. injection Hrun' as <-.
    split; [by rewrite IHids, (tx_step_ids _ _ _ Hstep)|].
    intros id' Hf Hcase.
    destruct Hstep as (g & Hg & Htx).
    assert (Hf1 : found id' (transactions st1)).
    { rewrite Htx. by apply closed_found_any. }
    apply IH; [done|].
    destruct (String.eqb_spec id' id) as [->|Hne].
    + right. by apply Hsettle.
    + destruct Hcase as [Hin|Hs].
      * left. apply elem_of_cons in Hin. by destruct Hin.
      * right. rewrite Htx. by apply closed_settled_other.
Qed.

Lemma find_transaction_NoDup txs t :
  NoDup (List.map tx_id txs) -> t ∈ txs -> find_transaction (tx_id t) txs = Some t.
Proof.
  induction txs as [|tx rest IH]; simpl; intros Hnd Hin.
  - by apply not_elem_of_nil in Hin.
  - apply NoDup_cons in Hnd as [Hnotin Hnd].
    apply elem_of_cons in Hin as [->|Hin]; [by rewrite String.eqb_refl|].
    destruct (String.eqb_spec (tx_id tx) (tx_id t)) as [E|_]; [|by apply IH].
    exfalso. apply Hnotin. rewrite E. by apply (list_elem_of_fmap_2 tx_id).
Qed.

Lemma find_transaction_found txs t : t ∈ txs -> found (tx_id t) txs.
Proof.
  unfold found, find_transaction. intros Hin Hnone.
  apply list_elem_of_In in Hin.
  apply (List.find_none _ _ Hnone) in Hin. simpl in Hin.
  by rewrite String.eqb_refl in Hin.
Qed.

Lemma count_final txs :
  Forall final_status txs ->
  count_status passed txs + count_status failed txs = length txs.
Proof.
  unfold count_status. induction 1 as [|t txs [Ht|Ht] _ IH]; simpl; [done| |];
    rewrite Ht; simpl; lia.
Qed.

End Batch.

Lemma reset_transaction_ids txs :
  List.map tx_id (List.map reset_transaction txs) = List.map tx_id txs.
Proof. rewrite List.map_map. done. Qed.

(** C3.  On a registry whose ids are distinct, [runAllTests] returns
    normally, and its effect is this: first every test is reset ([pending],
    with [actualResult], [hash] and [submittedAt] cleared) and the queue is
    redrawn in that state; then [runSingleTest] is run once for each test,
    in registry order, each run starting in the state in which the previous
    one returned, whatever that run's outcome; after the last run only the
    summary and a closing toast are shown.  At the end every test is [passed] or [failed], so the passed
    and failed counts add up to the number of tests (3 for 3 tests). *)
Theorem runAllTests_sequential
    (FIELDS : list (string * FieldInfo)) (JSON_parse : string -> option JS.Value)
    (net : nat -> NetSession) (Date_now : nat -> Timestamp) (st : State) :
  NoDup (List.map tx_id (transactions st)) ->
  let run := runSingleTest FIELDS JSON_parse net Date_now in
  let reset := List.map reset_transaction (transactions st) in
  let st0 :=
    with_events
      (fun l => (l ++ [EvToast "Running all tests..." info; EvRenderTestQueue reset])%list)
      (with_transactions (fun _ => reset) st) in
  let r := runAllTests FIELDS JSON_parse net Date_now st in
  fst r = Returns tt
  /\ Forall (fun t => tx_status t = pending /\ tx_actualResult t = None
                      /\ tx_hash t = None /\ tx_submittedAt t = None)
            (transactions st0)
  /\ exists st_n,
       RunsInOrder run (List.map tx_id (transactions st)) st0 st_n
       /\ (exists shown, snd r = with_events (fun l => (l ++ shown)%list) st_n)
       /\ transactions (snd r) = transactions st_n
       /\ List.map tx_id (transactions (snd r)) = List.map tx_id (transactions st)
       /\ Forall final_status (transactions (snd r))
       /\ sum_total (summarize (transactions (snd r))) = length (transactions st)
       /\ sum_passed (summarize (transactions (snd r)))
          + sum_failed (summarize (transactions (snd r)))
          = sum_total (summarize (transactions (snd r))).
Proof.
  intros Hnd run reset st0 r.
  assert (Hids0 : List.map tx_id (transactions st0) = List.map tx_id (transactions st)).
  { unfold st0. simpl. apply reset_transaction_ids. }
  destruct (runEach_runs FIELDS JSON_parse net Date_now (length (transactions st0)) 0 st0)
    as (st_n & Hloop & Hchain); [lia|].
  rewrite drop_0, Hids0 in Hchain.
  assert (Hr : exists st_f, r = (Returns tt, st_f)
                            /\ (exists shown,
                                  st_f = with_events (fun l => (l ++ shown)%list) st_n)
                            /\ transactions st_f = transactions st_n).
  { unfold r, runAllTests.
    unfold bind at 1, showToast, emit, modify. simpl.
    unfold bind at 1, modify. simpl.
    unfold bind at 1, renderTestQueue, bind at 1, gets at 1, emit, modify. simpl.
    unfold bind at 1, gets at 1. simpl.
    unfold bind at 1.
    replace (with_events _ (with_transactions _ (with_events _ st))) with st0
      by (unfold st0, reset; destruct st; simpl; unfold with_events; simpl;
          by rewrite <- app_assoc).
    replace (length (List.map reset_transaction (transactions st)))
      with (length (transactions st0)) by (by destruct st).
    rewrite Hloop.
    unfold bind at 1, gets at 1. simpl.
    unfold bind at 1, renderTestResultsSummary, bind at 1, gets at 1. simpl.
    destruct (existsb _ _); simpl; destruct (_ =? _)%nat;
      (eexists; split; [reflexivity|]; split; [|done]);
      (eexists; unfold with_events; simpl; rewrite <- app_assoc; reflexivity). }
  destruct Hr as (st_f & Hr & Hshown & Htx). rewrite Hr. simpl. clearbody r. clear Hr.
  destruct (RunsInOrder_settles FIELDS JSON_parse net Date_now _ _ _ Hchain)
    as [Hidsn Hsettled].
  assert (Hfinal : Forall final_status (transactions st_f)).
  { rewrite Htx. apply Forall_forall. intros t Hin.
    assert (Hidin : tx_id t ∈ List.map tx_id (transactions st)).
    { rewrite <- Hids0, <- Hidsn. by apply (list_elem_of_fmap_2 tx_id). }
    assert (Hfound0 : found (tx_id t) (transactions st0)).
    { rewrite <- Hids0 in Hidin.
      apply (list_elem_of_fmap_1 tx_id) in Hidin as (t0 & -> & Hin0).
      by apply find_transaction_found. }
    destruct (Hsettled (tx_id t) Hfound0 (or_introl Hidin)) as (t' & Hf & Hs).
    rewrite find_transaction_NoDup in Hf; [by injection Hf as <-| |done].
    by rewrite Hidsn, Hids0. }
  split; [done|]. split.
  { unfold st0, reset. simpl. apply Forall_forall. intros t Hin.
    apply list_elem_of_In, List.in_map_iff in Hin as (t0 & <- & _). done. }
  exists st_n. split; [done|]. split; [done|]. split; [done|].
  split; [by rewrite Htx, Hidsn, Hids0|]. split; [done|].
  assert (Hlen : length (transactions st_f) = length (transactions st)).
  { rewrite <- (length_map tx_id (transactions st_f)), Htx, Hidsn, Hids0.
    apply length_map. }
  split; [done|]. by apply count_final.
Qed.

(** Three pending tests, one of them without a type, on a network that
    validates every submission. *)
Lemma runAllTests_sequential_witness :
  let txs :=
    transactions
      (exec (runAllTests [] (fun _ => None) (fun _ => quiet_session) (fun n => n))
            (initial_state three_pending [signer])) in
  count_status passed txs + count_status failed txs = 3.
Proof.
  destruct (runAllTests_sequential [] (fun _ => None) (fun _ => quiet_session)
              (fun n => n) (initial_state three_pending [signer]))
    as (_ & _ & st_n & _ & _ & _ & _ & _ & Htotal & Hsum).
  - apply (bool_decide_unpack _). by vm_compute.
  - simpl in *. unfold exec. rewrite Hsum. exact Htotal.
Defined.

(* ================================================================= *)
(** ** The builders, field by field *)

Section BuilderFacts.

Variable FIELDS : list (string * FieldInfo).
Variable JSON_parse : string -> option JS.Value.

Implicit Types (acc : TxObject) (b : Block) (f : string).

(** A block writes at most its own key. *)
Lemma addBlockFromTest_other acc b f :
  blk_fieldName b <> f ->
  addBlockFromTest FIELDS JSON_parse acc b !! f = acc !! f.
Proof.
  intros Hne. unfold addBlockFromTest.
  destruct (negb _); [done|].
  destruct (blk_value b) as [|s|members]; [done| |by rewrite lookup_insert_ne].
  destruct (is_Amount _); [by rewrite lookup_insert_ne|].
  destruct (JSON_parse s); by rewrite lookup_insert_ne.
Qed.

Lemma addBlock_other acc b f :
  blk_fieldName b <> f -> addBlock FIELDS acc b !! f = acc !! f.
Proof.
  intros Hne. unfold addBlock.
  destruct (truthy_value _); [|done].
  destruct (blk_value b) as [|s|members]; [done| |by rewrite lookup_insert_ne].
  destruct (negb _); [by rewrite lookup_insert_ne|done].
Qed.

Lemma foldl_addBlockFromTest_other blocks : forall acc f,
  Forall (fun b => blk_fieldName b <> f) blocks ->
  foldl (addBlockFromTest FIELDS JSON_parse) acc blocks !! f = acc !! f.
Proof.
  induction blocks as [|b blocks IH]; intros acc f Hall; [done|].
  apply Forall_cons in Hall as [Hb Hall]. simpl.
  rewrite IH by done. by apply addBlockFromTest_other.
Qed.

Lemma foldl_addBlock_other blocks : forall acc f,
  Forall (fun b => blk_fieldName b <> f) blocks ->
  foldl (addBlock FIELDS) acc blocks !! f = acc !! f.
Proof.
  induction blocks as [|b blocks IH]; intros acc f Hall; [done|].
  apply Forall_cons in Hall as [Hb Hall]. simpl.
  rewrite IH by done. by apply addBlock_other.
Qed.

(** With distinct names, a block is the last of its name. *)
Lemma NoDup_split_last (blocks : list Block) b :
  b ∈ blocks -> NoDup (List.map blk_fieldName blocks) ->
  exists pre post, blocks = (pre ++ b :: post)%list
    /\ Forall (fun b' => blk_fieldName b' <> blk_fieldName b) post.
Proof.
  intros Hin Hnd. apply list_elem_of_split in Hin as (pre & post & ->).
  exists pre, post. split; [done|].
  rewrite List.map_app in Hnd. simpl in Hnd.
  apply NoDup_app in Hnd as (_ & _ & Hnd). apply NoDup_cons in Hnd as [Hnotin _].
  apply Forall_forall. intros b' Hb' Heq. apply Hnotin. rewrite <- Heq.
  by apply (list_elem_of_fmap_2 blk_fieldName).
Qed.

End BuilderFacts.

(** C4.  Take a test whose field names are distinct and a field of it whose
    catalog type is [Amount] and whose value is a scalar string [s].
    Whatever [JSON.parse] would make of [s], both builders store the string
    [s] itself under the field's name: the test builder whenever [s] is not
    empty, the preview builder whenever [s] is not blank; and
    [convertFieldValue] returns the string for every [s].  So the value is
    never a number and never the result of parsing. *)
Theorem Amount_scalar_stays_string
    (FIELDS : list (string * FieldInfo)) (JSON_parse : string -> option JS.Value)
    (tx : Transaction) (b : Block) (s : string) (info : FieldInfo) :
  b ∈ tx_blocks tx ->
  NoDup (List.map blk_fieldName (tx_blocks tx)) ->
  blk_value b = VStr s ->
  getFieldInfo FIELDS (blk_fieldName b) = Some info ->
  fi_type info = "Amount" ->
  convertFieldValue s (Some info) = JS.Str s
  /\ (s <> "" ->
      buildTransactionObjectFromTest FIELDS JSON_parse tx !! blk_fieldName b
      = Some (JS.Str s))
  /\ (JS.trim s <> "" ->
      forall st, getCurrentTransaction st = Some tx ->
      buildTransactionObject FIELDS st !! blk_fieldName b = Some (JS.Str s)).
Proof.
  intros Hin Hnd Hval Hinfo Htype.
  destruct (NoDup_split_last _ _ Hin Hnd) as (pre & post & Hblocks & Hpost).
  assert (Hconv : convertFieldValue s (Some info) = JS.Str s).
  { unfold convertFieldValue. by rewrite Htype. }
  split; [done|]. split.
  - intros Hs. unfold buildTransactionObjectFromTest.
    rewrite Hblocks, foldl_app. simpl. rewrite foldl_addBlockFromTest_other by done.
    unfold addBlockFromTest, truthy_value, is_Amount. rewrite Hval, Hinfo, Htype.
    destruct (String.eqb_spec s "") as [|_]; [done|].
    rewrite String.eqb_refl. cbn [negb]. by rewrite lookup_insert_eq, Hconv.
  - intros Hs st Hcur. unfold buildTransactionObject. rewrite Hcur.
    unfold buildTransactionObject_of.
    rewrite Hblocks, foldl_app. simpl. rewrite foldl_addBlock_other by done.
    unfold addBlock, truthy_value. rewrite Hval.
    destruct (String.eqb_spec s "") as [->|_]; [done|].
    destruct (String.eqb_spec (JS.trim s) "") as [|_]; [done|].
    cbn [negb]. by rewrite lookup_insert_eq, Hinfo, Hconv.
Qed.

(** The [Amount] of the payment example, under a parser that would read it
    as a number. *)
Lemma Amount_scalar_stays_string_witness :
  buildTransactionObjectFromTest sample_FIELDS numeric_parse
    (payment_test "tx-1" "Test 1" "tesSUCCESS") !! "Amount"
  = Some (JS.Str "1000000").
Proof.
  destruct (Amount_scalar_stays_string sample_FIELDS numeric_parse
              (payment_test "tx-1" "Test 1" "tesSUCCESS")
              (mkBlock "Amount" (VStr "1000000")) "1000000" (mkFieldInfo "Amount"))
    as (_ & H & _).
  - apply (bool_decide_unpack _). by vm_compute.
  - apply (bool_decide_unpack _). by vm_compute.
  - reflexivity.
  - reflexivity.
  - reflexivity.
  - apply H. discriminate.
Defined.

(* ================================================================= *)
(** ** The [TransactionType] key *)

(** When the type is set, both builders put it under [TransactionType]
    (unless a field block of that very name overwrites it). *)
Lemma TransactionType_present
    (FIELDS : list (string * FieldInfo)) (JSON_parse : string -> option JS.Value)
    (tx : Transaction) (ty : string) :
  tx_type tx = Some ty -> ty <> "" ->
  Forall (fun b => blk_fieldName b <> "TransactionType") (tx_blocks tx) ->
  buildTransactionObjectFromTest FIELDS JSON_parse tx !! "TransactionType"
  = Some (JS.Str ty)
  /\ buildTransactionObject_of FIELDS (tx_type tx) (tx_blocks tx) !! "TransactionType"
     = Some (JS.Str ty).
Proof.
  intros Hty Hne Hblocks. split.
  - unfold buildTransactionObjectFromTest.
    rewrite foldl_addBlockFromTest_other by done. by rewrite Hty, lookup_singleton_eq.
  - unfold buildTransactionObject_of.
    rewrite foldl_addBlock_other by done. rewrite Hty. simpl.
    destruct (String.eqb_spec ty "") as [|_]; [done|]. simpl.
    by rewrite lookup_singleton_eq.
Qed.

(** When the type is unset, the preview builder leaves the key out, but the
    test builder keeps it, holding [null]. *)
Lemma TransactionType_absent
    (FIELDS : list (string * FieldInfo)) (JSON_parse : string -> option JS.Value)
    (tx : Transaction) :
  tx_type tx = None ->
  Forall (fun b => blk_fieldName b <> "TransactionType") (tx_blocks tx) ->
  buildTransactionObjectFromTest FIELDS JSON_parse tx !! "TransactionType"
  = Some JS.Null
  /\ buildTransactionObject_of FIELDS (tx_type tx) (tx_blocks tx) !! "TransactionType"
     = None.
Proof.
  intros Hty Hblocks. split.
  - unfold buildTransactionObjectFromTest.
    rewrite foldl_addBlockFromTest_other by done. by rewrite Hty, lookup_singleton_eq.
  - unfold buildTransactionObject_of.
    rewrite foldl_addBlock_other by done. by rewrite Hty.
Qed.

(** C5 (the code departs from it).  For a test as [createTransaction] makes
    it, with no transaction type, [buildTransactionObject] leaves
    [TransactionType] out, but [buildTransactionObjectFromTest], which the
    runner and both reports use, returns an object in which the key is
    present and holds [null]. *)
Theorem TransactionType_null_in_test_builder
    (FIELDS : list (string * FieldInfo)) (JSON_parse : string -> option JS.Value) :
  buildTransactionObject FIELDS (initial_state [fresh_test "tx-1" "Test 1"] [])
    !! "TransactionType" = None
  /\ buildTransactionObjectFromTest FIELDS JSON_parse (fresh_test "tx-1" "Test 1")
       !! "TransactionType" = Some JS.Null
  /\ buildTransactionObjectFromTest FIELDS JSON_parse (fresh_test "tx-1" "Test 1")
     = {[ "TransactionType" := JS.Null ]}.
Proof. done. Qed.

(* ================================================================= *)
(** ** Empty and blank values *)

(** An absent or empty value adds nothing, in either builder; a blank one
    adds nothing in the preview builder. *)
Lemma empty_value_omitted
    (FIELDS : list (string * FieldInfo)) (JSON_parse : string -> option JS.Value)
    (acc : TxObject) (b : Block) :
  (truthy_value (blk_value b) = false ->
   addBlockFromTest FIELDS JSON_parse acc b = acc /\ addBlock FIELDS acc b = acc)
  /\ (forall s, blk_value b = VStr s -> JS.trim s = "" -> addBlock FIELDS acc b = acc).
Proof.
  split.
  - intros H. unfold addBlockFromTest, addBlock. by rewrite H.
  - intros s Hs Hblank. unfold addBlock. rewrite Hs, Hblank.
    by destruct (truthy_value _).
Qed.

(** C6 (the code departs from it).  A field whose value is three spaces is
    blank after trimming; [buildTransactionObject] omits it, but
    [buildTransactionObjectFromTest] keeps the key with the blank string,
    and the runner's cleaning pass, which drops only [''], lets it through
    to submission. *)
Theorem blank_value_kept_by_test_builder (JSON_parse : string -> option JS.Value) :
  let tx := one_field_test "Amount" "   " in
  JS.trim "   " = ""
  /\ buildTransactionObject sample_FIELDS (initial_state [tx] []) !! "Amount" = None
  /\ buildTransactionObjectFromTest sample_FIELDS JSON_parse tx !! "Amount"
     = Some (JS.Str "   ")
  /\ clean (buildTransactionObjectFromTest sample_FIELDS JSON_parse tx) !! "Amount"
     = Some (JS.Str "   ").
Proof. vm_compute. done. Qed.

(* ================================================================= *)
(** ** Numeric coercion *)

Section NumericCoercion.

Implicit Types (p : ascii -> bool) (s ws rest : string).










End NumericCoercion.




(** The number of the integer read is its nearest binary64 value: the
    integer itself for the runs a field usually holds, a neighbour for a
    run beyond 2^53. *)
Lemma convertFieldValue_rounds_long_runs :
  convertFieldValue "4294967295" (Some (mkFieldInfo "UInt32")) = JS.Num 4294967295%float
  /\ convertFieldValue "9007199254740993" (Some (mkFieldInfo "UInt64"))
     = JS.Num 9007199254740992%float.
Proof. vm_compute. split; reflexivity. Qed.

(* ================================================================= *)
(** ** The pass rate *)

(** An empty collection has pass rate 0. *)
Lemma passRate_empty passed : passRate passed 0 = 0%Z.
Proof. done. Qed.

(** Up to 39 tests, the code's pass rate is the exact rounded ratio. *)
Lemma passRate_exact_below_40 passed total :
  total < 40 -> passed <= total -> passRate passed total = passRate_exact passed total.
Proof.
  intros Ht Hp.
  assert (H : passRate_agrees_below 40 = true) by (vm_compute; reflexivity).
  unfold passRate_agrees_below in H.
  rewrite List.forallb_forall in H.
  specialize (H total ltac:(apply List.in_seq; lia)).
  rewrite List.forallb_forall in H.
  specialize (H passed ltac:(apply List.in_seq; lia)).
  by apply Z.eqb_eq.
Qed.

(** C9 (the code departs from it).  The two examples of the specification
    hold: 2 passed out of 3 gives 67, and an empty collection gives 0.  But
    with 23 tests passed out of 40 the exact ratio is 57.5, which rounds to
    58, whereas the code computes [(23 / 40) * 100] in binary64, obtains
    57.49999999999999, and reports 57. *)
Theorem passRate_23_of_40 :
  passRate 2 3 = 67%Z
  /\ passRate 0 0 = 0%Z
  /\ passRate_exact 23 40 = 58%Z
  /\ passRate 23 40 = 57%Z
  /\ summarize (graded_tests 23 17) = mkSummary 40 23 17 57%Z.
Proof. vm_compute. repeat split; reflexivity. Qed.

(* ================================================================= *)
(** ** [addFieldBlock]: no field twice *)

Lemma getCurrentTransaction_found st t :
  getCurrentTransaction st = Some t ->
  find_transaction (tx_id t) (transactions st) = Some t.
Proof.
  unfold getCurrentTransaction.
  destruct (truthy_string _); [|done].
  destruct (currentTransactionId st) as [id|]; [|done].
  intros H. by rewrite (find_transaction_id _ _ _ H).
Qed.

Lemma find_block_elem (blocks : list Block) fieldName :
  fieldName ∈ List.map blk_fieldName blocks ->
  exists b, List.find (fun b => blk_fieldName b =? fieldName) blocks = Some b.
Proof.
  induction blocks as [|b blocks IH]; simpl; intros Hin.
  - by apply not_elem_of_nil in Hin.
  - destruct (String.eqb_spec (blk_fieldName b) fieldName) as [|Hne]; [by exists b|].
    apply elem_of_cons in Hin as [Heq|Hin]; [done|]. by apply IH.
Qed.

Lemma find_block_none (blocks : list Block) fieldName :
  List.find (fun b => blk_fieldName b =? fieldName) blocks = None ->
  fieldName ∉ List.map blk_fieldName blocks.
Proof.
  intros Hnone Hin. destruct (find_block_elem _ _ Hin) as [b Hb]. congruence.
Qed.

Lemma Forall_update_transaction (P : Transaction -> Prop) id t' txs :
  Forall P txs -> P t' -> Forall P (update_transaction id (fun _ => t') txs).
Proof.
  intros Hall Ht'. induction Hall as [|tx rest Htx Hall IH]; simpl; [done|].
  destruct (tx_id tx =? id); by constructor.
Qed.

(** Within [addFieldBlock] itself: if the current test already has a
    field of that name, [addFieldBlock] returns with every global as it was
    (the registry, and so the field list and the field's value, included)
    except that the warning [Field "<name>" already added] is appended to
    the validation messages.  And in every case [addFieldBlock] keeps field
    names distinct within each test. *)
Theorem addFieldBlock_no_duplicate (fieldName blockType : string) (st : State) :
  (forall t, getCurrentTransaction st = Some t ->
     fieldName ∈ List.map blk_fieldName (tx_blocks t) ->
     addFieldBlock fieldName blockType st
     = (Returns tt,
        with_validationMessages (fun l => (l ++ [already_added fieldName])%list) st))
  /\ (unique_fields st -> unique_fields (exec (addFieldBlock fieldName blockType) st)).
Proof.
  split.
  - intros t Hcur Hin. destruct (find_block_elem _ _ Hin) as [b Hb].
    unfold addFieldBlock, bind, gets. simpl. by rewrite Hcur, Hb.
  - intros Huniq. unfold exec, addFieldBlock, bind at 1, gets at 1. simpl.
    destruct (getCurrentTransaction st) as [t|] eqn:Hcur; [|done].
    destruct (List.find _ (tx_blocks t)) as [b|] eqn:Hb; [by destruct st|].
    unfold bind at 1, gets at 1. simpl.
    destruct (bool_decide _); [|done].
    apply getCurrentTransaction_found in Hcur.
    destruct st as [txs cur accs nw wb ty body vm cr ss ev]. simpl in *.
    unfold unique_fields in *. simpl in *.
    rewrite (update_transaction_found _ _ _ _ Hcur).
    apply Forall_update_transaction; [done|]. simpl.
    rewrite List.map_app. simpl. apply NoDup_app. split; [|split].
    + rewrite Forall_forall in Huniq. apply Huniq.
      apply list_elem_of_In. unfold find_transaction in Hcur.
      by apply List.find_some in Hcur as [? _].
    + intros x Hx Hx'. apply list_elem_of_singleton in Hx' as ->.
      by apply (find_block_none _ _ Hb).
    + apply NoDup_singleton.
Qed.

(** Dropping [Account] a second time on a test that already has it. *)
Lemma addFieldBlock_no_duplicate_witness :
  let st' := exec (addFieldBlock "Account" "account-field") editing_state in
  transactions st' = transactions editing_state
  /\ validationMessages st' = [already_added "Account"].
Proof.
  destruct (addFieldBlock_no_duplicate "Account" "account-field" editing_state)
    as [H _].
  unfold exec. rewrite (H _ eq_refl).
  - split; reflexivity.
  - apply (bool_decide_unpack _). by vm_compute.
Defined.

(** C8.  The warning is not surfaced.  A drop of [Fee] on a test that
    already has that field leaves the test as it is, and [addFieldBlock]
    does append the warning to the validation area; but [handleDrop],
    through which the drop arrives, goes on to [updateJSONOutput], whose
    validation empties the area: when the handler returns, the area holds
    the verdict on the transaction and no warning. *)
Theorem duplicate_field_warning_not_surfaced :
  let t :=
    mkTransaction "tx-1" "Test 1" (Some "Payment")
      [mkBlock "Account" (VStr "rN7n7otQDd6FczFgLdlqtyMVrn3HMfgnHf");
       mkBlock "Fee" (VStr "12")]
      pending "tesSUCCESS" None None None in
  let st := initial_state [t] [] in
  let g := mkGlobals st (Some (mkDraggedData "Fee" "amount-field" None)) 2 in
  getCurrentTransaction st = Some t
  /\ transactions (exec (addFieldBlock "Fee" "amount-field") st) = [t]
  /\ validationMessages (exec (addFieldBlock "Fee" "amount-field") st)
     = [already_added "Fee"]
  /\ transactions (core (handleDrop sample_FIELDS g)) = [t]
  /\ validationMessages (core (handleDrop sample_FIELDS g))
     = [("Transaction structure looks good!", success)].
Proof. vm_compute. repeat split; reflexivity. Qed.

(* ================================================================= *)
(** * Further properties of the engine *)

(** ** Symbolic execution of the runner *)

#[local] Arguments post {A} m st QR QT : simpl never.

(** The state [updateTransactionStatus] returns in, in closed form. *)
Lemma updateTransactionStatus_state Date_now id status result st :
  updateTransactionStatus Date_now id status result st
  = (Returns tt,
     with_clockReads
       (match find_transaction id (transactions st) with
        | Some _ => if bool_decide (status = running) then S else (fun n => n)
        | None => fun n => n
        end)
       (with_transactions
          (update_transaction id
             (status_update status result (Date_now (clockReads st))))
          st)).
Proof.
  destruct (find_transaction id (transactions st)) as [t|] eqn:Hfound.
  - rewrite (updateTransactionStatus_found _ _ _ _ _ _ Hfound). f_equal.
    destruct st; simpl in *. unfold with_clockReads, with_transactions; simpl.
    f_equal. symmetry. by apply update_transaction_found.
  - rewrite (updateTransactionStatus_not_found _ _ _ _ _ Hfound). f_equal.
    destruct st; simpl in *. unfold with_clockReads, with_transactions; simpl.
    f_equal. symmetry. by apply update_transaction_not_found.
Qed.

Lemma post_updateTransactionStatus Date_now id status result st
    (QR : unit -> State -> Prop) (QT : string -> State -> Prop) :
  QR tt
    (with_clockReads
       (match find_transaction id (transactions st) with
        | Some _ => if bool_decide (status = running) then S else (fun n => n)
        | None => fun n => n
        end)
       (with_transactions
          (update_transaction id
             (status_update status result (Date_now (clockReads st))))
          st)) ->
  post (updateTransactionStatus Date_now id status result) st QR QT.
Proof. intros H. unfold post. by rewrite updateTransactionStatus_state. Qed.

Ltac wp_step :=
  lazymatch goal with
  | |- post (bind _ _) _ _ _ => apply post_bind
  | |- post (ret _) _ _ _ => apply post_ret
  | |- post (gets _) _ _ _ => apply post_gets
  | |- post (modify _) _ _ _ => apply post_modify
  | |- post (emit _) _ _ _ => apply post_emit
  | |- post (showToast _ _) _ _ _ => apply post_emit
  | |- post renderTestQueue _ _ _ => unfold renderTestQueue
  | |- post saveTestsToStorage _ _ _ => unfold saveTestsToStorage
  | |- post (modify_transaction _ _) _ _ _ => apply post_modify
  | |- post new_Client _ _ _ => unfold new_Client
  | |- post (new_Date _) _ _ _ => unfold new_Date
  | |- post (client_call _ ?o) _ _ _ =>
      apply post_client_call; cbv zeta; destruct o eqn:?
  | |- post (updateTransactionStatus _ _ _ _) _ _ _ =>
      apply post_updateTransactionStatus
  | |- post (try_catch _ _) _ _ _ => apply post_try_catch
  | |- post (if ?c then _ else _) _ _ _ => destruct c eqn:?
  | |- post (match ?c with Some _ => _ | None => _ end) _ _ _ => destruct c eqn:?
  end.

Ltac wp := repeat (wp_step; cbv beta).

(** Event classes on an explicit log. *)
Lemma count_events_app c l1 l2 :
  count_events c (l1 ++ l2) = count_events c l1 + count_events c l2.
Proof. unfold count_events. by rewrite List.filter_app, length_app. Qed.

Section RunEffects.

Variable FIELDS : list (string * FieldInfo).
Variable JSON_parse : string -> option JS.Value.
Variable net : nat -> NetSession.
Variable Date_now : nat -> Timestamp.

Local Abbreviation run := (runSingleTest FIELDS JSON_parse net Date_now).

(** Outside the registry, a run leaves the interface state alone, only
    appends to the log, makes at most one client, and submits at most once,
    and only through a client it has made. *)
Lemma runSingleTest_log id st :
  post (run id) st
    (fun _ st' =>
       same_ui st st'
       /\ sessions st <= sessions st' <= S (sessions st)
       /\ exists l, logged_since st st' l
            /\ count_events is_connect l = sessions st' - sessions st
            /\ count_events is_submit l <= count_events is_connect l)
    (fun _ _ => False).
Proof.
  unfold runSingleTest, submitTest, handleTestError. cbv zeta.
  wp; unfold same_ui, logged_since; cbn;
    (split; [done|]); (split; [lia|]);
    rewrite <- ?app_assoc; (eexists; split; [reflexivity|]);
    cbn; replace (S (sessions st) - sessions st) with 1 by lia;
    rewrite ?Nat.sub_diag; split; lia.
Qed.

(** X3.  [runSingleTest] with an id that no test carries shows the toast
    "Test not found" and does nothing else: every global is as before. *)
Theorem runSingleTest_not_found id st :
  find_transaction id (transactions st) = None ->
  run id st
  = (Returns tt, with_events (fun l => (l ++ [EvToast "Test not found" error])%list) st).
Proof.
  intros H. unfold runSingleTest, bind, gets. by rewrite H.
Qed.

(** X2.  When the test has a type but no account carries a seed,
    [runSingleTest] marks the test [failed] with [actualResult = "No signing
    account"], keeps its other fields, shows one toast, redraws and saves,
    and makes no call to the XRPL client. *)
Theorem runSingleTest_no_signing_account id st t :
  find_transaction id (transactions st) = Some t ->
  truthy_string (tx_type t) = true ->
  List.find (fun acc => truthy_string (acc_seed acc)) (accounts st) = None ->
  let t' :=
    mkTransaction (tx_id t) (tx_name t) (tx_type t) (tx_blocks t) failed
      (tx_expectedResult t) (Some "No signing account") (tx_submittedAt t)
      (tx_hash t) in
  let txs' := update_transaction id (fun _ => t') (transactions st) in
  run id st
  = (Returns tt,
     with_events
       (fun l => (l ++ [EvToast
                          "No account with signing key available. Generate an account first."
                          error;
                        EvRenderTestQueue txs'; EvSaveTests txs'])%list)
       (with_transactions (fun _ => txs') st))
  /\ find_transaction id txs' = Some t'.
Proof.
  intros Hfound Htype Hacc t' txs'.
  assert (Hid : tx_id t' = id) by (by apply find_transaction_id in Hfound).
  split.
  - unfold runSingleTest, bind at 1, gets at 1. simpl. rewrite Hfound, Htype. simpl.
    unfold bind at 1, gets at 1. simpl. rewrite Hacc.
    unfold bind at 1, showToast, emit, modify. simpl.
    unfold bind at 1.
    rewrite (updateTransactionStatus_found _ _ _ _ _ t) by (by destruct st).
    destruct st; simpl. unfold renderTestQueue, saveTestsToStorage, bind, gets, emit, modify.
    simpl. unfold with_events, with_transactions, with_clockReads; simpl.
    rewrite <- !app_assoc. done.
  - unfold txs'. by rewrite (find_update_transaction _ (fun _ => t') _ _ (fun _ _ => Hid) Hfound).
Qed.

End RunEffects.

(** ** The paths of a run *)

Ltac simpl_state :=
  cbn [transactions currentTransactionId accounts currentNetwork workspaceBlocks
       transactionType workspaceBody validationMessages clockReads sessions events
       with_transactions with_workspaceBlocks with_validationMessages
       with_clockReads with_sessions with_events].

Tactic Notation "simpl_state" "in" "*" :=
  cbn [transactions currentTransactionId accounts currentNetwork workspaceBlocks
       transactionType workspaceBody validationMessages clockReads sessions events
       with_transactions with_workspaceBlocks with_validationMessages
       with_clockReads with_sessions with_events] in *.

Section RunSuccess.

Variable FIELDS : list (string * FieldInfo).
Variable JSON_parse : string -> option JS.Value.
Variable net : nat -> NetSession.
Variable Date_now : nat -> Timestamp.

Local Abbreviation run := (runSingleTest FIELDS JSON_parse net Date_now).

Lemma find_update_twice id f txs t :
  tx_id t = id -> tx_id (f t) = id ->
  find_transaction id txs = Some t ->
  find_transaction id (update_transaction id f txs) = Some (f t).
Proof.
  intros Hid Hf Hfound. rewrite (update_transaction_found _ _ _ _ Hfound).
  by apply (find_update_transaction id (fun _ => f t) txs t (fun _ _ => Hf)).
Qed.

(** X1.  Suppose the test is found, has a type, a signing account exists,
    and every call of the session that the run opens returns, the
    submission being validated with result [res] and hash [h].  Then
    [runSingleTest] returns; the test holds [actualResult = res] and
    [hash = h], its [submittedAt] is the second reading of the clock, and
    it is [passed] exactly when [res] equals its [expectedResult], [failed]
    otherwise.  The run made one client and one submission. *)
Theorem runSingleTest_success id st t acc seed address idx res h :
  find_transaction id (transactions st) = Some t ->
  truthy_string (tx_type t) = true ->
  List.find (fun acc => truthy_string (acc_seed acc)) (accounts st) = Some acc ->
  acc_seed acc = Some seed ->
  let session := net (sessions st) in
  net_connect session (NETWORK_ENDPOINTS (currentNetwork st)) = Returns tt ->
  net_fromSeed session seed = Returns address ->
  net_ledger_index session = Returns idx ->
  (forall txObject, net_submitAndWait session txObject = Returns (res, h)) ->
  net_disconnect session = Returns tt ->
  let r := run id st in
  fst r = Returns tt
  /\ find_transaction id (transactions (snd r))
     = Some (mkTransaction (tx_id t) (tx_name t) (tx_type t) (tx_blocks t)
               (grade res (tx_expectedResult t)) (tx_expectedResult t)
               (Some res) (Some (Date_now (S (clockReads st)))) (Some h))
  /\ sessions (snd r) = S (sessions st)
  /\ exists l, logged_since st (snd r) l
       /\ count_events is_connect l = 1
       /\ count_events is_submit l = 1.
Proof.
  intros Hfound Htype Hacc Hseed session Hconnect Hwallet Hledger Hsubmit Hdisc r.
  pose proof (find_transaction_id _ _ _ Hfound) as Hid.
  assert (Hpost : post (run id) st
    (fun _ st' =>
       find_transaction id (transactions st')
       = Some (mkTransaction (tx_id t) (tx_name t) (tx_type t) (tx_blocks t)
                 (grade res (tx_expectedResult t)) (tx_expectedResult t)
                 (Some res) (Some (Date_now (S (clockReads st)))) (Some h))
       /\ sessions st' = S (sessions st)
       /\ exists l, logged_since st st' l
            /\ count_events is_connect l = 1
            /\ count_events is_submit l = 1)
    (fun _ _ => False)).
  { subst id. unfold runSingleTest. apply post_bind, post_gets. rewrite Hfound, Htype. cbn [negb].
    apply post_bind, post_gets. rewrite Hacc.
    apply post_bind, post_gets. apply post_try_catch.
    unfold submitTest. cbv zeta. rewrite Hseed. change (default "" (Some seed)) with seed.
    subst session.
    wp; simpl_state; simpl_state in *;
      rewrite ?Hconnect, ?Hwallet, ?Hledger, ?Hsubmit, ?Hdisc in *; simplify_eq.
    all: cbn [fst snd] in *.
    all: split;
      [ rewrite !update_transaction_compose by (intros ? <-; done);
        erewrite find_update_transaction; [|intros ? <-; done|exact Hfound];
        rewrite Hfound; unfold grade, status_update; cbn;
        match goal with H : (_ =? _) = _ |- _ => rewrite H end; reflexivity
      | split; [done|];
        unfold logged_since; simpl_state; rewrite <- ?app_assoc;
        eexists; split; [reflexivity|]; split; reflexivity ]. }
  unfold post in Hpost. fold r in Hpost. destruct r as [[[]|msg] st']; [|done].
  split; [done|]. exact Hpost.
Qed.

End RunSuccess.

(** ** What is submitted *)

Lemma clean_lookup (m : TxObject) k v :
  clean m !! k = Some v <-> m !! k = Some v /\ keep_value v = true.
Proof. unfold clean. by rewrite map_lookup_filter_Some. Qed.

Lemma clean_lookup_kept (m : TxObject) k v :
  m !! k = Some v -> keep_value v = true -> clean m !! k = Some v.
Proof. intros. by apply clean_lookup. Qed.

Lemma clean_lookup_dropped (m : TxObject) k v :
  m !! k = Some v -> keep_value v = false -> clean m !! k = None.
Proof.
  intros Hm Hk. apply eq_None_not_Some. intros [v' [Hv' Hk']%clean_lookup].
  congruence.
Qed.

Lemma clean_lookup_eq (m m' : TxObject) k :
  m !! k = m' !! k -> clean m !! k = clean m' !! k.
Proof.
  intros H. apply option_eq. intros v. rewrite !clean_lookup. by rewrite H.
Qed.

Lemma truthy_keep v : JS.truthy v = true -> keep_value v = true.
Proof. by destruct v. Qed.

Lemma keep_value_spec v :
  keep_value v = true <-> v <> JS.Null /\ v <> JS.Str "".
Proof.
  destruct v as [|b|x|s|l|l]; simpl; try (split; [by split|done]).
  - split; [done|]. by intros [? _].
  - destruct (String.eqb_spec s "") as [->|Hne]; simpl.
    + split; [done|]. by intros [_ ?].
    + split; [|done]. intros _. split; [done|]. congruence.
Qed.

Lemma clean_truthy (m : TxObject) k :
  JS.truthy_opt (m !! k) = true -> clean m !! k = m !! k.
Proof.
  destruct (m !! k) as [v|] eqn:E; [|done]. simpl. intros Ht.
  apply clean_lookup. split; [done|]. by apply truthy_keep.
Qed.

(** The object handed to [submitAndWait], in terms of the built one, of
    the wallet's address and of the ledger index when it was asked for. *)
Lemma submitted_object (built : TxObject) (session : NetSession)
    (seed address : string) (seq : option float) :
  net_fromSeed session seed = Returns address ->
  let txObject1 : TxObject :=
    if JS.truthy_opt (built !! "Account") then built
    else <["Account" := JS.Str address]> built in
  let txObject2 : TxObject :=
    match seq with
    | None => txObject1
    | Some index =>
        <["LastLedgerSequence" := JS.Num (PrimFloat.add index 5%float)]> txObject1
    end in
  match seq with
  | None => JS.truthy_opt (txObject1 !! "LastLedgerSequence") = true
  | Some index =>
      JS.truthy_opt (txObject1 !! "LastLedgerSequence") = false
      /\ net_ledger_index session = Returns index
  end ->
  well_formed_submission (EvSubmitAndWait (clean txObject2))
  /\ submission_of built session seed (EvSubmitAndWait (clean txObject2)).
Proof.
  intros Hwallet txObject1 txObject2 Hseq.
  assert (Hother : forall k, k <> "Account" -> txObject1 !! k = built !! k).
  { intros k Hk. unfold txObject1. destruct (JS.truthy_opt _); [done|].
    by rewrite lookup_insert_ne. }
  assert (Hacc2 : txObject2 !! "Account" = txObject1 !! "Account").
  { unfold txObject2. destruct seq; [by rewrite lookup_insert_ne|done]. }
  split; [split|split; [|split]].
  - unfold txObject2. destruct seq as [index|].
    + eexists. apply clean_lookup_kept; [by rewrite lookup_insert_eq|done].
    + rewrite clean_truthy by done.
      by destruct (txObject1 !! "LastLedgerSequence").
  - intros k v [_ Hk]%clean_lookup. by apply keep_value_spec.
  - intros k Hk1 Hk2. apply clean_lookup_eq. unfold txObject2.
    destruct seq; [rewrite lookup_insert_ne by done|]; by apply Hother.
  - destruct (JS.truthy_opt (built !! "Account")) eqn:Hacc.
    + rewrite <- (clean_truthy built) by done. apply clean_lookup_eq.
      rewrite Hacc2. unfold txObject1. by rewrite ?Hacc.
    + exists address. split; [done|].
      assert (Hlook : txObject2 !! "Account" = Some (JS.Str address)).
      { rewrite Hacc2. unfold txObject1. by rewrite ?Hacc, lookup_insert_eq. }
      destruct (String.eqb_spec address "") as [->|Hne].
      * by apply (clean_lookup_dropped _ _ _ Hlook).
      * apply (clean_lookup_kept _ _ _ Hlook). simpl.
        by apply negb_true_iff, String.eqb_neq.
  - rewrite <- (Hother "LastLedgerSequence") by done.
    destruct (JS.truthy_opt (txObject1 !! "LastLedgerSequence")) eqn:Hlls.
    + destruct seq as [index|]; [by destruct Hseq|].
      unfold txObject2. by rewrite <- (clean_truthy txObject1) by done.
    + destruct seq as [index|]; [|done]. destruct Hseq as [_ Hledger].
      exists index. split; [done|]. unfold txObject2.
      apply clean_lookup_kept; [by rewrite lookup_insert_eq|done].
Qed.

Lemma submits_when_connected_spec l : forall connected,
  submits_when_connected connected l = true ->
  forall before e after, l = (before ++ e :: after)%list -> is_submit e = true ->
    connected = true \/ exists c, c ∈ before /\ is_connect c = true.
Proof.
  induction l as [|x l IH]; intros connected Hl before e after Hsplit He.
  - by destruct before.
  - simpl in Hl. apply andb_true_iff in Hl as [Hx Hl].
    destruct before as [|b before]; simplify_eq/=.
    + left. rewrite He in Hx. by destruct connected.
    + destruct (IH _ Hl before e after eq_refl He) as [Hc|(c & Hin & Hc)].
      * apply orb_true_iff in Hc as [Hc|Hc]; [by left|].
        right. exists b. split; [by left|done].
      * right. exists c. split; [by right|done].
Qed.

Section Submissions.

Variable FIELDS : list (string * FieldInfo).
Variable JSON_parse : string -> option JS.Value.
Variable net : nat -> NetSession.
Variable Date_now : nat -> Timestamp.

Local Abbreviation run := (runSingleTest FIELDS JSON_parse net Date_now).

Ltac submission_goal :=
  lazymatch goal with
  | |- _ (EvSubmitAndWait (clean (<["LastLedgerSequence" := JS.Num (PrimFloat.add ?index _)]> _))) =>
      first [ refine (proj1 (submitted_object _ _ _ _ (Some index) _ _))
            | refine (proj2 (submitted_object _ _ _ _ (Some index) _ _)) ];
      [eassumption|cbv zeta; by split]
  | |- _ (EvSubmitAndWait (clean _)) =>
      first [ refine (proj1 (submitted_object _ _ _ _ None _ _))
            | refine (proj2 (submitted_object _ _ _ _ None _ _)) ];
      [eassumption|cbv zeta; done]
  | |- _ => exact I
  end.

Lemma runSingleTest_submissions id st :
  post (run id) st
    (fun _ st' =>
       exists l, logged_since st st' l
         /\ Forall well_formed_submission l
         /\ count_events is_ledger_request l <= 1
         /\ submits_when_connected false l = true
         /\ forall t, find_transaction id (transactions st) = Some t ->
              let built := buildTransactionObjectFromTest FIELDS JSON_parse t in
              (JS.truthy_opt (built !! "LastLedgerSequence") = true ->
               count_events is_ledger_request l = 0)
              /\ forall acc,
                   List.find (fun acc => truthy_string (acc_seed acc)) (accounts st)
                   = Some acc ->
                   Forall (submission_of built (net (sessions st))
                             (default "" (acc_seed acc))) l)
    (fun _ _ => False).
Proof.
  unfold runSingleTest. apply post_bind, post_gets.
  destruct (find_transaction id (transactions st)) as [t|] eqn:Hfound.
  2:{ apply post_emit. eexists. split; [reflexivity|].
      split; [by repeat constructor|]. split; [cbn; lia|]. done. }
  set (built := buildTransactionObjectFromTest FIELDS JSON_parse t).
  assert (Hlls : forall a,
    (if JS.truthy_opt (built !! "Account") then built
     else <["Account" := JS.Str a]> built) !! "LastLedgerSequence"
    = built !! "LastLedgerSequence").
  { intros a. destruct (JS.truthy_opt _); [done|]. by rewrite lookup_insert_ne. }
  unfold submitTest, handleTestError. cbv zeta.
  wp.
  all: simpl_state in *.
  all: unfold logged_since; simpl_state; rewrite <- ?app_assoc.
  all: eexists; split; [reflexivity|]; cbn [app].
  all: split; [repeat (apply Forall_cons_2; [submission_goal|]);
             apply Forall_nil_2|].
  all: split; [cbn; lia|].
  all: split; [reflexivity|].
  all: intros ? [= <-]; cbv zeta; fold built.
  all: split; [intros Htruthy; first [reflexivity | rewrite Hlls in *; congruence]|].
  all: intros acc Hacc; simplify_eq.
  all: repeat (apply Forall_cons_2; [submission_goal|]); apply Forall_nil_2.
Qed.

End Submissions.

(** ** A run, seen from outside *)

Section RunFrame.

Variable FIELDS : list (string * FieldInfo).
Variable JSON_parse : string -> option JS.Value.
Variable net : nat -> NetSession.
Variable Date_now : nat -> Timestamp.

Local Abbreviation run := (runSingleTest FIELDS JSON_parse net Date_now).

(** What a run that returned has done, from the two analyses of the runner. *)
Lemma runSingleTest_returns id st :
  exists st', run id st = (Returns tt, st')
    /\ tx_step id (transactions st) (transactions st')
    /\ same_ui st st'
    /\ sessions st <= sessions st' <= S (sessions st)
    /\ (exists l, logged_since st st' l
          /\ count_events is_connect l = sessions st' - sessions st
          /\ count_events is_submit l <= count_events is_connect l)
    /\ (exists l, logged_since st st' l
          /\ Forall well_formed_submission l
          /\ count_events is_ledger_request l <= 1
          /\ submits_when_connected false l = true
          /\ forall t, find_transaction id (transactions st) = Some t ->
               let built := buildTransactionObjectFromTest FIELDS JSON_parse t in
               (JS.truthy_opt (built !! "LastLedgerSequence") = true ->
                count_events is_ledger_request l = 0)
               /\ forall acc,
                    List.find (fun acc => truthy_string (acc_seed acc)) (accounts st)
                    = Some acc ->
                    Forall (submission_of built (net (sessions st))
                              (default "" (acc_seed acc))) l).
Proof.
  destruct (runSingleTest_total FIELDS JSON_parse net Date_now id st)
    as (st' & Hrun & Hstep & _).
  pose proof (runSingleTest_log FIELDS JSON_parse net Date_now id st) as Hlog.
  pose proof (runSingleTest_submissions FIELDS JSON_parse net Date_now id st) as Hsub.
  unfold post in Hlog, Hsub. rewrite Hrun in Hlog, Hsub.
  exists st'. destruct Hlog as (Hui & Hsess & Hl). done.
Qed.

(** X4.  [runSingleTest] returns normally whatever the network answers.  It
    keeps the number, the order and the ids of the tests; a lookup of any
    other id gives the same test as before; the test that was run keeps its
    id, name, type, blocks and expected result; and the selection, the
    accounts, the network, the workspace and the validation messages are
    as they were. *)
Theorem runSingleTest_frame id st :
  exists st', run id st = (Returns tt, st')
    /\ List.map tx_id (transactions st') = List.map tx_id (transactions st)
    /\ (forall id', id' <> id ->
          find_transaction id' (transactions st')
          = find_transaction id' (transactions st))
    /\ (forall t, find_transaction id (transactions st) = Some t ->
          exists t', find_transaction id (transactions st') = Some t'
                     /\ tx_static t' = tx_static t)
    /\ same_ui st st'.
Proof.
  destruct (runSingleTest_returns id st) as (st' & Hrun & Hstep & Hui & _).
  exists st'. split; [done|]. split; [by apply (tx_step_ids id)|].
  destruct Hstep as (g & Hg & ->).
  split; [|split; [|done]].
  - intros id' Hne.
    apply find_update_transaction_ne; [by apply tx_static_id|done].
  - intros t Hfound. exists (g t). split; [|done].
    apply find_update_transaction; [by apply tx_static_id|done].
Qed.

(** X5.  One run makes at most one XRPL client and submits at most one
    transaction, and it submits only after it has asked a client to
    connect: in the log of the run, every submission has a request to
    connect before it.  The client counter advances by the number of
    connections asked for. *)
Theorem runSingleTest_one_submission id st :
  let st' := exec (run id) st in
  exists l, logged_since st st' l
    /\ count_events is_connect l <= 1
    /\ count_events is_submit l <= count_events is_connect l
    /\ sessions st' = sessions st + count_events is_connect l
    /\ forall before e after,
         l = (before ++ e :: after)%list -> is_submit e = true ->
         exists c, c ∈ before /\ is_connect c = true.
Proof.
  destruct (runSingleTest_returns id st)
    as (st' & Hrun & _ & _ & Hs & (l & Hl & Hc & Hsub) & (l' & Hl' & _ & _ & Hord & _)).
  unfold exec. rewrite Hrun. simpl.
  assert (l' = l) as ->.
  { unfold logged_since in *. rewrite Hl in Hl'. by apply app_inv_head in Hl'. }
  exists l. repeat split; [done|lia|done|lia|].
  intros before e after Hsplit He.
  by destruct (submits_when_connected_spec l false Hord before e after Hsplit He).
Qed.

(** X6.  Whatever a run hands to [submitAndWait] carries a
    [LastLedgerSequence] and no [null] or empty-string member.  When the
    test exists and [acc] is the account that signs (the first one with a
    seed), it is the object built from the test without its null and empty
    members, except for two members: [Account] is the built one when that
    is truthy, and otherwise the address of the wallet made from the seed
    of [acc]; [LastLedgerSequence] is the built one when that is truthy,
    and otherwise the validated ledger index the network reported, plus
    5. *)
Theorem runSingleTest_submits_built_object id st :
  let st' := exec (run id) st in
  exists l, logged_since st st' l
    /\ Forall well_formed_submission l
    /\ forall t acc,
         find_transaction id (transactions st) = Some t ->
         List.find (fun acc => truthy_string (acc_seed acc)) (accounts st) = Some acc ->
         Forall (submission_of (buildTransactionObjectFromTest FIELDS JSON_parse t)
                   (net (sessions st)) (default "" (acc_seed acc))) l.
Proof.
  destruct (runSingleTest_returns id st) as (st' & Hrun & _ & _ & _ & _ & Hl).
  unfold exec. rewrite Hrun. simpl.
  destruct Hl as (l & Hl & Hwf & _ & _ & Hb). exists l. repeat split; [done..|].
  intros t acc Ht Hacc. destruct (Hb t Ht) as [_ Hsub]. by apply Hsub.
Qed.

(** X7.  A run asks the network for the current ledger at most once, and
    not at all when the object built from the test already holds a truthy
    [LastLedgerSequence]. *)
Theorem runSingleTest_ledger_request id st :
  let st' := exec (run id) st in
  exists l, logged_since st st' l
    /\ count_events is_ledger_request l <= 1
    /\ forall t, find_transaction id (transactions st) = Some t ->
         JS.truthy_opt
           (buildTransactionObjectFromTest FIELDS JSON_parse t !! "LastLedgerSequence")
         = true ->
         count_events is_ledger_request l = 0.
Proof.
  destruct (runSingleTest_returns id st) as (st' & Hrun & _ & _ & _ & _ & Hl).
  unfold exec. rewrite Hrun. simpl.
  destruct Hl as (l & Hl & _ & Hle & _ & Hb). exists l. repeat split; [done..|].
  intros t Ht. by destruct (Hb t Ht).
Qed.

End RunFrame.

(** ** A batch, seen from outside *)

Lemma update_transaction_lookup_ne id g txs j t :
  txs !! j = Some t -> tx_id t <> id -> update_transaction id g txs !! j = Some t.
Proof.
  revert j. induction txs as [|tx rest IH]; intros j Hj Hne; [done|]. simpl.
  destruct (String.eqb_spec (tx_id tx) id) as [E|_].
  - destruct j as [|j]; [|done]. simpl in Hj. congruence.
  - destruct j as [|j]; [done|]. simpl in *. by apply IH.
Qed.

(** A write through the reference found under an id never reaches a test
    that stands behind another test with the same id. *)
Lemma update_transaction_shadowed id g txs i j t :
  i < j -> List.map tx_id txs !! i = Some (tx_id t) -> txs !! j = Some t ->
  update_transaction id g txs !! j = Some t.
Proof.
  revert i j. induction txs as [|tx rest IH]; intros i j Hij Hi Hj; [done|]. simpl.
  destruct (String.eqb_spec (tx_id tx) id) as [E|Hne].
  - destruct j as [|j]; [lia|]. done.
  - destruct j as [|j]; [lia|]. destruct i as [|i]; simpl in *.
    + apply update_transaction_lookup_ne; [done|]. congruence.
    + apply (IH i); [lia|done..].
Qed.

Section BatchEffects.

Variable FIELDS : list (string * FieldInfo).
Variable JSON_parse : string -> option JS.Value.
Variable net : nat -> NetSession.
Variable Date_now : nat -> Timestamp.

Local Abbreviation run := (runSingleTest FIELDS JSON_parse net Date_now).
Local Abbreviation runAll := (runAllTests FIELDS JSON_parse net Date_now).

Lemma same_ui_trans st1 st2 st3 : same_ui st1 st2 -> same_ui st2 st3 -> same_ui st1 st3.
Proof. unfold same_ui. intuition congruence. Qed.

(** The effects of consecutive runs add up. *)
Lemma RunsInOrder_log ids st st' :
  RunsInOrder run ids st st' ->
  same_ui st st'
  /\ List.map tx_id (transactions st') = List.map tx_id (transactions st)
  /\ exists l, logged_since st st' l
       /\ sessions st' = sessions st + count_events is_connect l
       /\ count_events is_connect l <= length ids
       /\ count_events is_submit l <= count_events is_connect l
       /\ Forall well_formed_submission l.
Proof.
  induction 1 as [st|id ids st st1 st2 Hrun Hchain (Hui & Hids & l2 & Hl2 & Hs2 & Hc2 & Hsub2 & Hwf2)].
  - split; [done|]. split; [done|]. exists []. unfold logged_since.
    rewrite app_nil_r. cbn. repeat split; try done; lia.
  - destruct (runSingleTest_returns FIELDS JSON_parse net Date_now id st)
      as (st1' & Hrun' & Hstep & Hui1 & Hs1 & (l1 & Hl1 & Hc1 & Hsub1) & (l1' & Hl1' & Hwf1 & _)).
    rewrite Hrun in Hrun'. injection Hrun' as <-.
    assert (l1' = l1) as ->.
    { unfold logged_since in *. rewrite Hl1 in Hl1'. by apply app_inv_head in Hl1'. }
    split; [by eapply same_ui_trans|].
    split; [by rewrite Hids, (tx_step_ids _ _ _ Hstep)|].
    exists (l1 ++ l2)%list. unfold logged_since in *.
    rewrite !count_events_app. cbn [length].
    repeat split; [by rewrite Hl2, Hl1, app_assoc|lia|lia|lia|by apply Forall_app].
Qed.

(** A test standing behind another test with the same id is not written
    to by any run. *)
Lemma RunsInOrder_shadowed ids st st' i j t :
  RunsInOrder run ids st st' ->
  i < j -> List.map tx_id (transactions st) !! i = Some (tx_id t) ->
  transactions st !! j = Some t ->
  transactions st' !! j = Some t.
Proof.
  intros Hchain Hij. induction Hchain as [st|id ids st st1 st2 Hrun Hchain IH]; [done|].
  intros Hi Hj.
  destruct (runSingleTest_returns FIELDS JSON_parse net Date_now id st)
    as (st1' & Hrun' & Hstep & _).
  rewrite Hrun in Hrun'. injection Hrun' as <-.
  apply IH.
  - by rewrite (tx_step_ids _ _ _ Hstep).
  - destruct Hstep as (g & _ & ->). by apply (update_transaction_shadowed _ _ _ i).
Qed.

(** [runAllTests] as a chain of runs between a reset and a report. *)
Lemma runAllTests_runs st :
  let reset := List.map reset_transaction (transactions st) in
  let st0 :=
    with_events
      (fun l => (l ++ [EvToast "Running all tests..." info; EvRenderTestQueue reset])%list)
      (with_transactions (fun _ => reset) st) in
  exists st_n shown,
    RunsInOrder run (List.map tx_id (transactions st)) st0 st_n
    /\ runAll st = (Returns tt, with_events (fun l => (l ++ shown)%list) st_n)
    /\ Forall (fun e => is_network_event e = false) shown.
Proof.
  intros reset st0.
  assert (Hids0 : List.map tx_id (transactions st0) = List.map tx_id (transactions st)).
  { unfold st0. simpl. apply reset_transaction_ids. }
  destruct (runEach_runs FIELDS JSON_parse net Date_now (length (transactions st0)) 0 st0)
    as (st_n & Hloop & Hchain); [lia|].
  rewrite drop_0, Hids0 in Hchain.
  exists st_n.
  unfold runAllTests.
  unfold bind at 1, showToast, emit, modify. simpl.
  unfold bind at 1, modify. simpl.
  unfold bind at 1, renderTestQueue, bind at 1, gets at 1, emit, modify. simpl.
  unfold bind at 1, gets at 1. simpl.
  unfold bind at 1.
  replace (with_events _ (with_transactions _ (with_events _ st))) with st0
    by (unfold st0, reset; destruct st; simpl; unfold with_events; simpl;
        by rewrite <- app_assoc).
  replace (length (List.map reset_transaction (transactions st)))
    with (length (transactions st0)) by (by destruct st).
  rewrite Hloop.
  unfold bind at 1, gets at 1. simpl.
  unfold bind at 1, renderTestResultsSummary, bind at 1, gets at 1. simpl.
  destruct (existsb _ _); simpl; destruct (_ =? _)%nat;
    (eexists; split; [done|]; split;
     [unfold with_events; simpl; rewrite <- app_assoc; reflexivity
     |by repeat constructor]).
Qed.

(** X8.  [runAllTests] returns normally on every registry and every
    network.  It keeps the ids and the order of the tests and everything of
    the interface state outside the registry; it makes at most one client
    per test and never more submissions than clients; and every object it
    submits carries a [LastLedgerSequence] and no [null] or empty member. *)
Theorem runAllTests_effects st :
  let r := runAll st in
  fst r = Returns tt
  /\ List.map tx_id (transactions (snd r)) = List.map tx_id (transactions st)
  /\ same_ui st (snd r)
  /\ exists l, logged_since st (snd r) l
       /\ sessions (snd r) = sessions st + count_events is_connect l
       /\ count_events is_connect l <= length (transactions st)
       /\ count_events is_submit l <= count_events is_connect l
       /\ Forall well_formed_submission l.
Proof.
  destruct (runAllTests_runs st) as (st_n & shown & Hchain & Hrun & Hshown).
  cbv zeta. rewrite Hrun. simpl.
  apply RunsInOrder_log in Hchain as (Hui & Hids & l & Hl & Hs & Hc & Hsub & Hwf).
  simpl in *. split; [done|].
  split; [by rewrite Hids, reset_transaction_ids|].
  split; [exact Hui|].
  exists ([EvToast "Running all tests..." info;
           EvRenderTestQueue (List.map reset_transaction (transactions st))]
          ++ l ++ shown)%list.
  assert (Hnone : forall c, (forall e, c e = true -> is_network_event e = true) ->
                            count_events c shown = 0).
  { intros c Hc'. unfold count_events. clear -Hshown Hc'.
    induction Hshown as [|e shown He _ IH]; [done|].
    simpl. destruct (c e) eqn:Hce; [|done]. apply Hc' in Hce. congruence. }
  assert (Hfront : forall c a b d (k : list Event),
            (forall x y, c (EvToast x y) = false) ->
            (forall x, c (EvRenderTestQueue x) = false) ->
            count_events c ([EvToast a b; EvRenderTestQueue d] ++ k) = count_events c k).
  { intros c a b d k H1 H2. unfold count_events. simpl. by rewrite H1, H2. }
  rewrite !Hfront, !count_events_app, !Hnone by (by intros []).
  rewrite length_map in Hc.
  unfold logged_since in *. simpl_state. simpl_state in *.
  split; [by rewrite Hl, <- !app_assoc|].
  split; [lia|]. split; [lia|]. split; [lia|].
  apply Forall_cons_2; [done|]. apply Forall_cons_2; [done|].
  apply Forall_app. split; [done|].
  clear -Hshown. induction Hshown as [|e shown He _ IH]; [done|].
  apply Forall_cons_2; [by destruct e|done].
Qed.

(** X9.  A test that stands behind another test carrying the same id is
    reset by [runAllTests] and never graded: at the end it is [pending],
    with no result, hash or submission time.  (The batch runs the earlier
    test once more instead.) *)
Theorem runAllTests_shadowed_duplicate st i j ti tj :
  i < j ->
  transactions st !! i = Some ti ->
  transactions st !! j = Some tj ->
  tx_id ti = tx_id tj ->
  transactions (exec runAll st) !! j = Some (reset_transaction tj).
Proof.
  intros Hij Hi Hj Hid.
  destruct (runAllTests_runs st) as (st_n & shown & Hchain & Hrun & _).
  unfold exec. rewrite Hrun. simpl.
  apply (RunsInOrder_shadowed _ _ _ i j (reset_transaction tj)) in Hchain; [done..| |].
  - simpl. rewrite reset_transaction_ids.
    change (List.map tx_id (transactions st)) with (tx_id <$> transactions st).
    rewrite list_lookup_fmap, Hi. simpl. by rewrite Hid.
  - simpl. change (List.map reset_transaction (transactions st))
      with (reset_transaction <$> transactions st).
    by rewrite list_lookup_fmap, Hj.
Qed.

End BatchEffects.

(** ** The paths of a run on sample registries *)

(** A typed test, a signing account and a network that validates the
    submission with the expected result: the test is graded [passed]. *)
Lemma runSingleTest_success_witness :
  find_transaction "tx-1"
    (transactions
       (exec (runSingleTest sample_FIELDS numeric_parse (fun _ => quiet_session)
                (fun n => n) "tx-1")
             (initial_state [payment_test "tx-1" "Test 1" "tesSUCCESS"] [signer])))
  = Some (mkTransaction "tx-1" "Test 1" (Some "Payment")
            (tx_blocks (payment_test "tx-1" "Test 1" "tesSUCCESS"))
            passed "tesSUCCESS" (Some "tesSUCCESS") (Some 1) (Some "ABCDEF")).
Proof.
  exact (proj1 (proj2
    (runSingleTest_success sample_FIELDS numeric_parse (fun _ => quiet_session)
       (fun n => n) "tx-1"
       (initial_state [payment_test "tx-1" "Test 1" "tesSUCCESS"] [signer])
       (payment_test "tx-1" "Test 1" "tesSUCCESS") signer "sEdSEED" "rSigner"
       100%float "tesSUCCESS" "ABCDEF"
       eq_refl eq_refl eq_refl eq_refl eq_refl eq_refl eq_refl
       (fun _ => eq_refl) eq_refl))).
Defined.

(** The same test with no account at all. *)
Lemma runSingleTest_no_signing_account_witness :
  fst (runSingleTest sample_FIELDS numeric_parse (fun _ => quiet_session)
         (fun n => n) "tx-1"
         (fresh_state [payment_test "tx-1" "Test 1" "tesSUCCESS"]))
  = Returns tt.
Proof.
  exact (f_equal fst (proj1
    (runSingleTest_no_signing_account sample_FIELDS numeric_parse
       (fun _ => quiet_session) (fun n => n) "tx-1"
       (fresh_state [payment_test "tx-1" "Test 1" "tesSUCCESS"])
       (payment_test "tx-1" "Test 1" "tesSUCCESS") eq_refl eq_refl eq_refl))).
Defined.

(** An id that the registry does not hold. *)
Lemma runSingleTest_not_found_witness :
  events
    (exec (runSingleTest sample_FIELDS numeric_parse (fun _ => quiet_session)
             (fun n => n) "tx-9")
          (fresh_state [payment_test "tx-1" "Test 1" "tesSUCCESS"]))
  = [EvToast "Test not found" error].
Proof.
  exact (f_equal (fun r => events (snd r))
    (runSingleTest_not_found sample_FIELDS numeric_parse (fun _ => quiet_session)
       (fun n => n) "tx-9"
       (fresh_state [payment_test "tx-1" "Test 1" "tesSUCCESS"]) eq_refl)).
Defined.

(** Two tests under one id: the second one is still pending after the
    batch. *)
Lemma runAllTests_shadowed_duplicate_witness :
  transactions
    (exec (runAllTests sample_FIELDS numeric_parse (fun _ => quiet_session) (fun n => n))
          (initial_state [payment_test "tx-1" "Test 1" "tesSUCCESS";
                          payment_test "tx-1" "Test 2" "tesSUCCESS"] [signer]))
    !! 1
  = Some (payment_test "tx-1" "Test 2" "tesSUCCESS").
Proof.
  exact (runAllTests_shadowed_duplicate sample_FIELDS numeric_parse
            (fun _ => quiet_session) (fun n => n)
            (initial_state [payment_test "tx-1" "Test 1" "tesSUCCESS";
                            payment_test "tx-1" "Test 2" "tesSUCCESS"] [signer])
            0 1 (payment_test "tx-1" "Test 1" "tesSUCCESS")
            (payment_test "tx-1" "Test 2" "tesSUCCESS") (le_n 1) eq_refl eq_refl eq_refl).
Defined.

(** * Further properties of the editor *)

(** ** Validation *)

(** A message of a level that none of the listed messages has. *)
Lemma message_level_cons (m m' : string) (l l' : Level) rest :
  (m, l) ∈ (m', l') :: rest -> l = l' \/ (m, l) ∈ rest.
Proof. intros [E|?]%elem_of_cons; [left; congruence|by right]. Qed.

Ltac absurd_message H :=
  first
    [ by apply not_elem_of_nil in H
    | let H1 := fresh in
      let H2 := fresh in
      apply message_level_cons in H; destruct H as [H1|H2];
      [discriminate H1|absurd_message H2] ].

(** X10.  [validateTransaction] replaces whatever the validation area held
    and leaves every other global alone.  It shows one or two messages, all
    of one kind: an error exactly when [TransactionType] is missing or
    falsy; otherwise the success message exactly when [Account] and [Fee]
    are both truthy, and warnings when one of them is not. *)
Theorem validateTransaction_verdict (transaction : TxObject) (st : State) :
  let has k := JS.truthy_opt (transaction !! k) in
  let shows level msgs := exists m : string, (m, level) ∈ (msgs : list (string * Level)) in
  exists msgs,
    validateTransaction transaction st
    = (Returns tt, with_validationMessages (fun _ => msgs) st)
    /\ 1 <= length msgs <= 2
    /\ (exists level, Forall (fun m => snd m = level) msgs)
    /\ (shows error msgs <-> has "TransactionType" = false)
    /\ (shows success msgs <->
        has "TransactionType" = true /\ has "Account" = true /\ has "Fee" = true)
    /\ (shows warning msgs <->
        has "TransactionType" = true /\ (has "Account" = false \/ has "Fee" = false)).
Proof.
  intros has shows. unfold validateTransaction, validation_warnings.
  unfold bind at 1, clearValidationMessages, modify. simpl.
  fold (has "TransactionType") (has "Account") (has "Fee").
  destruct (has "TransactionType"), (has "Account"), (has "Fee"); simpl;
    unfold bind, showValidationMessage, modify, ret; simpl;
    (eexists; split; [reflexivity|]); simpl;
    (split; [lia|]);
    (split; [eexists; repeat constructor|]);
    unfold shows; repeat split; intros;
    first
      [ match goal with H : ex _ |- _ => destruct H as [? H]; exfalso; absurd_message H end
      | eexists; apply elem_of_cons; left; reflexivity
      | done
      | intuition congruence ].
Qed.

(** What the validation area held before does not matter. *)
Lemma validateTransaction_clears (transaction : TxObject) f st :
  validateTransaction transaction (with_validationMessages f st)
  = validateTransaction transaction st.
Proof. unfold validateTransaction, bind at 1, clearValidationMessages, modify. done. Qed.

(** The four messages of [validateTransaction]. *)
Lemma validateTransaction_messages (transaction : TxObject) st :
  Forall (fun m => m ∈ [("Transaction Type is required", error);
                        ("Account field is recommended", warning);
                        ("Fee field is recommended", warning);
                        ("Transaction structure looks good!", success)])
         (validationMessages (exec (validateTransaction transaction) st)).
Proof.
  unfold exec, validateTransaction, validation_warnings.
  unfold bind at 1, clearValidationMessages, modify. simpl.
  destruct (JS.truthy_opt (transaction !! "TransactionType")),
           (JS.truthy_opt (transaction !! "Account")),
           (JS.truthy_opt (transaction !! "Fee")); simpl;
    repeat (apply Forall_cons_2; [set_solver|]); apply Forall_nil_2.
Qed.

Lemma forEach_showValidationMessage (level : Level) (l : list string) : forall st,
  forEach l (fun w => showValidationMessage w level) st
  = (Returns tt,
     with_validationMessages
       (fun ms => (ms ++ List.map (fun w => (w, level)) l)%list) st).
Proof.
  induction l as [|x l IH]; intros st; simpl.
  - destruct st. unfold with_validationMessages, ret. simpl. by rewrite app_nil_r.
  - unfold bind, showValidationMessage at 1, modify. simpl. rewrite IH.
    unfold with_validationMessages. simpl. by rewrite <- app_assoc.
Qed.

(** [validateTransaction] in closed form. *)
Lemma validateTransaction_state (transaction : TxObject) st :
  validateTransaction transaction st
  = (Returns tt, with_validationMessages (const (verdict transaction)) st).
Proof.
  unfold validateTransaction, verdict.
  unfold bind at 1, clearValidationMessages, modify at 1. cbn [fst snd].
  destruct (negb _); [done|].
  destruct (validation_warnings transaction) as [|w ws]; [done|].
  by rewrite forEach_showValidationMessage.
Qed.

Section Drop.

Variable FIELDS : list (string * FieldInfo).

(** X11.  Dropping a field that the current test already has changes no
    test, and the warning that [addFieldBlock] shows for it does not
    survive the drop: [handleDrop] goes on to [updateJSONOutput], whose
    validation empties the message area, so that afterwards the area holds
    the verdict on the unchanged transaction and nothing else.  The drag
    data is consumed and the tests are saved. *)
Theorem handleDrop_duplicate_warning_lost (g : Globals) (d : DraggedData)
    (t : Transaction) (b : Block) :
  draggedData g = Some d ->
  (dd_blockType d =? "transaction-type") = false ->
  getCurrentTransaction (core g) = Some t ->
  List.find (fun b => blk_fieldName b =? dd_fieldName d) (tx_blocks t) = Some b ->
  let g' := handleDrop FIELDS g in
  core g'
  = with_events (fun l => (l ++ [EvSaveTests (transactions (core g))])%list)
      (exec (validateTransaction (buildTransactionObject FIELDS (core g))) (core g))
  /\ transactions (core g') = transactions (core g)
  /\ (already_added (dd_fieldName d) ∉ validationMessages (core g'))
  /\ draggedData g' = None.
Proof.
  intros Hd Htype Hcur Hb g'.
  assert (Hcore : core g'
    = with_events (fun l => (l ++ [EvSaveTests (transactions (core g))])%list)
        (exec (validateTransaction (buildTransactionObject FIELDS (core g))) (core g))).
  { unfold g', handleDrop. rewrite Hd, Htype. unfold on_core at 1. simpl.
    unfold exec at 2, addFieldBlock, bind at 1, gets at 1. simpl.
    unfold exec at 1, bind at 1, updateJSONOutput, bind at 1, gets at 1.
    rewrite Hcur, Hb. unfold showValidationMessage, modify.
    cbn [fst snd].
    change (buildTransactionObject FIELDS (with_validationMessages _ (core g)))
      with (buildTransactionObject FIELDS (core g)).
    rewrite validateTransaction_clears.
    unfold exec. rewrite !validateTransaction_state. done. }
  split; [done|]. rewrite Hcore. simpl_state.
  pose proof (validateTransaction_state (buildTransactionObject FIELDS (core g)) (core g))
    as Hv.
  pose proof (validateTransaction_messages (buildTransactionObject FIELDS (core g)) (core g))
    as Hall.
  split; [by unfold exec; rewrite Hv|].
  split; [|unfold g', handleDrop; by rewrite Hd].
  intros Hin. rewrite Forall_forall in Hall. apply Hall in Hin.
  unfold already_added in Hin.
  repeat (apply elem_of_cons in Hin as [Hin|Hin]; [discriminate Hin|]).
  by apply not_elem_of_nil in Hin.
Qed.

End Drop.

(** A second drop of [Account] on a test that holds it. *)
Lemma handleDrop_duplicate_warning_lost_witness :
  validationMessages
    (core (handleDrop sample_FIELDS
             (mkGlobals editing_state
                (Some (mkDraggedData "Account" "account-field" None)) 2)))
  = [("Fee field is recommended", warning)].
Proof.
  pose proof (handleDrop_duplicate_warning_lost sample_FIELDS
                (mkGlobals editing_state
                   (Some (mkDraggedData "Account" "account-field" None)) 2)
                (mkDraggedData "Account" "account-field" None)
                (mkTransaction "tx-1" "Test 1" (Some "Payment")
                   [mkBlock "Account" (VStr "rN7n7otQDd6FczFgLdlqtyMVrn3HMfgnHf")]
                   pending "tesSUCCESS" None None None)
                (mkBlock "Account" (VStr "rN7n7otQDd6FczFgLdlqtyMVrn3HMfgnHf"))
                eq_refl eq_refl eq_refl eq_refl) as [H _].
  cbv zeta in H. rewrite H. reflexivity.
Defined.

(** ** Removing a test *)

Lemma findIndex_transaction_None id txs :
  findIndex_transaction id txs = None <-> find_transaction id txs = None.
Proof.
  induction txs as [|tx rest IH]; simpl; [done|].
  destruct (tx_id tx =? id); [done|].
  rewrite <- IH. by destruct (findIndex_transaction id rest).
Qed.

Lemma findIndex_transaction_Some id txs i :
  findIndex_transaction id txs = Some i ->
  exists t, txs !! i = Some t /\ tx_id t = id /\ find_transaction id txs = Some t.
Proof.
  revert i. induction txs as [|tx rest IH]; intros i; simpl; [done|].
  destruct (String.eqb_spec (tx_id tx) id) as [E|Hne].
  - intros [= <-]. by exists tx.
  - destruct (findIndex_transaction id rest) as [k|]; [|done].
    intros [= <-]. by apply IH.
Qed.

(** Deleting the first test under [id] does not disturb the lookup of
    another id. *)
Lemma find_transaction_delete_ne id id' txs i :
  findIndex_transaction id txs = Some i -> id' <> id ->
  find_transaction id' (delete i txs) = find_transaction id' txs.
Proof.
  revert i. induction txs as [|tx rest IH]; intros i; simpl; [done|].
  destruct (String.eqb_spec (tx_id tx) id) as [E|Hne].
  - intros [= <-] Hne. simpl.
    destruct (String.eqb_spec (tx_id tx) id'); [congruence|done].
  - destruct (findIndex_transaction id rest) as [k|] eqn:Hk; [|done].
    intros [= <-] Hne'. simpl. destruct (tx_id tx =? id'); [done|].
    by apply IH.
Qed.

Lemma find_transaction_elem id txs t :
  find_transaction id txs = Some t -> t ∈ txs /\ tx_id t = id.
Proof.
  intros H. apply List.find_some in H as [Hin Heq].
  split; [by apply list_elem_of_In|by apply String.eqb_eq].
Qed.

Lemma find_transaction_not_in id txs :
  id ∉ List.map tx_id txs -> find_transaction id txs = None.
Proof.
  intros Hnotin. destruct (find_transaction id txs) as [t|] eqn:E; [|done].
  apply find_transaction_elem in E as [Hin <-]. exfalso. apply Hnotin.
  by apply (list_elem_of_fmap_2 tx_id).
Qed.

(** With distinct ids, deleting the test found under [id] leaves none. *)
Lemma find_transaction_delete id txs i :
  NoDup (List.map tx_id txs) -> findIndex_transaction id txs = Some i ->
  find_transaction id (delete i txs) = None.
Proof.
  revert i. induction txs as [|tx rest IH]; intros i Hnd; simpl; [done|].
  apply NoDup_cons in Hnd as [Hnotin Hnd].
  destruct (String.eqb_spec (tx_id tx) id) as [E|Hne].
  - intros [= <-]. simpl. rewrite <- E. by apply find_transaction_not_in.
  - destruct (findIndex_transaction id rest) as [k|] eqn:Hk; [|done].
    intros [= <-]. simpl.
    destruct (String.eqb_spec (tx_id tx) id); [done|]. by apply IH.
Qed.

Lemma head_find_transaction txs t :
  head txs = Some t -> find_transaction (tx_id t) txs = Some t.
Proof. destruct txs as [|tx rest]; [done|]. intros [= ->]. simpl. by rewrite String.eqb_refl. Qed.

(** The state in which [removeTransaction] returns, when the test exists. *)
Lemma removeTransaction_found id st i :
  findIndex_transaction id (transactions st) = Some i ->
  let rest := delete i (transactions st) in
  removeTransaction id st
  = (Returns tt,
     with_events (fun l => (l ++ [EvSaveTests rest])%list)
       (with_currentTransactionId
          (fun current => if bool_decide (current = Some id)
                          then tx_id <$> head rest else current)
          (with_transactions (fun _ => rest) st))).
Proof.
  intros Hi rest. unfold removeTransaction, bind at 1, gets at 1. rewrite Hi.
  unfold bind at 1, modify at 1. cbn [fst snd].
  unfold bind at 1, gets at 1. cbn [fst snd]. simpl_state.
  unfold bind at 1.
  destruct (bool_decide (currentTransactionId st = Some id)) eqn:E;
    unfold saveTestsToStorage, bind, gets, emit, modify, ret;
    destruct st; simpl in *;
    unfold with_events, with_currentTransactionId, with_transactions; simpl;
    by rewrite E.
Qed.

(** X12.  On a registry with distinct ids, [removeTransaction] of a test
    that exists leaves no test under that id, one test fewer, and every
    other id looked up as before; the remaining ids are still distinct, and
    the registry is saved as it now is. *)
Theorem removeTransaction_removes id st t :
  NoDup (List.map tx_id (transactions st)) ->
  find_transaction id (transactions st) = Some t ->
  let st' := exec (removeTransaction id) st in
  find_transaction id (transactions st') = None
  /\ S (length (transactions st')) = length (transactions st)
  /\ (forall id', id' <> id ->
        find_transaction id' (transactions st') = find_transaction id' (transactions st))
  /\ NoDup (List.map tx_id (transactions st'))
  /\ events st' = (events st ++ [EvSaveTests (transactions st')])%list.
Proof.
  intros Hnd Hfound st'.
  destruct (findIndex_transaction id (transactions st)) as [i|] eqn:Hi;
    [|apply findIndex_transaction_None in Hi; congruence].
  unfold st', exec. rewrite (removeTransaction_found _ _ _ Hi). simpl.
  destruct (findIndex_transaction_Some _ _ _ Hi) as (t' & Hlook & _).
  split; [by apply find_transaction_delete|].
  split.
  { apply lookup_lt_Some in Hlook. rewrite length_delete; [lia|]. by eapply lookup_lt_is_Some_2. }
  split; [intros id' Hne; exact (find_transaction_delete_ne id id' _ i Hi Hne)|].
  split; [|done].
  change (List.map tx_id ?l) with (tx_id <$> l) in *.
  rewrite list_fmap_delete. eapply sublist_NoDup; [exact Hnd|apply sublist_delete].
Qed.

(** X13.  [removeTransaction] keeps a test selected for editing as long as
    tests remain (ids being non-empty, as [generateTransactionId] makes
    them): a selection other than the removed test stays, and when the
    selected test is removed the first remaining test takes its place.
    With an id that no test carries it changes nothing and saves nothing. *)
Theorem removeTransaction_keeps_current id st :
  Forall (fun t => tx_id t <> "") (transactions st) ->
  current_valid st ->
  let st' := exec (removeTransaction id) st in
  current_valid st'
  /\ (currentTransactionId st <> Some id ->
      currentTransactionId st' = currentTransactionId st)
  /\ (currentTransactionId st = Some id ->
      getCurrentTransaction st' = head (transactions st'))
  /\ (find_transaction id (transactions st) = None -> st' = st).
Proof.
  intros Hids Hvalid st'.
  destruct (findIndex_transaction id (transactions st)) as [i|] eqn:Hi.
  2:{ assert (st' = st) as ->.
      { unfold st', exec, removeTransaction, bind, gets. by rewrite Hi. }
      split; [done|]. split; [done|]. split; [|done].
      intros Hcur. apply findIndex_transaction_None in Hi.
      destruct (transactions st) as [|tx rest] eqn:Htx.
      - unfold getCurrentTransaction. rewrite Hcur, Htx. by destruct (truthy_string _).
      - destruct Hvalid as [t Ht]; [by rewrite Htx|].
        unfold getCurrentTransaction in Ht. rewrite Hcur, Htx in Ht.
        destruct (truthy_string _); congruence. }
  assert (Hhead : forall t, head (delete i (transactions st)) = Some t ->
            getCurrentTransaction
              (with_currentTransactionId (fun _ => Some (tx_id t))
                 (with_transactions (fun _ => delete i (transactions st)) st))
            = Some t).
  { intros t Ht. unfold getCurrentTransaction. simpl.
    assert (Hne : tx_id t <> "").
    { rewrite Forall_forall in Hids. apply Hids.
      eapply elem_of_sublist; [by apply head_Some_elem_of|apply sublist_delete]. }
    apply String.eqb_neq in Hne. rewrite Hne. simpl. by apply head_find_transaction. }
  unfold st', exec. rewrite (removeTransaction_found _ _ _ Hi). cbn [snd].
  set (rest := delete i (transactions st)) in *.
  match goal with |- context [with_events ?f ?s] => set (st1 := with_events f s) end.
  assert (Htx1 : transactions st1 = rest) by done.
  assert (Hcur1 : currentTransactionId st1
                  = if bool_decide (currentTransactionId st = Some id)
                    then tx_id <$> head rest else currentTransactionId st) by done.
  assert (Hget : forall t, head rest = Some t ->
            currentTransactionId st1 = Some (tx_id t) ->
            getCurrentTransaction st1 = Some t).
  { intros t Ht Hc. specialize (Hhead t Ht). unfold getCurrentTransaction in *.
    rewrite Hc, Htx1. exact Hhead. }
  clearbody st1. clear Hhead.
  split; [|split; [|split]].
  - intros Hrest. rewrite Htx1 in Hrest.
    destruct (bool_decide (currentTransactionId st = Some id)) eqn:Hcur.
    + destruct (head rest) as [t|] eqn:Ht; [|by destruct rest].
      exists t. by apply Hget.
    + destruct Hvalid as [t Ht].
      { intros Hnil. by rewrite Hnil in Hi. }
      unfold getCurrentTransaction in *. rewrite Hcur1, Htx1.
      destruct (truthy_string (currentTransactionId st)); [|done].
      destruct (currentTransactionId st) as [c|] eqn:Hc; [|done].
      apply bool_decide_eq_false in Hcur.
      unfold rest. rewrite (find_transaction_delete_ne id c _ i Hi) by congruence.
      by exists t.
  - intros Hcur. by rewrite Hcur1, bool_decide_eq_false_2.
  - intros Hcur. rewrite bool_decide_eq_true_2 in Hcur1 by done. rewrite Htx1.
    destruct (head rest) as [t|] eqn:Ht; [by apply Hget|].
    unfold getCurrentTransaction. by rewrite Hcur1.
  - intros Hnone. apply findIndex_transaction_None in Hnone. congruence.
Qed.

(** Removing the first of three tests while it is selected. *)
Lemma removeTransaction_keeps_current_witness :
  getCurrentTransaction (exec (removeTransaction "tx-1") (fresh_state three_pending))
  = Some (fresh_test "tx-2" "Test 2").
Proof.
  refine (proj1 (proj2 (proj2
    (removeTransaction_keeps_current "tx-1" (fresh_state three_pending) _ _))) eq_refl).
  - repeat constructor; discriminate.
  - intros _. by eexists.
Defined.

(** Removing the second of three tests. *)
Lemma removeTransaction_removes_witness :
  find_transaction "tx-2"
    (transactions (exec (removeTransaction "tx-2") (fresh_state three_pending)))
  = None.
Proof.
  refine (proj1
    (removeTransaction_removes "tx-2" (fresh_state three_pending)
       (fresh_test "tx-2" "Test 2") _ eq_refl)).
  apply (bool_decide_unpack _). by vm_compute.
Defined.

(** ** Drawing the workspace and selecting a test *)

Lemma with_events_nil st : with_events (fun l => (l ++ [])%list) st = st.
Proof. destruct st. unfold with_events. simpl. by rewrite app_nil_r. Qed.

Lemma forEach_emit {A} (g : A -> Event) (l : list A) : forall st,
  forEach l (fun x => emit (g x)) st
  = (Returns tt, with_events (fun ev => (ev ++ List.map g l)%list) st).
Proof.
  induction l as [|x l IH]; intros st; simpl.
  - by rewrite with_events_nil.
  - unfold bind, emit at 1, modify. simpl. rewrite IH. unfold with_events. simpl.
    by rewrite <- app_assoc.
Qed.

Section Drawing.

Variable FIELDS : list (string * FieldInfo).

Lemma renderActiveTransaction_state t st :
  renderActiveTransaction FIELDS t st
  = (Returns tt,
     with_events (fun l => (l ++ drawn_blocks FIELDS t)%list)
       (with_workspaceBody (fun _ => Some (tx_id t)) st)).
Proof.
  unfold renderActiveTransaction, drawn_blocks.
  unfold bind at 1, modify at 1. cbn [fst snd].
  unfold bind at 1.
  destruct (truthy_string (tx_type t)).
  - unfold emit at 1, modify at 1. cbn [fst snd].
    unfold bind at 1. rewrite forEach_emit. unfold modify. simpl.
    destruct st. unfold with_events, with_workspaceBody. simpl.
    by rewrite <- app_assoc.
  - unfold ret at 1. unfold bind at 1. rewrite forEach_emit. unfold modify. simpl.
    by destruct st.
Qed.

Lemma getCurrentTransaction_nil st :
  transactions st = [] -> getCurrentTransaction st = None.
Proof.
  intros Htx. unfold getCurrentTransaction. rewrite Htx.
  destruct (truthy_string _); [|done]. by destruct (currentTransactionId st).
Qed.

(** The workspace shows the current test, if there is one. *)
Lemma renderWorkspace_state st :
  renderWorkspace FIELDS st
  = (Returns tt,
     with_events
       (fun l => (l ++ match getCurrentTransaction st with
                       | Some t => drawn_blocks FIELDS t
                       | None => []
                       end ++ [EvRenderTestQueue (transactions st)])%list)
       (with_workspaceBody (fun _ => tx_id <$> getCurrentTransaction st) st)).
Proof.
  unfold renderWorkspace. unfold bind at 1, modify at 1. cbn [fst snd].
  unfold bind at 1, gets at 1. cbn [fst snd].
  change (transactions (with_workspaceBody _ st)) with (transactions st).
  destruct (transactions st) as [|tx rest] eqn:Htx.
  - rewrite (getCurrentTransaction_nil _ Htx).
    unfold renderTestQueue, bind, gets, emit, modify. simpl. by rewrite Htx.
  - unfold bind at 1, bind at 1, gets at 1. cbn [fst snd].
    change (getCurrentTransaction (with_workspaceBody _ st))
      with (getCurrentTransaction st).
    destruct (getCurrentTransaction st) as [t|].
    + rewrite renderActiveTransaction_state.
      unfold renderTestQueue, bind, gets, emit, modify. simpl. rewrite Htx.
      destruct st. unfold with_events, with_workspaceBody. simpl.
      by rewrite <- app_assoc.
    + unfold renderTestQueue, bind, gets, emit, modify, ret. simpl. by rewrite Htx.
Qed.

Lemma updateJSONOutput_state st :
  updateJSONOutput FIELDS st
  = (Returns tt,
     with_validationMessages (const (verdict (buildTransactionObject FIELDS st))) st).
Proof. unfold updateJSONOutput, bind, gets. simpl. apply validateTransaction_state. Qed.

(** [switchToTransaction] in closed form. *)
Lemma switchToTransaction_state id st :
  let current := if id =? "" then None else find_transaction id (transactions st) in
  switchToTransaction FIELDS id st
  = (Returns tt,
     mkState (transactions st) (Some id) (accounts st) (currentNetwork st)
       (workspaceBlocks st) (transactionType st) (tx_id <$> current)
       (verdict
          (match current with
           | Some t => buildTransactionObject_of FIELDS (tx_type t) (tx_blocks t)
           | None =>
               buildTransactionObject_of FIELDS (transactionType st) (workspaceBlocks st)
           end))
       (clockReads st) (sessions st)
       (events st
        ++ match current with
           | Some t => drawn_blocks FIELDS t
           | None => []
           end
        ++ [EvRenderTestQueue (transactions st); EvSaveTests (transactions st)])%list).
Proof.
  intros current. unfold switchToTransaction.
  unfold bind at 1, modify at 1. cbn [fst snd].
  set (st1 := with_currentTransactionId (fun _ => Some id) st).
  assert (Hcur : getCurrentTransaction st1 = current).
  { unfold getCurrentTransaction, current. simpl. by destruct (id =? ""). }
  unfold bind at 1. rewrite renderWorkspace_state. cbn [fst snd].
  unfold bind at 1. rewrite updateJSONOutput_state. cbn [fst snd].
  unfold buildTransactionObject.
  change (getCurrentTransaction (with_events _ (with_workspaceBody _ st1)))
    with (getCurrentTransaction st1).
  rewrite Hcur.
  unfold saveTestsToStorage, bind, gets, emit, modify. simpl.
  f_equal. unfold with_events. simpl. f_equal.
  by rewrite <- !app_assoc.
Qed.

(** X14.  [switchToTransaction] selects the given id whether or not a test
    carries it, and changes no test.  Afterwards the workspace shows a
    block for the type and for each field of the selected test, in order,
    or nothing when no test carries the id (or the id is empty); the queue
    is redrawn and the tests are saved once; and the validation area
    holds the verdict on the object built for the new selection. *)
Theorem switchToTransaction_selects id st :
  let st' := exec (switchToTransaction FIELDS id) st in
  currentTransactionId st' = Some id
  /\ transactions st' = transactions st
  /\ getCurrentTransaction st'
     = (if id =? "" then None else find_transaction id (transactions st))
  /\ workspaceBody st' = tx_id <$> getCurrentTransaction st'
  /\ events st'
     = (events st
        ++ match getCurrentTransaction st' with
           | Some t => drawn_blocks FIELDS t
           | None => []
           end
        ++ [EvRenderTestQueue (transactions st); EvSaveTests (transactions st)])%list
  /\ validationMessages st' = verdict (buildTransactionObject FIELDS st').
Proof.
  intros st'. unfold st', exec. rewrite switchToTransaction_state. cbv zeta. cbn [snd].
  set (current := if id =? "" then None else find_transaction id (transactions st)).
  match goal with |- context [currentTransactionId ?s] => set (st1 := s) end.
  assert (Hcur : getCurrentTransaction st1 = current).
  { unfold getCurrentTransaction, current, st1. simpl. by destruct (id =? ""). }
  unfold buildTransactionObject. rewrite Hcur. done.
Qed.

End Drawing.

(** ** Editing the current test *)

Lemma getCurrentTransaction_Some st t :
  getCurrentTransaction st = Some t ->
  currentTransactionId st = Some (tx_id t)
  /\ find_transaction (tx_id t) (transactions st) = Some t.
Proof.
  unfold getCurrentTransaction. destruct (truthy_string _); [|done].
  destruct (currentTransactionId st) as [c|]; [|done].
  intros H. by rewrite (find_transaction_id _ _ _ H) in *.
Qed.

(** A write to the current test through its reference. *)
Lemma getCurrentTransaction_update st t f :
  getCurrentTransaction st = Some t -> tx_id (f t) = tx_id t ->
  getCurrentTransaction (with_transactions (update_transaction (tx_id t) f) st)
  = Some (f t).
Proof.
  intros Hcur Hid. pose proof Hcur as [Hc Hfind]%getCurrentTransaction_Some.
  unfold getCurrentTransaction in *. simpl. rewrite Hc in *.
  destruct (truthy_string _); [|done].
  by apply find_update_twice.
Qed.

Section EditingFacts.

Variable FIELDS : list (string * FieldInfo).

(** What a block contributes depends on the object only at its own key. *)
Lemma addBlock_congr (m1 m2 : TxObject) b k :
  m1 !! k = m2 !! k -> addBlock FIELDS m1 b !! k = addBlock FIELDS m2 b !! k.
Proof.
  intros H. unfold addBlock.
  destruct (truthy_value _); [|done].
  destruct (blk_value b) as [|s|members]; [done| |].
  - destruct (negb _); [|done].
    destruct (decide (blk_fieldName b = k)) as [->|Hne].
    + by rewrite !lookup_insert_eq.
    + by rewrite !lookup_insert_ne.
  - destruct (decide (blk_fieldName b = k)) as [->|Hne].
    + by rewrite !lookup_insert_eq.
    + by rewrite !lookup_insert_ne.
Qed.

Lemma foldl_addBlock_congr blocks : forall (m1 m2 : TxObject) k,
  m1 !! k = m2 !! k ->
  foldl (addBlock FIELDS) m1 blocks !! k = foldl (addBlock FIELDS) m2 blocks !! k.
Proof.
  induction blocks as [|b blocks IH]; intros m1 m2 k H; [done|]. simpl.
  by apply IH, addBlock_congr.
Qed.

(** Another field's entry does not notice a new value. *)
Lemma foldl_addBlock_set_other f v blocks : forall (m : TxObject) k,
  k <> f ->
  foldl (addBlock FIELDS) m (set_block_value f v blocks) !! k
  = foldl (addBlock FIELDS) m blocks !! k.
Proof.
  induction blocks as [|b blocks IH]; intros m k Hk; [done|]. simpl.
  destruct (String.eqb_spec (blk_fieldName b) f) as [E|Hne]; simpl.
  - apply foldl_addBlock_congr. rewrite !addBlock_other; [done|simpl; congruence..].
  - by apply IH.
Qed.

(** Nor the removal of a field. *)
Lemma foldl_addBlock_remove_other f blocks : forall (m : TxObject) k,
  k <> f ->
  foldl (addBlock FIELDS) m (remove_blocks f blocks) !! k
  = foldl (addBlock FIELDS) m blocks !! k.
Proof.
  induction blocks as [|b blocks IH]; intros m k Hk; [done|]. simpl.
  destruct (String.eqb_spec (blk_fieldName b) f) as [E|Hne]; simpl.
  - rewrite IH by done. apply foldl_addBlock_congr.
    rewrite addBlock_other; [done|congruence].
  - by apply IH.
Qed.

Lemma remove_blocks_none f blocks :
  Forall (fun b => blk_fieldName b <> f) (remove_blocks f blocks).
Proof.
  apply Forall_forall. intros b Hin. apply list_elem_of_In, List.filter_In in Hin as [_ H].
  apply negb_true_iff in H. by apply String.eqb_neq.
Qed.

Lemma set_block_value_names f v blocks :
  List.map blk_fieldName (set_block_value f v blocks) = List.map blk_fieldName blocks.
Proof.
  induction blocks as [|b blocks IH]; simpl; [done|].
  destruct (blk_fieldName b =? f); simpl; [done|]. by rewrite IH.
Qed.

(** With distinct names, the block that holds a field is the only one. *)
Lemma set_block_value_split f v blocks :
  NoDup (List.map blk_fieldName blocks) -> f ∈ List.map blk_fieldName blocks ->
  exists pre post,
    set_block_value f v blocks = (pre ++ mkBlock f v :: post)%list
    /\ Forall (fun b => blk_fieldName b <> f) post.
Proof.
  induction blocks as [|b blocks IH]; simpl; intros Hnd Hin.
  - by apply not_elem_of_nil in Hin.
  - apply NoDup_cons in Hnd as [Hnotin Hnd].
    destruct (String.eqb_spec (blk_fieldName b) f) as [E|Hne].
    + exists [], blocks. split; [by rewrite E|].
      apply Forall_forall. intros b' Hb' Heq. apply Hnotin. rewrite E, <- Heq.
      by apply (list_elem_of_fmap_2 blk_fieldName).
    + apply elem_of_cons in Hin as [Hin|Hin]; [congruence|].
      destruct (IH Hnd Hin) as (pre & post & -> & Hpost).
      by exists (b :: pre), post.
Qed.

Lemma build_of_current st t :
  getCurrentTransaction st = Some t ->
  buildTransactionObject FIELDS st
  = buildTransactionObject_of FIELDS (tx_type t) (tx_blocks t).
Proof. intros H. unfold buildTransactionObject. by rewrite H. Qed.

(** X15.  Setting a field of the current test (its field names being
    distinct) shows in the transaction object: a value that is not blank
    appears under the field's name, converted by [convertFieldValue]; a
    blank value removes the field from the object; every other member of
    the object is as before; and the validation area holds the verdict on
    the new object. *)
Theorem updateFieldValue_sets fieldName value st t :
  getCurrentTransaction st = Some t ->
  NoDup (List.map blk_fieldName (tx_blocks t)) ->
  fieldName ∈ List.map blk_fieldName (tx_blocks t) ->
  let st' := exec (updateFieldValue FIELDS fieldName (VStr value)) st in
  let built' := buildTransactionObject FIELDS st' in
  (JS.trim value <> "" ->
   built' !! fieldName
   = Some (convertFieldValue value (getFieldInfo FIELDS fieldName)))
  /\ (JS.trim value = "" -> fieldName <> "TransactionType" ->
      built' !! fieldName = None)
  /\ (forall k, k <> fieldName ->
        built' !! k = buildTransactionObject FIELDS st !! k)
  /\ validationMessages st' = verdict built'.
Proof.
  intros Hcur Hnd Hin st' built'.
  set (f := fun tx => set_blocks (set_block_value fieldName (VStr value) (tx_blocks tx)) tx).
  assert (Hst' : st'
    = with_validationMessages
        (fun _ => verdict (buildTransactionObject_of FIELDS (tx_type t)
                             (set_block_value fieldName (VStr value) (tx_blocks t))))
        (with_workspaceBlocks (set_block_value fieldName (VStr value))
           (with_transactions (update_transaction (tx_id t) f) st))).
  { unfold st', exec, updateFieldValue.
    unfold bind at 1, gets at 1. cbn [fst snd]. rewrite Hcur.
    unfold bind at 1, modify_transaction, modify at 1. cbn [fst snd].
    unfold bind at 1, modify at 1. cbn [fst snd].
    rewrite updateJSONOutput_state. cbn [snd].
    unfold buildTransactionObject.
    change (getCurrentTransaction (with_workspaceBlocks _ ?s))
      with (getCurrentTransaction s).
    fold f. by rewrite (getCurrentTransaction_update st t f Hcur eq_refl). }
  assert (Hbuilt : built'
    = buildTransactionObject_of FIELDS (tx_type t)
        (set_block_value fieldName (VStr value) (tx_blocks t))).
  { unfold built', buildTransactionObject. rewrite Hst'.
    change (getCurrentTransaction (with_validationMessages _ (with_workspaceBlocks _ ?s)))
      with (getCurrentTransaction s).
    by rewrite (getCurrentTransaction_update st t f Hcur eq_refl). }
  destruct (set_block_value_split fieldName (VStr value) _ Hnd Hin)
    as (pre & post & Hsplit & Hpost).
  split; [|split; [|split]].
  - intros Hv. rewrite Hbuilt. unfold buildTransactionObject_of.
    rewrite Hsplit, foldl_app. simpl. rewrite foldl_addBlock_other by done.
    unfold addBlock. simpl.
    destruct (String.eqb_spec value "") as [->|_]; [done|]. simpl.
    apply String.eqb_neq in Hv. rewrite Hv. simpl. by rewrite lookup_insert_eq.
  - intros Hv Hne. rewrite Hbuilt. unfold buildTransactionObject_of.
    rewrite Hsplit, foldl_app. simpl. rewrite foldl_addBlock_other by done.
    assert (Hskip : forall m : TxObject,
              addBlock FIELDS m (mkBlock fieldName (VStr value)) = m).
    { intros m. unfold addBlock. simpl. rewrite Hv. simpl. by destruct (negb _). }
    rewrite Hskip.
    assert (Hpre : Forall (fun b => blk_fieldName b <> fieldName) pre).
    { apply Forall_forall. intros b Hb Heq.
      pose proof Hnd as Hnd'.
      rewrite <- (set_block_value_names fieldName (VStr value)) in Hnd'.
      rewrite Hsplit, List.map_app in Hnd'. simpl in Hnd'.
      apply NoDup_app in Hnd' as (_ & Hdisj & _).
      apply (Hdisj fieldName); [rewrite <- Heq; by apply (list_elem_of_fmap_2 blk_fieldName)|by left]. }
    rewrite foldl_addBlock_other by done.
    destruct (truthy_string (tx_type t)); [|done].
    destruct (tx_type t); [|done]. by rewrite lookup_singleton_ne.
  - intros k Hk. rewrite Hbuilt, (build_of_current _ _ Hcur).
    by apply foldl_addBlock_set_other.
  - by rewrite Hst', Hbuilt.
Qed.

(** X16.  [removeFieldBlock] takes the field out of the transaction
    object built for the current test, whatever blocks held it, and leaves
    every other member of the object as it was; the change is saved. *)
Theorem removeFieldBlock_removes fieldName st t :
  getCurrentTransaction st = Some t ->
  fieldName <> "TransactionType" ->
  let st' := exec (removeFieldBlock FIELDS fieldName) st in
  let built' := buildTransactionObject FIELDS st' in
  built' !! fieldName = None
  /\ (forall k, k <> fieldName ->
        built' !! k = buildTransactionObject FIELDS st !! k)
  /\ getCurrentTransaction st'
     = Some (set_blocks (remove_blocks fieldName (tx_blocks t)) t)
  /\ validationMessages st' = verdict built'
  /\ events st' = (events st ++ [EvSaveTests (transactions st')])%list.
Proof.
  intros Hcur Hne st' built'.
  set (f := fun tx => set_blocks (remove_blocks fieldName (tx_blocks tx)) tx).
  assert (Hst' : st'
    = with_events
        (fun l => (l ++ [EvSaveTests (update_transaction (tx_id t) f (transactions st))])%list)
        (with_validationMessages
           (fun _ => verdict (buildTransactionObject_of FIELDS (tx_type t)
                                (remove_blocks fieldName (tx_blocks t))))
           (with_workspaceBlocks (remove_blocks fieldName)
              (with_transactions (update_transaction (tx_id t) f) st)))).
  { unfold st', exec, removeFieldBlock.
    unfold bind at 1, gets at 1. cbn [fst snd]. rewrite Hcur.
    unfold bind at 1, modify_transaction, modify at 1. cbn [fst snd].
    unfold bind at 1, modify at 1. cbn [fst snd].
    unfold bind at 1. rewrite updateJSONOutput_state. cbn [fst snd].
    unfold buildTransactionObject.
    change (getCurrentTransaction (with_workspaceBlocks _ ?s))
      with (getCurrentTransaction s).
    fold f. rewrite (getCurrentTransaction_update st t f Hcur eq_refl).
    unfold saveTestsToStorage, bind, gets, emit, modify. by cbn [fst snd]. }
  assert (Hget : getCurrentTransaction st' = Some (f t)).
  { rewrite Hst'.
    change (getCurrentTransaction
              (with_events _ (with_validationMessages _ (with_workspaceBlocks _ ?s))))
      with (getCurrentTransaction s).
    by apply getCurrentTransaction_update. }
  assert (Hbuilt : built'
    = buildTransactionObject_of FIELDS (tx_type t)
        (remove_blocks fieldName (tx_blocks t))).
  { unfold built'. by rewrite (build_of_current _ _ Hget). }
  split; [|split; [|split; [done|split]]].
  - rewrite Hbuilt. unfold buildTransactionObject_of.
    rewrite foldl_addBlock_other by apply remove_blocks_none.
    destruct (truthy_string (tx_type t)); [|done].
    destruct (tx_type t); [|done]. by rewrite lookup_singleton_ne.
  - intros k Hk. rewrite Hbuilt, (build_of_current _ _ Hcur).
    by apply foldl_addBlock_remove_other.
  - by rewrite Hst', Hbuilt.
  - by rewrite Hst'.
Qed.

End EditingFacts.

(** Retyping the destination of the sample test being edited. *)
Lemma updateFieldValue_sets_witness :
  buildTransactionObject sample_FIELDS
    (exec (updateFieldValue sample_FIELDS "Account" (VStr "rHb9CJAWyB4rj91VRWn96DkukG4bwdtyTh"))
          editing_state)
  !! "Account"
  = Some (JS.Str "rHb9CJAWyB4rj91VRWn96DkukG4bwdtyTh").
Proof.
  refine (proj1
    (updateFieldValue_sets sample_FIELDS "Account" "rHb9CJAWyB4rj91VRWn96DkukG4bwdtyTh"
       editing_state
       (mkTransaction "tx-1" "Test 1" (Some "Payment")
          [mkBlock "Account" (VStr "rN7n7otQDd6FczFgLdlqtyMVrn3HMfgnHf")]
          pending "tesSUCCESS" None None None)
       eq_refl _ _) _).
  - apply (bool_decide_unpack _). by vm_compute.
  - apply (bool_decide_unpack _). by vm_compute.
  - intros H. vm_compute in H. discriminate H.
Defined.

(** Removing the only field of the sample test. *)
Lemma removeFieldBlock_removes_witness :
  buildTransactionObject sample_FIELDS
    (exec (removeFieldBlock sample_FIELDS "Account") editing_state)
  !! "Account"
  = None.
Proof.
  refine (proj1
    (removeFieldBlock_removes sample_FIELDS "Account" editing_state
       (mkTransaction "tx-1" "Test 1" (Some "Payment")
          [mkBlock "Account" (VStr "rN7n7otQDd6FczFgLdlqtyMVrn3HMfgnHf")]
          pending "tesSUCCESS" None None None)
       eq_refl _)).
  discriminate.
Defined.

Section TypeAndSelection.

Variable FIELDS : list (string * FieldInfo).

(** X17.  [setTransactionType] writes the type of the current test and
    nothing else of it: its blocks stay, every other test is looked up as
    before, and in the transaction object only [TransactionType] changes,
    to the new type when no field block bears that name.  When no test is
    current the call changes nothing at all. *)
Theorem setTransactionType_sets typeName st :
  typeName <> "" ->
  let st' := exec (setTransactionType (Some typeName)) st in
  (forall t, getCurrentTransaction st = Some t ->
     getCurrentTransaction st' = Some (set_type (Some typeName) t)
     /\ (forall id', id' <> tx_id t ->
           find_transaction id' (transactions st')
           = find_transaction id' (transactions st))
     /\ (forall k, k <> "TransactionType" ->
           buildTransactionObject FIELDS st' !! k
           = buildTransactionObject FIELDS st !! k)
     /\ (Forall (fun b => blk_fieldName b <> "TransactionType") (tx_blocks t) ->
         buildTransactionObject FIELDS st' !! "TransactionType"
         = Some (JS.Str typeName)))
  /\ (getCurrentTransaction st = None -> st' = st).
Proof.
  intros Hne st'. split.
  2:{ intros Hcur. unfold st', exec, setTransactionType, bind, gets. simpl.
      by rewrite Hcur. }
  intros t Hcur.
  set (f := set_type (Some typeName)).
  assert (Hst' : exists shown,
    st' = with_events (fun l => (l ++ shown)%list)
            (with_transactionType (fun _ => Some typeName)
               (with_transactions (update_transaction (tx_id t) f) st))).
  { unfold st', exec, setTransactionType.
    unfold bind at 1, gets at 1. cbn [fst snd]. rewrite Hcur.
    unfold bind at 1, modify_transaction, modify at 1. cbn [fst snd].
    unfold bind at 1, modify at 1. cbn [fst snd].
    unfold bind at 1, gets at 1. cbn [fst snd].
    destruct (bool_decide _).
    - unfold bind at 1, emit, modify at 1. cbn [fst snd].
      unfold renderTestQueue, bind, gets, emit, modify. cbn [fst snd].
      eexists. unfold with_events. simpl. by rewrite <- app_assoc.
    - exists []. by rewrite with_events_nil. }
  destruct Hst' as [shown Hst'].
  assert (Htx : transactions st' = update_transaction (tx_id t) f (transactions st)
                /\ currentTransactionId st' = currentTransactionId st)
    by (by rewrite Hst').
  destruct Htx as [Htx Hc].
  assert (Hget : getCurrentTransaction st' = Some (f t)).
  { pose proof (getCurrentTransaction_update st t f Hcur eq_refl) as H.
    unfold getCurrentTransaction in *. simpl in H. by rewrite Htx, Hc. }
  split; [done|]. split; [|split].
  - intros id' Hid. rewrite Htx.
    apply find_update_transaction_ne; [|done]. by intros ? <-.
  - intros k Hk. rewrite (build_of_current _ _ _ Hget), (build_of_current _ _ _ Hcur).
    unfold buildTransactionObject_of. simpl.
    apply foldl_addBlock_congr.
    apply String.eqb_neq in Hne. rewrite Hne. simpl.
    rewrite lookup_singleton_ne by done.
    destruct (truthy_string (tx_type t)); [|done].
    destruct (tx_type t); [|done]. by rewrite lookup_singleton_ne.
  - intros Hblocks. rewrite (build_of_current _ _ _ Hget).
    unfold buildTransactionObject_of. simpl.
    rewrite foldl_addBlock_other by done.
    apply String.eqb_neq in Hne. rewrite Hne. simpl. by rewrite lookup_singleton_eq.
Qed.

(** X18.  After [switchToTransaction] to a test that exists, a field that
    the test does not have yet, added with [addFieldBlock], goes to that
    test, as its last block and with an empty value; a block is created
    for it in the workspace; no other test is touched. *)
Theorem switch_then_addFieldBlock id fieldName blockType st t :
  find_transaction id (transactions st) = Some t ->
  id <> "" ->
  List.find (fun b => blk_fieldName b =? fieldName) (tx_blocks t) = None ->
  let st' := exec (switchToTransaction FIELDS id ;; addFieldBlock fieldName blockType) st in
  getCurrentTransaction st'
  = Some (set_blocks (tx_blocks t ++ [mkBlock fieldName (VStr "")])%list t)
  /\ (forall id', id' <> id ->
        find_transaction id' (transactions st')
        = find_transaction id' (transactions st))
  /\ last (events st') = Some (EvCreateWorkspaceBlock fieldName blockType).
Proof.
  intros Hfound Hne Hnew st'.
  pose proof (find_transaction_id _ _ _ Hfound) as Hid.
  set (f := fun tx => set_blocks (tx_blocks tx ++ [mkBlock fieldName (VStr "")])%list tx).
  apply String.eqb_neq in Hne.
  assert (Heq : exists sw shown,
    transactions sw = transactions st /\ currentTransactionId sw = Some id
    /\ events sw = shown
    /\ st' = with_workspaceBlocks (fun l => (l ++ [mkBlock fieldName (VStr "")])%list)
               (with_transactions (update_transaction id f)
                  (with_events
                     (fun l => (l ++ [EvCreateWorkspaceBlock fieldName blockType])%list)
                     sw))).
  { unfold st', exec. unfold bind at 1. rewrite switchToTransaction_state.
    cbv zeta. rewrite Hne, Hfound. cbn [fst snd].
    eexists. eexists. split; [|split; [|split; [|
      unfold addFieldBlock; unfold bind at 1, gets at 1; cbn [fst snd];
      unfold getCurrentTransaction at 1;
      cbn [currentTransactionId transactions]; unfold truthy_string; rewrite Hne;
      cbn [negb]; rewrite Hfound, Hnew;
      unfold bind at 1, gets at 1;
      cbn [fst snd workspaceBody fmap option_fmap option_map];
      rewrite Hid, bool_decide_eq_true_2 by done;
      unfold bind at 1, emit, modify at 1; cbn [fst snd];
      unfold bind at 1, modify_transaction, modify; cbn [fst snd];
      reflexivity]]]; reflexivity. }
  destruct Heq as (sw & shown & Htxsw & Hcursw & Hev & Heq).
  assert (Hst' : transactions st' = update_transaction id f (transactions st)
                 /\ currentTransactionId st' = Some id
                 /\ last (events st') = Some (EvCreateWorkspaceBlock fieldName blockType)).
  { rewrite Heq. simpl. rewrite Htxsw. split; [done|]. split; [done|].
    by rewrite last_snoc. }
  destruct Hst' as (Htx & Hcur & Hlast).
  split; [|split; [|done]].
  - unfold getCurrentTransaction. rewrite Hcur, Htx. unfold truthy_string.
    rewrite Hne. simpl.
    exact (find_update_twice id f (transactions st) t Hid Hid Hfound).
  - intros id' Hid'. rewrite Htx.
    apply find_update_transaction_ne; [|done]. by intros ? <-.
Qed.

(** X19.  When the delete button removes the only test, which was the
    one being edited, no test is left and none is current; the workspace
    shows nothing; and the preview and the validation fall back on the
    legacy globals [transactionType] and [workspaceBlocks], which still
    hold what was dropped into the workspace earlier. *)
Theorem deleteTest_last st t :
  transactions st = [t] ->
  currentTransactionId st = Some (tx_id t) ->
  let st' := exec (deleteTest FIELDS (tx_id t)) st in
  transactions st' = []
  /\ currentTransactionId st' = None
  /\ workspaceBody st' = None
  /\ buildTransactionObject FIELDS st'
     = buildTransactionObject_of FIELDS (transactionType st) (workspaceBlocks st)
  /\ validationMessages st'
     = verdict (buildTransactionObject_of FIELDS (transactionType st) (workspaceBlocks st))
  /\ events st' = (events st ++ [EvSaveTests []; EvRenderTestQueue []])%list.
Proof.
  intros Htx Hcur st'.
  assert (Hi : findIndex_transaction (tx_id t) (transactions st) = Some 0).
  { rewrite Htx. simpl. by rewrite String.eqb_refl. }
  assert (Hst' : st'
    = mkState [] None (accounts st) (currentNetwork st) (workspaceBlocks st)
        (transactionType st) None
        (verdict (buildTransactionObject_of FIELDS (transactionType st) (workspaceBlocks st)))
        (clockReads st) (sessions st)
        (events st ++ [EvSaveTests []; EvRenderTestQueue []])%list).
  { unfold st', exec, deleteTest. unfold bind at 1.
    rewrite (removeTransaction_found _ _ _ Hi). cbv zeta. cbn [fst snd].
    set (st1 := with_events _ _).
    assert (Htx1 : transactions st1 = []) by (unfold st1; simpl; by rewrite Htx).
    assert (Hst1 : st1
      = mkState [] None (accounts st) (currentNetwork st) (workspaceBlocks st)
          (transactionType st) (workspaceBody st) (validationMessages st)
          (clockReads st) (sessions st) (events st ++ [EvSaveTests []])%list).
    { unfold st1, with_events, with_currentTransactionId, with_transactions. simpl.
      rewrite Htx, Hcur, bool_decide_eq_true_2 by done. done. }
    clearbody st1.
    unfold bind at 1. rewrite renderWorkspace_state. cbn [fst snd].
    rewrite updateJSONOutput_state. cbn [snd].
    unfold buildTransactionObject.
    change (getCurrentTransaction (with_events _ (with_workspaceBody _ st1)))
      with (getCurrentTransaction st1).
    rewrite (getCurrentTransaction_nil _ Htx1), Htx1. subst st1.
    unfold with_validationMessages, with_events, with_workspaceBody, const. simpl.
    by rewrite <- app_assoc. }
  rewrite Hst'. unfold buildTransactionObject, getCurrentTransaction. by simpl.
Qed.

End TypeAndSelection.

(** Typing a fresh test. *)
Lemma setTransactionType_sets_witness :
  getCurrentTransaction
    (exec (setTransactionType (Some "Payment"))
          (fresh_state [fresh_test "tx-1" "Test 1"]))
  = Some (mkTransaction "tx-1" "Test 1" (Some "Payment") [] pending "tesSUCCESS"
            None None None).
Proof.
  refine (proj1 (proj1
    (setTransactionType_sets sample_FIELDS "Payment"
       (fresh_state [fresh_test "tx-1" "Test 1"]) _)
    (fresh_test "tx-1" "Test 1") eq_refl)).
  discriminate.
Defined.

(** Selecting the second of three tests and giving it a fee. *)
Lemma switch_then_addFieldBlock_witness :
  getCurrentTransaction
    (exec (switchToTransaction sample_FIELDS "tx-2" ;; addFieldBlock "Fee" "amount-field")
          (fresh_state three_pending))
  = Some (mkTransaction "tx-2" "Test 2" None [mkBlock "Fee" (VStr "")] pending
            "tesSUCCESS" None None None).
Proof.
  refine (proj1
    (switch_then_addFieldBlock sample_FIELDS "tx-2" "Fee" "amount-field"
       (fresh_state three_pending) (fresh_test "tx-2" "Test 2") eq_refl _ eq_refl)).
  discriminate.
Defined.

(** Deleting the only test, a complete payment: the validation area still
    approves of a transaction. *)
Lemma deleteTest_last_witness :
  validationMessages
    (exec (deleteTest sample_FIELDS "tx-1")
       (mkState
          [mkTransaction "tx-1" "Test 1" (Some "Payment")
             [mkBlock "Account" (VStr "rN7n7otQDd6FczFgLdlqtyMVrn3HMfgnHf");
              mkBlock "Fee" (VStr "12")]
             pending "tesSUCCESS" None None None]
          (Some "tx-1") [] "testnet"
          [mkBlock "Account" (VStr "rN7n7otQDd6FczFgLdlqtyMVrn3HMfgnHf");
           mkBlock "Fee" (VStr "12")]
          (Some "Payment") (Some "tx-1") [] 0 0 []))
  = [("Transaction structure looks good!", success)].
Proof.
  exact (proj1 (proj2 (proj2 (proj2 (proj2
    (deleteTest_last sample_FIELDS
       (mkState
          [mkTransaction "tx-1" "Test 1" (Some "Payment")
             [mkBlock "Account" (VStr "rN7n7otQDd6FczFgLdlqtyMVrn3HMfgnHf");
              mkBlock "Fee" (VStr "12")]
             pending "tesSUCCESS" None None None]
          (Some "tx-1") [] "testnet"
          [mkBlock "Account" (VStr "rN7n7otQDd6FczFgLdlqtyMVrn3HMfgnHf");
           mkBlock "Fee" (VStr "12")]
          (Some "Payment") (Some "tx-1") [] 0 0 [])
       (mkTransaction "tx-1" "Test 1" (Some "Payment")
          [mkBlock "Account" (VStr "rN7n7otQDd6FczFgLdlqtyMVrn3HMfgnHf");
           mkBlock "Fee" (VStr "12")]
          pending "tesSUCCESS" None None None)
       eq_refl eq_refl)))))).
Defined.

(** ** Adding tests, clearing, and what is stored *)

Lemma find_transaction_app id l1 l2 :
  find_transaction id (l1 ++ l2)
  = match find_transaction id l1 with
    | Some t => Some t
    | None => find_transaction id l2
    end.
Proof.
  induction l1 as [|tx l1 IH]; simpl; [done|]. by destruct (tx_id tx =? id).
Qed.

Section WorkspaceFacts.

Variable FIELDS : list (string * FieldInfo).

(** X20.  [handleAddTest] with an id that is new and not empty appends one
    test to the registry: pending, without type, field or result, expecting
    [tesSUCCESS] and named after the counter, which it advances.  That test
    becomes the one being edited and is shown in the workspace; the other
    tests are unchanged and the ids stay distinct; the validation area
    asks for a transaction type; and the new registry is saved. *)
Theorem handleAddTest_adds newId g :
  newId <> "" ->
  newId ∉ List.map tx_id (transactions (core g)) ->
  let g' := handleAddTest FIELDS newId g in
  let new := fresh_test newId (default_name (nextTransactionNumber g)) in
  transactions (core g') = (transactions (core g) ++ [new])%list
  /\ getCurrentTransaction (core g') = Some new
  /\ workspaceBody (core g') = Some newId
  /\ nextTransactionNumber g' = S (nextTransactionNumber g)
  /\ (NoDup (List.map tx_id (transactions (core g))) ->
      NoDup (List.map tx_id (transactions (core g'))))
  /\ validationMessages (core g') = [("Transaction Type is required", error)]
  /\ EvSaveTests (transactions (core g')) ∈ events (core g').
Proof.
  intros Hne Hnew g' new.
  assert (Hg' : core g'
    = mkState (transactions (core g) ++ [new])%list (Some newId) (accounts (core g))
        (currentNetwork (core g)) (workspaceBlocks (core g)) (transactionType (core g))
        (Some newId) [("Transaction Type is required", error)]
        (clockReads (core g)) (sessions (core g))
        (events (core g)
         ++ [EvRenderTestQueue (transactions (core g) ++ [new])%list;
             EvSaveTests (transactions (core g) ++ [new])%list;
             EvToast ("Added " +:+ dquote +:+ tx_name new +:+ dquote) success])%list
    /\ nextTransactionNumber g' = S (nextTransactionNumber g)).
  { unfold g', handleAddTest, addTransaction, createTransaction. cbn [truthy_string].
    split; [|done].
    unfold on_core. cbn [core draggedData nextTransactionNumber].
    unfold exec at 2, bind at 1, modify. cbn [fst snd].
    unfold exec. unfold bind at 1.
    match goal with |- context [renderWorkspace FIELDS ?s] => set (st1 := s) end.
    assert (Hcur : getCurrentTransaction st1 = Some new).
    { unfold getCurrentTransaction, st1. simpl. apply String.eqb_neq in Hne.
      rewrite Hne. simpl. rewrite find_transaction_app.
      rewrite find_transaction_not_in by done. simpl. by rewrite String.eqb_refl. }
    rewrite renderWorkspace_state. cbn [fst snd].
    unfold bind at 1. rewrite updateJSONOutput_state. cbn [fst snd].
    unfold buildTransactionObject.
    change (getCurrentTransaction (with_events _ (with_workspaceBody _ st1)))
      with (getCurrentTransaction st1).
    rewrite Hcur.
    unfold saveTestsToStorage, showToast, bind, gets, emit, modify. cbn [fst snd].
    unfold with_validationMessages, with_events, with_workspaceBody, const, st1. simpl.
    by rewrite <- !app_assoc. }
  destruct Hg' as [Hg' Hnext]. rewrite Hg'. simpl.
  split; [done|]. split.
  { unfold getCurrentTransaction. simpl. apply String.eqb_neq in Hne.
    rewrite Hne. simpl. rewrite find_transaction_app.
    rewrite find_transaction_not_in by done. simpl. by rewrite String.eqb_refl. }
  split; [done|]. split; [done|]. split; [|split; [done|]].
  - intros Hnd. rewrite List.map_app. apply NoDup_app. split; [done|]. split.
    + intros x Hx [->|[]%not_elem_of_nil]%elem_of_cons. by apply Hnew.
    + simpl. apply NoDup_singleton.
  - apply elem_of_app. right. set_solver.
Qed.

(** X21.  [clearWorkspace] leaves exactly one test, fresh and named
    "Test 1", which is the one being edited; the counter is 2, the legacy
    globals are empty and the validation area shows nothing.  It redraws
    but does not save: the stored tests are the old ones until something
    else saves. *)
Theorem clearWorkspace_resets newId g :
  newId <> "" ->
  let g' := clearWorkspace FIELDS newId g in
  transactions (core g') = [fresh_test newId "Test 1"]
  /\ getCurrentTransaction (core g') = Some (fresh_test newId "Test 1")
  /\ nextTransactionNumber g' = 2
  /\ workspaceBlocks (core g') = [] /\ transactionType (core g') = None
  /\ workspaceBody (core g') = Some newId
  /\ validationMessages (core g') = []
  /\ events (core g')
     = (events (core g) ++ [EvRenderTestQueue [fresh_test newId "Test 1"]])%list.
Proof.
  intros Hne g'. apply String.eqb_neq in Hne.
  set (new := fresh_test newId "Test 1").
  assert (Hg' : core g'
    = mkState [new] (Some newId) (accounts (core g)) (currentNetwork (core g))
        [] None (Some newId) [] (clockReads (core g)) (sessions (core g))
        (events (core g) ++ [EvRenderTestQueue [new]])%list
    /\ nextTransactionNumber g' = 2).
  { unfold g', clearWorkspace, addTransaction, createTransaction. cbn [truthy_string].
    change (negb ("Test 1" =? "")) with true. cbn [default].
    split; [|done].
    unfold on_core. cbn [core draggedData nextTransactionNumber].
    unfold exec at 2, bind at 1, modify. cbn [fst snd].
    unfold exec. unfold bind at 1.
    match goal with |- context [renderWorkspace FIELDS ?s] => set (st1 := s) end.
    assert (Hcur : getCurrentTransaction st1 = Some new).
    { unfold getCurrentTransaction, st1. simpl. rewrite Hne. simpl.
      by rewrite String.eqb_refl. }
    rewrite renderWorkspace_state. cbn [fst snd].
    unfold bind at 1. rewrite updateJSONOutput_state. cbn [fst snd].
    rewrite Hcur. unfold clearValidationMessages, modify. by cbn [fst snd]. }
  destruct Hg' as [Hg' Hnext]. rewrite Hg'. simpl. repeat split; try done.
  unfold getCurrentTransaction. simpl. rewrite Hne. simpl. by rewrite String.eqb_refl.
Qed.

End WorkspaceFacts.

(** X22.  What [saveTestsToStorage] stores, [loadTestsFromStorage] gives
    back (the JSON text being read back as the object that was written):
    the registry as it was, the selection when it was set (the first test
    otherwise), and the counter when it was positive (1 otherwise); a
    selection that was valid is valid again; and the call reports that
    tests were loaded.  With nothing stored, or with a text that does not
    parse, it reports [false] and changes nothing. *)
Theorem loadTestsFromStorage_round_trip (g g0 : Globals) :
  let r := loadTestsFromStorage (Some (stored_tests g)) g0 in
  fst r = true
  /\ transactions (core (snd r)) = transactions (core g)
  /\ (truthy_string (currentTransactionId (core g)) = true ->
      currentTransactionId (core (snd r)) = currentTransactionId (core g))
  /\ (truthy_string (currentTransactionId (core g)) = false ->
      currentTransactionId (core (snd r)) = tx_id <$> head (transactions (core g)))
  /\ (0 < nextTransactionNumber g ->
      nextTransactionNumber (snd r) = nextTransactionNumber g)
  /\ (current_valid (core g) -> current_valid (core (snd r)))
  /\ loadTestsFromStorage None g0 = (false, g0).
Proof.
  cbv zeta. unfold loadTestsFromStorage, stored_tests.
  cbn [td_transactions td_currentTransactionId td_nextTransactionNumber default
       fst snd core nextTransactionNumber].
  set (current := if truthy_string (currentTransactionId (core g))
                  then currentTransactionId (core g) else None).
  set (st0 := with_transactions _ (core g0)).
  set (current' := match transactions (core g) with
                   | [] => current
                   | tx :: _ => match current with
                                | Some _ => current
                                | None => Some (tx_id tx)
                                end
                   end).
  assert (Hcur' : currentTransactionId (with_currentTransactionId (fun _ => current') st0)
                  = current') by done.
  assert (Htx' : transactions (with_currentTransactionId (fun _ => current') st0)
                 = transactions (core g)) by done.
  match goal with |- context [with_currentTransactionId ?f st0] =>
    change (with_currentTransactionId f st0)
      with (with_currentTransactionId (fun _ => current') st0) end.
  set (st' := with_currentTransactionId (fun _ => current') st0) in *.
  clearbody st'. clear st0.
  split; [done|]. split; [done|].
  split; [|split; [|split; [|split; [|done]]]].
  - intros Hc. rewrite Hcur'. unfold current', current. rewrite Hc.
    destruct (transactions (core g)); [done|].
    destruct (currentTransactionId (core g)); done.
  - intros Hc. rewrite Hcur'. unfold current', current. rewrite Hc.
    by destruct (transactions (core g)).
  - intros Hpos. destruct (nextTransactionNumber g); [lia|done].
  - unfold current_valid, getCurrentTransaction. rewrite Htx', Hcur'.
    intros Hvalid Hne. specialize (Hvalid Hne).
    destruct (truthy_string (currentTransactionId (core g))) eqn:Hc;
      [|by destruct Hvalid].
    unfold current', current in *.
    destruct (transactions (core g)) as [|tx rest]; [done|].
    destruct (currentTransactionId (core g)) as [c|]; [|done].
    by rewrite ?Hc.
Qed.

(** A second test added to a registry of one. *)
Lemma handleAddTest_adds_witness :
  getCurrentTransaction
    (core (handleAddTest sample_FIELDS "tx-2"
             (mkGlobals (fresh_state [fresh_test "tx-1" "Test 1"]) None 2)))
  = Some (fresh_test "tx-2" "Test 2").
Proof.
  refine (proj1 (proj2
    (handleAddTest_adds sample_FIELDS "tx-2"
       (mkGlobals (fresh_state [fresh_test "tx-1" "Test 1"]) None 2) _ _))).
  - discriminate.
  - apply (bool_decide_unpack _). by vm_compute.
Defined.

(** Clearing a workspace of three tests. *)
Lemma clearWorkspace_resets_witness :
  transactions
    (core (clearWorkspace sample_FIELDS "tx-4"
             (mkGlobals (fresh_state three_pending) None 4)))
  = [fresh_test "tx-4" "Test 1"].
Proof.
  refine (proj1
    (clearWorkspace_resets sample_FIELDS "tx-4"
       (mkGlobals (fresh_state three_pending) None 4) _)).
  discriminate.
Defined.

(** ** Accounts and field kinds *)

Lemma bind_gets {A B} (f : State -> A) (k : A -> M B) st :
  bind (gets f) k st = k (f st) st.
Proof. reflexivity. Qed.

(** Every listed account has its information fetched: one client each,
    asked to connect. *)
Lemma renderAccounts_state st :
  renderAccounts st
  = (Returns tt,
     with_events
       (fun ev => (ev ++ replicate (length (accounts st))
                           (EvConnect (NETWORK_ENDPOINTS (currentNetwork st))))%list)
       (with_sessions (fun k => k + length (accounts st)) st)).
Proof.
  unfold renderAccounts, bind at 1, gets at 1. cbn [fst snd].
  assert (Hloop : forall (accs : list Account) st,
    forEach accs (fun account => fetchAccountInfo_begin (acc_address account)) st
    = (Returns tt,
       with_events
         (fun ev => (ev ++ replicate (length accs)
                             (EvConnect (NETWORK_ENDPOINTS (currentNetwork st))))%list)
         (with_sessions (fun k => k + length accs) st))).
  { clear st. induction accs as [|a accs IH]; intros st.
    - simpl. unfold ret. f_equal. destruct st. unfold with_events, with_sessions. simpl.
      by rewrite app_nil_r, Nat.add_0_r.
    - simpl. unfold bind at 1, fetchAccountInfo_begin.
      unfold bind at 1, gets at 1. cbn [fst snd].
      unfold bind at 1, new_Client.
      unfold bind at 1, gets at 1. cbn [fst snd].
      unfold bind at 1, modify at 1. cbn [fst snd]. unfold ret at 1. cbn [fst snd].
      unfold emit, modify at 1. cbn [fst snd].
      rewrite IH. f_equal. destruct st. unfold with_events, with_sessions. simpl.
      rewrite <- app_assoc. simpl. f_equal. lia. }
  apply Hloop.
Qed.

(** X23.  [addAccount] never stores a seed and never changes an account
    that is there.  Either the account list stays as it is, no client is
    made and at most one toast is shown; or the list gains one seedless
    account whose address is the trimmed input, passes
    [isValidXRPLAddress] and was not in the list, and then the redrawn list
    fetches the information of every listed account, the new one
    included: one client each, asked to connect, before the toast
    confirming the addition.  In both cases the account that
    [runSingleTest] would sign with is the same before and after, distinct
    addresses stay distinct, and no test changes. *)
Theorem addAccount_adds_no_signer (input : option string) (st : State) :
  let st' := exec (addAccount input) st in
  let signing := fun acc => truthy_string (acc_seed acc) in
  fst (addAccount input st) = Returns tt
  /\ transactions st' = transactions st
  /\ List.find signing (accounts st') = List.find signing (accounts st)
  /\ (NoDup (List.map acc_address (accounts st)) ->
      NoDup (List.map acc_address (accounts st')))
  /\ ((accounts st' = accounts st
       /\ sessions st' = sessions st
       /\ exists shown,
            events st' = (events st ++ shown)%list
            /\ length shown <= 1
            /\ Forall (fun e => is_network_event e = false) shown)
      \/ exists address,
           input = Some address
           /\ accounts st' = (accounts st ++ [mkAccount (JS.trim address) None])%list
           /\ isValidXRPLAddress (JS.trim address) = true
           /\ (JS.trim address ∉ List.map acc_address (accounts st))
           /\ sessions st' = sessions st + length (accounts st')
           /\ events st'
              = (events st
                 ++ replicate (length (accounts st'))
                      (EvConnect (NETWORK_ENDPOINTS (currentNetwork st)))
                 ++ [EvToast ("Account added: " +:+ JS.trim address) success])%list).
Proof.
  intros st' signing.
  assert (Hret : fst (addAccount input st) = Returns tt).
  { unfold addAccount. destruct input as [address|]; [|done].
    destruct (_ || _); [done|]. destruct (isValidXRPLAddress _); [|done].
    cbn [negb]. rewrite bind_gets.
    destruct (List.find _ (accounts st)); [done|].
    unfold bind at 1, modify at 1. cbn [fst snd].
    unfold bind at 1. by rewrite renderAccounts_state. }
  assert (Hcases :
    st' = st
    \/ (exists m l, st' = with_events (fun ev => (ev ++ [EvToast m l])%list) st)
    \/ exists address,
         input = Some address
         /\ isValidXRPLAddress (JS.trim address) = true
         /\ (JS.trim address ∉ List.map acc_address (accounts st))
         /\ st' = mkState (transactions st) (currentTransactionId st)
                    (accounts st ++ [mkAccount (JS.trim address) None])%list
                    (currentNetwork st) (workspaceBlocks st) (transactionType st)
                    (workspaceBody st) (validationMessages st) (clockReads st)
                    (sessions st + length (accounts st ++ [mkAccount (JS.trim address) None])%list)
                    (events st
                     ++ replicate (length (accounts st ++ [mkAccount (JS.trim address) None])%list)
                          (EvConnect (NETWORK_ENDPOINTS (currentNetwork st)))
                     ++ [EvToast ("Account added: " +:+ JS.trim address) success])%list).
  { unfold st', exec, addAccount.
    destruct input as [address|]; [|by left].
    destruct (_ || _); [by left|].
    destruct (isValidXRPLAddress (JS.trim address)) eqn:Hvalid; cbn [negb];
      [|right; left; eexists _, _; reflexivity].
    rewrite bind_gets.
    destruct (List.find _ (accounts st)) as [acc|] eqn:Hfind;
      [right; left; eexists _, _; reflexivity|].
    right. right. exists address.
    split; [done|]. split; [done|]. split.
    { intros Hin. apply (list_elem_of_fmap_1 acc_address) in Hin as (acc & Hacc & Hin).
      apply list_elem_of_In in Hin.
      apply (List.find_none _ _ Hfind) in Hin. simpl in Hin.
      rewrite Hacc, String.eqb_refl in Hin. done. }
    unfold bind at 1, modify at 1. cbn [fst snd].
    unfold bind at 1. rewrite renderAccounts_state. cbn [fst snd].
    unfold showToast, emit, modify. cbn [snd].
    unfold with_events, with_sessions, with_accounts. simpl.
    by rewrite <- app_assoc. }
  clearbody st'.
  destruct Hcases as [->|[(m & l & ->)|(address & -> & Hvalid & Hnew & ->)]].
  - split; [done|]. split; [done|]. split; [done|]. split; [done|]. left.
    split; [done|]. split; [done|]. exists [].
    split; [by rewrite app_nil_r|]. split; [simpl; lia|done].
  - split; [done|]. split; [done|]. split; [done|]. split; [done|]. left.
    split; [done|]. split; [done|]. eexists.
    split; [reflexivity|]. split; [simpl; lia|by repeat constructor].
  - simpl. split; [done|]. split; [done|]. split.
    { unfold signing. clear. induction (accounts st) as [|a rest IH]; simpl; [done|].
      by destruct (truthy_string (acc_seed a)). }
    split.
    { intros Hnd. rewrite List.map_app. apply NoDup_app. split; [done|]. split.
      - intros x Hx [->|[]%not_elem_of_nil]%elem_of_cons. by apply Hnew.
      - simpl. apply NoDup_singleton. }
    right. by exists address.
Qed.

(** X24.  [getBlockTypeForField] gives a field the block kind
    [number-field] exactly when [convertFieldValue] reads the field's
    value as a number, and the kind [amount-field] exactly for the type on
    which [buildTransactionObjectFromTest] keeps the string. *)
Theorem getBlockTypeForField_agrees (fieldInfo : FieldInfo) :
  (getBlockTypeForField fieldInfo = "number-field"
   <-> is_numeric_type (fi_type fieldInfo) = true)
  /\ (getBlockTypeForField fieldInfo = "amount-field"
      <-> is_Amount (Some fieldInfo) = true)
  /\ (forall value num,
        JS.parseInt value = Some num ->
        (convertFieldValue value (Some fieldInfo) = JS.Num num
         <-> getBlockTypeForField fieldInfo = "number-field")).
Proof.
  assert (Hnum : forall type, is_numeric_type type = true ->
            (type =? "AccountID") = false /\ (type =? "Amount") = false).
  { intros type H. split; apply String.eqb_neq; intros ->; by vm_compute in H. }
  assert (Hconv : forall value num, JS.parseInt value = Some num ->
            convertFieldValue value (Some fieldInfo)
            = if fi_type fieldInfo =? "Amount" then JS.Str value
              else if is_numeric_type (fi_type fieldInfo) then JS.Num num
                   else JS.Str value).
  { intros value num Hp. unfold convertFieldValue. by rewrite Hp. }
  assert (Hkind : getBlockTypeForField fieldInfo
            = if fi_type fieldInfo =? "AccountID" then "account-field"
              else if fi_type fieldInfo =? "Amount" then "amount-field"
              else if is_numeric_type (fi_type fieldInfo) then "number-field"
              else if JS.startsWith (fi_type fieldInfo) "Hash" then "hash-field"
              else if fi_type fieldInfo =? "Blob" then "blob-field"
              else "common-field") by done.
  rewrite Hkind. unfold is_Amount.
  destruct (is_numeric_type (fi_type fieldInfo)) eqn:Hn.
  - destruct (Hnum _ Hn) as [Ha Hm]. rewrite Ha, Hm.
    split; [done|]. split; [done|].
    intros value num Hp. rewrite (Hconv _ _ Hp), Hm. done.
  - destruct (fi_type fieldInfo =? "AccountID") eqn:Ha.
    { assert (Hm : (fi_type fieldInfo =? "Amount") = false)
        by (apply String.eqb_eq in Ha; by rewrite Ha).
      split; [done|]. split; [by rewrite Hm|].
      intros value num Hp. by rewrite (Hconv _ _ Hp), Hm. }
    destruct (fi_type fieldInfo =? "Amount") eqn:Hm.
    { split; [done|]. split; [done|].
      intros value num Hp. by rewrite (Hconv _ _ Hp). }
    split; [|split].
    + by destruct (JS.startsWith _ "Hash"), (fi_type fieldInfo =? "Blob").
    + by destruct (JS.startsWith _ "Hash"), (fi_type fieldInfo =? "Blob").
    + intros value num Hp. rewrite (Hconv _ _ Hp).
      by destruct (JS.startsWith _ "Hash"), (fi_type fieldInfo =? "Blob").
Qed.

(** ** Generated addresses *)

Lemma string_append_cons c s1 s2 : String c s1 +:+ s2 = String c (s1 +:+ s2).
Proof. done. Qed.

Lemma string_append_nil_r s : s +:+ "" = s.
Proof. induction s as [|c s IH]; [done|]. by rewrite string_append_cons, IH. Qed.

Lemma string_append_assoc s1 s2 s3 : (s1 +:+ s2) +:+ s3 = s1 +:+ (s2 +:+ s3).
Proof. induction s1 as [|c s1 IH]; [done|]. by rewrite !string_append_cons, IH. Qed.

Lemma all_chars_append p s1 s2 :
  all_chars p (s1 +:+ s2) = all_chars p s1 && all_chars p s2.
Proof.
  induction s1 as [|c s1 IH]; [done|].
  rewrite string_append_cons. simpl. rewrite IH. by destruct (p c).
Qed.

Lemma string_length_append s1 s2 :
  String.length (s1 +:+ s2) = String.length s1 + String.length s2.
Proof. induction s1 as [|c s1 IH]; [done|]. rewrite string_append_cons. simpl. by rewrite IH. Qed.

(** Every character of the alphabet is in the class of the validator. *)
Lemma address_chars_base58 i :
  i < 58 ->
  exists c, charAt address_chars i = String c EmptyString /\ is_base58 c = true.
Proof.
  intros Hi.
  assert (Hall : forallb
            (fun i => match String.get i address_chars with
                      | Some c => is_base58 c
                      | None => false
                      end) (seq 0 58) = true) by (by vm_compute).
  rewrite forallb_forall in Hall. specialize (Hall i).
  unfold charAt. destruct (String.get i address_chars) as [c|].
  - exists c. split; [done|]. apply Hall. apply in_seq. lia.
  - discriminate Hall. apply in_seq. lia.
Qed.

Lemma append_picks_spec picks n : forall i address,
  (forall i, picks i < 58) ->
  exists tail,
    append_picks picks n i address = address +:+ tail
    /\ String.length tail = n /\ all_chars is_base58 tail = true.
Proof.
  induction n as [|n IH]; intros i address Hp; simpl.
  - exists "". by rewrite string_append_nil_r.
  - destruct (address_chars_base58 (picks i) (Hp i)) as (c & -> & Hc).
    destruct (IH (S i) (address +:+ String c "") Hp) as (tail & -> & Hlen & Hall).
    exists (String c tail). split; [|split].
    + by rewrite string_append_assoc.
    + simpl. by rewrite Hlen.
    + simpl. by rewrite Hc, Hall.
Qed.

(** X25.  Whatever the random picks (each an index into the 58-character
    alphabet), the address that [generateTestAddress] makes has 34
    characters and is accepted by [isValidXRPLAddress]. *)
Theorem generateTestAddress_valid (picks : nat -> nat) :
  (forall i, picks i < 58) ->
  isValidXRPLAddress (generateTestAddress picks) = true
  /\ String.length (generateTestAddress picks) = 34.
Proof.
  intros Hp. unfold generateTestAddress.
  destruct (append_picks_spec picks 33 0 "r" Hp) as (tail & -> & Hlen & Hall).
  change ("r" +:+ tail) with (String "r" tail).
  simpl. rewrite Hall, Hlen. done.
Qed.

(** The address made when every pick is the first character. *)
Lemma generateTestAddress_valid_witness :
  isValidXRPLAddress (generateTestAddress (fun _ => 0)) = true.
Proof.
  refine (proj1 (generateTestAddress_valid (fun _ => 0) _)).
  intros _. unfold lt. repeat constructor.
Defined.

(** ** Running the test being edited *)

Section RunCurrent.

Variable FIELDS : list (string * FieldInfo).
Variable JSON_parse : string -> option JS.Value.
Variable net : nat -> NetSession.
Variable Date_now : nat -> Timestamp.

(** X26.  [runCurrentTest] runs the test being edited and no other: it
    returns normally, that test is still the one being edited and ends
    [passed] or [failed] with its id, name, type, blocks and expected
    result unchanged, and every other id is looked up as before.  When no
    test is being edited it shows a warning and does nothing else. *)
Theorem runCurrentTest_settles st :
  let r := runCurrentTest FIELDS JSON_parse net Date_now st in
  fst r = Returns tt
  /\ (forall t, getCurrentTransaction st = Some t ->
        (exists t', getCurrentTransaction (snd r) = Some t'
                    /\ final_status t' /\ tx_static t' = tx_static t)
        /\ forall id', id' <> tx_id t ->
             find_transaction id' (transactions (snd r))
             = find_transaction id' (transactions st))
  /\ (getCurrentTransaction st = None ->
      snd r = with_events (fun l => (l ++ [EvToast "No test selected" warning])%list) st).
Proof.
  cbv zeta.
  assert (Heq : runCurrentTest FIELDS JSON_parse net Date_now st
                = match getCurrentTransaction st with
                  | None => showToast "No test selected" warning st
                  | Some tx => runSingleTest FIELDS JSON_parse net Date_now (tx_id tx) st
                  end).
  { unfold runCurrentTest, bind, gets. cbn [fst snd].
    by destruct (getCurrentTransaction st). }
  rewrite Heq. clear Heq.
  destruct (getCurrentTransaction st) as [t|] eqn:Hcur;
    [|split; [done|]; split; [done|]; intros _; reflexivity].
  destruct (getCurrentTransaction_Some _ _ Hcur) as [Hc Hfound].
  destruct (runSingleTest_total FIELDS JSON_parse net Date_now (tx_id t) st)
    as (st' & Hrun & Hstep & Hsettled).
  destruct (runSingleTest_returns FIELDS JSON_parse net Date_now (tx_id t) st)
    as (st'' & Hrun' & _ & Hui & _).
  rewrite Hrun in Hrun'. injection Hrun' as <-.
  rewrite Hrun. cbn [fst snd]. split; [done|]. split; [|done].
  intros ? [= <-]. destruct Hstep as (g & Hg & Htx).
  destruct Hsettled as (t' & Hfind' & Hfinal); [unfold found; congruence|].
  split.
  - exists t'. split; [|split; [done|]].
    + unfold getCurrentTransaction in *. destruct Hui as [-> _].
      rewrite Hc in *. by destruct (truthy_string _).
    + rewrite Htx in Hfind'.
      rewrite (find_update_transaction _ g _ t (tx_static_id _ _ Hg) Hfound) in Hfind'.
      injection Hfind' as <-. apply Hg.
  - intros id' Hne. rewrite Htx.
    apply find_update_transaction_ne; [by apply tx_static_id|done].
Qed.

End RunCurrent.
